(** * Car evaluation records: progress, status and ownership

    A shallow embedding of the evaluation core of the TypeScript backend:
    the [CarEvaluation] model (schema, [getSummary], [calculateProgress]),
    the request validators of [validators/evaluation.js], the error handler
    and the eight controllers of [controllers/evaluations.ts].

    Conventions.
    - A collection is a finite map from [_id] to the stored document; an
      operation takes the collection and returns its response, together
      with the new collection when it can write.
    - JavaScript numbers carried by documents are integers ([Z]); the
      fractions that only occur inside the mocked estimators are rationals,
      and a division that can meet a zero divisor yields a [Js.Number]
      (a number, an infinity or [NaN]).
    - Strings are ASCII strings, so [String.length] is the JavaScript
      [length].
    - A request body is a JSON document with the keys and types of the
      schema: it carries no [NaN], and an object lists its keys in the
      order of the schema, which is then the order of the messages of a
      validation failure.
    - [Date.now()], [new Date().getFullYear()], the [_id] given to a new
      document and the results of [Math.random()] and [randomBytes] are
      inputs of the operation that reads them.
    - The persistence library is modelled in [Model] by what the
      controllers rely on: a filter compares the stored value of its key;
      update validators run on the body before the query is sent; [save]
      validates the whole document and rejects an invalid one, and
      otherwise writes, and stamps [updatedAt], when a path was
      modified. *)

From Stdlib Require Import ZArith QArith Qround Qminmax Lqa String Ascii List Bool Lia.
From stdpp Require Import gmap strings list pretty sorting.
Import ListNotations.

Local Open Scope string_scope.
Local Open Scope list_scope.
Local Open Scope Z_scope.

(** ** JavaScript values *)

Module Js.

(** Truthiness of a number: every number but [0] is truthy. *)
Definition truthyNum (n : Z) : bool := negb (n =? 0).

(** Truthiness of a string: every string but the empty one. *)
Definition truthyStr (s : string) : bool :=
  match s with EmptyString => false | String _ _ => true end.

(** [Math.round]: the nearest integer, halves towards plus infinity. *)
Definition round (q : Q) : Z := Qfloor (q + (1 # 2))%Q.

(** [x < c] on numbers. *)
Definition lt (x c : Q) : bool := negb (Qle_bool c x).

(** [a || b] on numbers. *)
Definition orNum (a b : Z) : Z := if truthyNum a then a else b.

(** [String.prototype.toUpperCase] on ASCII. *)
Definition upperChar (c : ascii) : ascii :=
  let n := N_of_ascii c in
  if ((97 <=? n) && (n <=? 122))%N then ascii_of_N (n - 32) else c.

Fixpoint toUpperCase (s : string) : string :=
  match s with
  | EmptyString => EmptyString
  | String c r => String (upperChar c) (toUpperCase r)
  end.

(** White space removed by [trim]: space, tab, line feed, vertical tab,
    form feed, carriage return. *)
Definition isSpace (c : ascii) : bool :=
  let n := N_of_ascii c in
  ((n =? 32) || ((9 <=? n) && (n <=? 13)))%N.

Fixpoint trimStart (s : string) : string :=
  match s with
  | EmptyString => EmptyString
  | String c r => if isSpace c then trimStart r else s
  end.

Fixpoint trimEnd (s : string) : string :=
  match s with
  | EmptyString => EmptyString
  | String c r =>
      match trimEnd r with
      | EmptyString => if isSpace c then EmptyString else String c EmptyString
      | r' => String c r'
      end
  end.

Definition trim (s : string) : string := trimEnd (trimStart s).

Fixpoint allChars (p : ascii -> bool) (s : string) : bool :=
  match s with
  | EmptyString => true
  | String c r => p c && allChars p r
  end.

(** A number that need not be finite: the result of a division, and what
    a [Number] path is assigned. *)
Inductive Number (A : Type) :=
  | Finite (x : A)
  | Infinity
  | NegInfinity
  | NaN.

Arguments Finite {A} x.
Arguments Infinity {A}.
Arguments NegInfinity {A}.
Arguments NaN {A}.

(** [a / b] on integers.  A zero divisor that comes out of [Math.round]
    is [-0] when the rounded number was negative, which [negativeZero]
    tells; a zero dividend is [+0] here, since [x - (-0)] is [+0] for
    [x = 0]. *)
Definition div (a b : Z) (negativeZero : bool) : Number Q :=
  if b =? 0 then
    if a =? 0 then NaN
    else if xorb (a <? 0) negativeZero then NegInfinity else Infinity
  else Finite (inject_Z a / inject_Z b)%Q.

(** [x * c] for a positive constant [c]. *)
Definition times (x : Number Q) (c : Q) : Number Q :=
  match x with
  | Finite q => Finite (q * c)%Q
  | Infinity => Infinity
  | NegInfinity => NegInfinity
  | NaN => NaN
  end.

(** [x < c]: every comparison with [NaN] is false. *)
Definition ltNumber (x : Number Q) (c : Q) : bool :=
  match x with
  | Finite q => lt q c
  | Infinity => false
  | NegInfinity => true
  | NaN => false
  end.

(** Whether [q] lies half-way between two integers. *)
Definition isHalf (q : Q) : bool :=
  Qeq_bool (q + (1 # 2)) (inject_Z (Qfloor (q + (1 # 2)))).

(** [Math.round] of a quotient.  The floating-point value of a quotient
    that is exactly half-way between two integers may lie just below the
    half, and is then rounded down; [halfDown] tells whether it does.
    Away from the halves the floating-point value rounds as the exact
    one. *)
Definition roundNumber (halfDown : bool) (x : Number Q) : Number Z :=
  match x with
  | Finite q => Finite (if halfDown && isHalf q then round q - 1 else round q)
  | Infinity => Infinity
  | NegInfinity => NegInfinity
  | NaN => NaN
  end.

(** A value between double quotes, as the library's messages show it. *)
Definition quoted (s : string) : string :=
  String "034"%char (s +:+ String "034"%char EmptyString).

End Js.

(** ** Data model ([types/index.ts] and the [CarEvaluation] schema) *)

(** A well-formed [_id] (a malformed one never reaches the collection: the
    cast fails and the error handler answers it), and a point in time. *)
Definition ObjectId := N.
Definition Time := Z.

Inductive Status :=
  | Draft | Analyzing | InProgress | AwaitingCarfax | Completed | Archived.

Inductive PassFail := CheckPass | CheckFail.
Inductive ResultStatus := ResultPass | ResultFail | ResultWarning.
Inductive Priority := Low | Medium | High.

Record ICarDetails := {
  year : Z;
  make : string;
  model : string;
  mileage : Z;
  price : Z;
  vin : option string;
  description : option string
}.

Record Photo := {
  photo_id : string;
  filename : string;
  url : string;
  uploadedAt : Time
}.

Record CarfaxReport := {
  accidents : Z;
  owners : Z;
  serviceRecords : Z;
  titleIssues : list string;
  recalls : Z
}.

Record ICarfaxData := {
  requested : bool;
  purchased : bool;
  wantCarfax : bool;
  carfax_price : Z;
  carfax_vin : string;
  reportId : option string;
  carfax_data : option CarfaxReport
}.

Record Comparable := {
  source : string;
  comparable_price : Z;
  comparable_mileage : Z;
  location : string
}.

Record IMarketAnalysis := {
  estimatedValue : Z;
  priceVsMarket : Js.Number Z;
  dealScore : Z;
  comparable : list Comparable
}.

Record IInspectionResult := {
  category : string;
  item : string;
  result_status : ResultStatus;
  result_notes : option string
}.

Record GeneralInspection := {
  general_completed : bool;
  notes : option string;
  issues : list string
}.

Record MechanicalInspection := {
  mechanical_completed : bool;
  results : list IInspectionResult
}.

Record PaperworkInspection := {
  paperwork_completed : bool;
  vinMatch : option PassFail;
  titleStatus : option string;
  ownershipVerified : option PassFail;
  liens : list string
}.

Record IInspection := {
  general : GeneralInspection;
  mechanical : MechanicalInspection;
  paperwork : PaperworkInspection
}.

Record IRepairCost := {
  issue : string;
  estimatedCost : Z;
  priority : Priority
}.

Record IRecommendations := {
  suggestedOffer : Z;
  maxOffer : Z;
  walkAwayPrice : Z;
  repairCosts : list IRepairCost;
  negotiationPoints : list string
}.

(** A stored document.  [userId] is the schema's owner reference.  The
    TypeScript schema declares no [sessionId] path, so the model never
    writes one; the field is what the collection holds under that key (the
    filter of the guest queries reads it). *)
Record ICarEvaluation := {
  userId : option string;
  sessionId : option string;
  carDetails : ICarDetails;
  photos : list Photo;
  carfax : ICarfaxData;
  marketAnalysis : option IMarketAnalysis;
  inspection : IInspection;
  recommendations : option IRecommendations;
  status : Status;
  progress : Z;
  createdAt : Time;
  updatedAt : Time
}.

#[global] Instance Status_eq_dec : EqDecision Status.
Proof. solve_decision. Defined.
#[global] Instance PassFail_eq_dec : EqDecision PassFail.
Proof. solve_decision. Defined.
#[global] Instance ResultStatus_eq_dec : EqDecision ResultStatus.
Proof. solve_decision. Defined.
#[global] Instance Priority_eq_dec : EqDecision Priority.
Proof. solve_decision. Defined.
#[global] Instance ICarDetails_eq_dec : EqDecision ICarDetails.
Proof. solve_decision. Defined.
#[global] Instance Photo_eq_dec : EqDecision Photo.
Proof. solve_decision. Defined.
#[global] Instance CarfaxReport_eq_dec : EqDecision CarfaxReport.
Proof. solve_decision. Defined.
#[global] Instance ICarfaxData_eq_dec : EqDecision ICarfaxData.
Proof. solve_decision. Defined.
#[global] Instance Comparable_eq_dec : EqDecision Comparable.
Proof. solve_decision. Defined.
#[global] Instance Number_eq_dec `{EqDecision A} : EqDecision (Js.Number A).
Proof. solve_decision. Defined.
#[global] Instance IMarketAnalysis_eq_dec : EqDecision IMarketAnalysis.
Proof. solve_decision. Defined.
#[global] Instance IInspectionResult_eq_dec : EqDecision IInspectionResult.
Proof. solve_decision. Defined.
#[global] Instance GeneralInspection_eq_dec : EqDecision GeneralInspection.
Proof. solve_decision. Defined.
#[global] Instance MechanicalInspection_eq_dec : EqDecision MechanicalInspection.
Proof. solve_decision. Defined.
#[global] Instance PaperworkInspection_eq_dec : EqDecision PaperworkInspection.
Proof. solve_decision. Defined.
#[global] Instance IInspection_eq_dec : EqDecision IInspection.
Proof. solve_decision. Defined.
#[global] Instance IRepairCost_eq_dec : EqDecision IRepairCost.
Proof. solve_decision. Defined.
#[global] Instance IRecommendations_eq_dec : EqDecision IRecommendations.
Proof. solve_decision. Defined.
#[global] Instance ICarEvaluation_eq_dec : EqDecision ICarEvaluation.
Proof. solve_decision. Defined.

(** Field assignments on a document. *)
Definition set_status (s : Status) (e : ICarEvaluation) : ICarEvaluation :=
  {| userId := userId e; sessionId := sessionId e; carDetails := carDetails e;
     photos := photos e; carfax := carfax e; marketAnalysis := marketAnalysis e;
     inspection := inspection e; recommendations := recommendations e;
     status := s; progress := progress e;
     createdAt := createdAt e; updatedAt := updatedAt e |}.

Definition set_progress (p : Z) (e : ICarEvaluation) : ICarEvaluation :=
  {| userId := userId e; sessionId := sessionId e; carDetails := carDetails e;
     photos := photos e; carfax := carfax e; marketAnalysis := marketAnalysis e;
     inspection := inspection e; recommendations := recommendations e;
     status := status e; progress := p;
     createdAt := createdAt e; updatedAt := updatedAt e |}.

Definition set_updatedAt (t : Time) (e : ICarEvaluation) : ICarEvaluation :=
  {| userId := userId e; sessionId := sessionId e; carDetails := carDetails e;
     photos := photos e; carfax := carfax e; marketAnalysis := marketAnalysis e;
     inspection := inspection e; recommendations := recommendations e;
     status := status e; progress := progress e;
     createdAt := createdAt e; updatedAt := t |}.

Definition set_marketAnalysis (m : option IMarketAnalysis) (e : ICarEvaluation)
  : ICarEvaluation :=
  {| userId := userId e; sessionId := sessionId e; carDetails := carDetails e;
     photos := photos e; carfax := carfax e; marketAnalysis := m;
     inspection := inspection e; recommendations := recommendations e;
     status := status e; progress := progress e;
     createdAt := createdAt e; updatedAt := updatedAt e |}.

Definition set_recommendations (r : option IRecommendations) (e : ICarEvaluation)
  : ICarEvaluation :=
  {| userId := userId e; sessionId := sessionId e; carDetails := carDetails e;
     photos := photos e; carfax := carfax e; marketAnalysis := marketAnalysis e;
     inspection := inspection e; recommendations := r;
     status := status e; progress := progress e;
     createdAt := createdAt e; updatedAt := updatedAt e |}.

Definition set_inspection (i : IInspection) (e : ICarEvaluation) : ICarEvaluation :=
  {| userId := userId e; sessionId := sessionId e; carDetails := carDetails e;
     photos := photos e; carfax := carfax e; marketAnalysis := marketAnalysis e;
     inspection := i; recommendations := recommendations e;
     status := status e; progress := progress e;
     createdAt := createdAt e; updatedAt := updatedAt e |}.

Definition set_carDetails (c : ICarDetails) (e : ICarEvaluation) : ICarEvaluation :=
  {| userId := userId e; sessionId := sessionId e; carDetails := c;
     photos := photos e; carfax := carfax e; marketAnalysis := marketAnalysis e;
     inspection := inspection e; recommendations := recommendations e;
     status := status e; progress := progress e;
     createdAt := createdAt e; updatedAt := updatedAt e |}.

Definition set_photos (p : list Photo) (e : ICarEvaluation) : ICarEvaluation :=
  {| userId := userId e; sessionId := sessionId e; carDetails := carDetails e;
     photos := p; carfax := carfax e; marketAnalysis := marketAnalysis e;
     inspection := inspection e; recommendations := recommendations e;
     status := status e; progress := progress e;
     createdAt := createdAt e; updatedAt := updatedAt e |}.

Definition set_carfax (c : ICarfaxData) (e : ICarEvaluation) : ICarEvaluation :=
  {| userId := userId e; sessionId := sessionId e; carDetails := carDetails e;
     photos := photos e; carfax := c; marketAnalysis := marketAnalysis e;
     inspection := inspection e; recommendations := recommendations e;
     status := status e; progress := progress e;
     createdAt := createdAt e; updatedAt := updatedAt e |}.

(** ** The model's methods *)

(** [calculateProgress]: the value the method returns. *)
Definition calculateProgress (this : ICarEvaluation) : Z :=
  let progress := 0 in
  (* Basic car details (20%) *)
  let progress :=
    if Js.truthyNum (year (carDetails this)) && Js.truthyStr (make (carDetails this))
       && Js.truthyStr (model (carDetails this))
       && Js.truthyNum (mileage (carDetails this))
       && Js.truthyNum (price (carDetails this))
    then progress + 20 else progress in
  (* Photos (10%) *)
  let progress :=
    if (0 <? length (photos this))%nat then progress + 10 else progress in
  (* Market analysis (25%) *)
  let progress :=
    if match marketAnalysis this with
       | Some m => Js.truthyNum (dealScore m)
       | None => false
       end
    then progress + 25 else progress in
  (* Inspection (30%) *)
  let progress :=
    if general_completed (general (inspection this)) then progress + 10 else progress in
  let progress :=
    if mechanical_completed (mechanical (inspection this)) then progress + 10 else progress in
  let progress :=
    if paperwork_completed (paperwork (inspection this)) then progress + 10 else progress in
  (* Recommendations (15%) *)
  let progress :=
    if match recommendations this with
       | Some r => Js.truthyNum (suggestedOffer r)
       | None => false
       end
    then progress + 15 else progress in
  progress.

(** The call [evaluation.calculateProgress()] as a statement: the method
    also assigns the value to [this.progress]. *)
Definition recalculate (this : ICarEvaluation) : ICarEvaluation :=
  set_progress (calculateProgress this) this.

(** [getSummary] *)
Record Summary := {
  summary_id : ObjectId;
  carDisplayName : string;
  summary_status : Status;
  summary_progress : Z;
  summary_dealScore : option Z;
  summary_estimatedValue : option Z;
  askingPrice : Z;
  summary_createdAt : Time;
  summary_updatedAt : Time
}.

(** [x || null] on an optional number. *)
Definition orNull (x : option Z) : option Z :=
  match x with
  | Some n => if Js.truthyNum n then Some n else None
  | None => None
  end.

Definition displayName (c : ICarDetails) : string :=
  pretty (year c) +:+ " " +:+ make c +:+ " " +:+ model c.

Definition getSummary (_id : ObjectId) (this : ICarEvaluation) : Summary :=
  {| summary_id := _id;
     carDisplayName := displayName (carDetails this);
     summary_status := status this;
     summary_progress := progress this;
     summary_dealScore := orNull (dealScore <$> marketAnalysis this);
     summary_estimatedValue := orNull (estimatedValue <$> marketAnalysis this);
     askingPrice := price (carDetails this);
     summary_createdAt := createdAt this;
     summary_updatedAt := updatedAt this |}.

(** ** Responses and the error handler *)

Inductive Payload :=
  | NoData
  | ErrorArray (errors : list string)
  | SummaryData (s : Summary)
  | SummaryPage (l : list Summary) (page limit total pages : Z)
  | DocumentData (_id : ObjectId) (e : ICarEvaluation)
  | AnalysisData (s : Summary) (m : IMarketAnalysis)
  | RecommendationData (s : Summary) (r : IRecommendations).

Record Response := {
  statusCode : Z;
  success : bool;
  message : string;
  data : Payload
}.

(** An error passed to [next]. *)
Record CustomError := {
  err_name : string;
  err_message : string;
  err_statusCode : option Z;
  err_code : option Z;
  err_errors : option (list string)
}.

Fixpoint join (sep : string) (l : list string) : string :=
  match l with
  | [] => EmptyString
  | [x] => x
  | x :: r => x +:+ sep +:+ join sep r
  end.

Definition isSome {A} (o : option A) : bool :=
  match o with Some _ => true | None => false end.

Definition errorHandler (err : CustomError) : Response :=
  let error :=
    (if Js.truthyStr (err_message err) then err_message err else "Server Error",
     Js.orNum (default 0 (err_statusCode err)) 500) in
  let error :=
    if String.eqb (err_name err) "CastError" then ("Resource not found", 404)
    else error in
  let error :=
    if bool_decide (err_code err = Some 11000)
    then ("Duplicate field value entered", 400) else error in
  let error :=
    match err_errors err with
    | Some errs =>
        if String.eqb (err_name err) "ValidationError" then (join ", " errs, 400)
        else error
    | None => error
    end in
  let error :=
    if String.eqb (err_name err) "JsonWebTokenError" then ("Invalid token", 401)
    else error in
  let error :=
    if String.eqb (err_name err) "TokenExpiredError" then ("Token expired", 401)
    else error in
  {| statusCode := snd error; success := false; message := fst error;
     data := NoData |}.

(** The errors the persistence layer raises in this model. *)
Definition ValidationError (msgs : list string) : CustomError :=
  {| err_name := "ValidationError"; err_message := "Validation failed";
     err_statusCode := None; err_code := None; err_errors := Some msgs |}.

Definition DuplicateKeyError : CustomError :=
  {| err_name := "MongoServerError"; err_message := "E11000 duplicate key error";
     err_statusCode := None; err_code := Some 11000; err_errors := None |}.

Definition BadValueError : CustomError :=
  {| err_name := "MongoServerError"; err_message := "BadValue";
     err_statusCode := None; err_code := Some 2; err_errors := None |}.

(** ** Request validation ([validators/evaluation.js]) *)

Module Validator.

Definition isInt (min max v : Z) : bool := (min <=? v) && (v <=? max).

Definition isLength (min max : nat) (s : string) : bool :=
  ((min <=? String.length s) && (String.length s <=? max))%nat.

(** The character class [[A-HJ-NPR-Z0-9]]. *)
Definition vinChar (c : ascii) : bool :=
  let n := N_of_ascii c in
  (((65 <=? n) && (n <=? 72)) || ((74 <=? n) && (n <=? 78)) || (n =? 80)
   || ((82 <=? n) && (n <=? 90)) || ((48 <=? n) && (n <=? 57)))%N.

(** [matches(/^[A-HJ-NPR-Z0-9]{17}$/)] *)
Definition matchesVin (s : string) : bool :=
  (String.length s =? 17)%nat && Js.allChars vinChar s.

(** The sanitizers of the chain: [trim()] on [make] and [model]. *)
Definition sanitize (body : ICarDetails) : ICarDetails :=
  {| year := year body; make := Js.trim (make body);
     model := Js.trim (model body); mileage := mileage body;
     price := price body; vin := vin body; description := description body |}.

Definition check (ok : bool) (msg : string) : list string :=
  if ok then [] else [msg].

(** The chain on [vin]: [optional()], [isLength({ min: 17, max: 17 })],
    [matches(...)]. *)
Definition validateVin (v : option string) : list string :=
  match v with
  | None => []
  | Some v =>
      check (isLength 17 17 v) "VIN must be exactly 17 characters"
      ++ check (matchesVin v) "VIN contains invalid characters"
  end.

(** The chain [validateEvaluation] run on the request body: the messages of
    [validationResult(req).array()].  [currentYear] is
    [new Date().getFullYear()]. *)
Definition validateEvaluation (currentYear : Z) (body : ICarDetails) : list string :=
  check (isInt 1990 (currentYear + 1) (year body))
        ("Year must be between 1990 and " +:+ pretty (currentYear + 1))
  ++ check (isLength 1 50 (Js.trim (make body)))
        "Make is required and must be less than 50 characters"
  ++ check (isLength 1 50 (Js.trim (model body)))
        "Model is required and must be less than 50 characters"
  ++ check (isInt 0 1000000 (mileage body))
        "Mileage must be a positive number less than 1,000,000"
  ++ check (isInt 0 1000000 (price body))
        "Price must be a positive number less than $1,000,000"
  ++ validateVin (vin body)
  ++ match description body with
     | None => []
     | Some d => check (isLength 0 1000 d) "Description must be less than 1000 characters"
     end.

End Validator.

(** ** The schema's setters and validators *)

Module Schema.

(** [trim: true] on [make], [model] and [vin]; [uppercase: true] on [vin]. *)
Definition cast (c : ICarDetails) : ICarDetails :=
  {| year := year c; make := Js.trim (make c); model := Js.trim (model c);
     mileage := mileage c; price := price c;
     vin := (fun v => Js.toUpperCase (Js.trim v)) <$> vin c;
     description := description c |}.

(** [required] on a string path fails on the empty string. *)
Definition validateCarDetails (currentYear : Z) (c : ICarDetails) : list string :=
  Validator.check (1990 <=? year c) "Year must be 1990 or later"
  ++ Validator.check (year c <=? currentYear + 1) "Year cannot be in the future"
  ++ Validator.check (Js.truthyStr (make c)) "Please provide car make"
  ++ Validator.check (String.length (make c) <=? 50)%nat
       "Make cannot be more than 50 characters"
  ++ Validator.check (Js.truthyStr (model c)) "Please provide car model"
  ++ Validator.check (String.length (model c) <=? 50)%nat
       "Model cannot be more than 50 characters"
  ++ Validator.check (0 <=? mileage c) "Mileage cannot be negative"
  ++ Validator.check (0 <=? price c) "Price cannot be negative"
  ++ match vin c with
     | None => []
     | Some v =>
         Validator.check (negb (Js.truthyStr v) || (String.length v =? 17)%nat)
           "VIN must be exactly 17 characters"
     end
  ++ match description c with
     | None => []
     | Some d =>
         Validator.check (String.length d <=? 1000)%nat
           "Description cannot be more than 1000 characters"
     end.

(** [min: 0, max: 100] on [progress], with the library's messages. *)
Definition validateProgress (p : Z) : list string :=
  Validator.check (0 <=? p)
    ("Path `progress` (" +:+ pretty p +:+ ") is less than minimum allowed value (0).")
  ++ Validator.check (p <=? 100)
       ("Path `progress` (" +:+ pretty p +:+ ") is more than maximum allowed value (100).").

(** [required: true] on [id], [filename] and [url] of a photo, with the
    library's message. *)
Definition validatePhoto (p : Photo) : list string :=
  Validator.check (Js.truthyStr (photo_id p)) "Path `id` is required."
  ++ Validator.check (Js.truthyStr (filename p)) "Path `filename` is required."
  ++ Validator.check (Js.truthyStr (url p)) "Path `url` is required.".

Definition validatePhotos (l : list Photo) : list string :=
  concat (map validatePhoto l).

(** The cast of a [Number] path fails on [NaN]; the failure is reported
    with the validation errors of the document. *)
Definition castNumber (path : string) (x : Js.Number Z) : list string :=
  match x with
  | Js.NaN =>
      [ "Cast to Number failed for value " +:+ Js.quoted "NaN"
        +:+ " (type number) at path " +:+ Js.quoted path ]
  | _ => []
  end.

Definition validateMarketAnalysis (m : option IMarketAnalysis) : list string :=
  match m with
  | Some m => castNumber "marketAnalysis.priceVsMarket" (priceVsMarket m)
  | None => []
  end.

(** The validation of a whole document, as [create] and [save] run it:
    the validators of every path that the typed document leaves open. *)
Definition validateDocument (currentYear : Z) (d : ICarEvaluation) : list string :=
  validateCarDetails currentYear (carDetails d)
  ++ validatePhotos (photos d)
  ++ validateMarketAnalysis (marketAnalysis d)
  ++ validateProgress (progress d).

End Schema.

(** ** Requests *)

(** What the controllers read from a request besides its body: [req.user]
    as left by [optionalAuth], and the [x-session-id] header. *)
Record IAuthRequest := {
  user : option string;
  x_session_id : option string
}.

(** The body of [PUT /api/evaluations/:id]: one optional value for each
    top-level key; a key that is present replaces the stored value. *)
Record Updates := {
  updates__id : option ObjectId;
  updates_userId : option string;
  updates_createdAt : option Time;
  updates_updatedAt : option Time;
  updates_sessionId : option string;
  updates_carDetails : option ICarDetails;
  updates_photos : option (list Photo);
  updates_carfax : option ICarfaxData;
  updates_marketAnalysis : option IMarketAnalysis;
  updates_inspection : option IInspection;
  updates_recommendations : option IRecommendations;
  updates_status : option Status;
  updates_progress : option Z
}.

(** The [results] object of [PUT /api/evaluations/:id/inspection]: the keys
    a section of the schema can take. *)
Record InspectionResults := {
  results_completed : option bool;
  results_notes : option string;
  results_issues : option (list string);
  results_results : option (list IInspectionResult);
  results_vinMatch : option PassFail;
  results_titleStatus : option string;
  results_ownershipVerified : option PassFail;
  results_liens : option (list string)
}.

(** ** The collection *)

Module Model.

Abbreviation Collection := (gmap ObjectId ICarEvaluation).

(** A query filter next to [_id]: [{ userId }] or [{ sessionId }].  A
    filter value is compared with the stored one; [undefined] (no header)
    selects the documents that have no [sessionId]. *)
Inductive Filter :=
  | ByUserId (userId : string)
  | BySessionId (sessionId : option string).

Definition matches (q : Filter) (d : ICarEvaluation) : bool :=
  match q with
  | ByUserId u => bool_decide (userId d = Some u)
  | BySessionId s => bool_decide (sessionId d = s)
  end.

(** [findOne({ _id, ...q })] *)
Definition findOne (_id : ObjectId) (q : Filter) (c : Collection)
  : option ICarEvaluation :=
  match c !! _id with
  | Some d => if matches q d then Some d else None
  | None => None
  end.

(** [find(q).sort({ createdAt: -1 })] *)
Definition newerFirst (x y : ObjectId * ICarEvaluation) : Prop :=
  createdAt (snd y) <= createdAt (snd x).

#[global] Instance newerFirst_dec x y : Decision (newerFirst x y).
Proof. unfold newerFirst. apply _. Defined.

Definition find (q : Filter) (c : Collection) : list (ObjectId * ICarEvaluation) :=
  merge_sort newerFirst (filter (fun kv => matches q (snd kv) = true) (map_to_list c)).

(** [countDocuments(q)] *)
Definition countDocuments (q : Filter) (c : Collection) : Z :=
  Z.of_nat (length (filter (fun kv => matches q (snd kv) = true) (map_to_list c))).

(** [create(data)]: setters, document validation, insertion under a new
    [_id] with both timestamps set. *)
Definition create (currentYear : Z) (now : Time) (_id : ObjectId)
    (data : ICarEvaluation) (c : Collection)
  : CustomError + ICarEvaluation * Collection :=
  let doc :=
    {| userId := userId data; sessionId := sessionId data;
       carDetails := Schema.cast (carDetails data);
       photos := photos data; carfax := carfax data;
       marketAnalysis := marketAnalysis data; inspection := inspection data;
       recommendations := recommendations data; status := status data;
       progress := progress data; createdAt := now; updatedAt := now |} in
  match Schema.validateDocument currentYear doc with
  | [] =>
      match c !! _id with
      | Some _ => inl DuplicateKeyError
      | None => inr (doc, <[_id := doc]> c)
      end
  | errs => inl (ValidationError errs)
  end.

(** [$set] of the keys the schema knows ([sessionId] is not one of them). *)
Definition applySet (u : Updates) (d : ICarEvaluation) : ICarEvaluation :=
  {| userId := default (userId d) (Some <$> updates_userId u);
     sessionId := sessionId d;
     carDetails := default (carDetails d) (Schema.cast <$> updates_carDetails u);
     photos := default (photos d) (updates_photos u);
     carfax := default (carfax d) (updates_carfax u);
     marketAnalysis := default (marketAnalysis d) (Some <$> updates_marketAnalysis u);
     inspection := default (inspection d) (updates_inspection u);
     recommendations := default (recommendations d) (Some <$> updates_recommendations u);
     status := default (status d) (updates_status u);
     progress := default (progress d) (updates_progress u);
     createdAt := default (createdAt d) (updates_createdAt u);
     updatedAt := default (updatedAt d) (updates_updatedAt u) |}.

(** The update validators of [runValidators: true]: the validators of the
    paths the body sets, the photos of a [photos] array among them. *)
Definition validateUpdate (currentYear : Z) (u : Updates) : list string :=
  match updates_carDetails u with
  | Some cd => Schema.validateCarDetails currentYear (Schema.cast cd)
  | None => []
  end
  ++ match updates_photos u with
     | Some l => Schema.validatePhotos l
     | None => []
     end
  ++ match updates_progress u with
     | Some p => Schema.validateProgress p
     | None => []
     end.

(** [findOneAndUpdate({ _id, ...q }, { $set: u }, { new: true,
    runValidators: true })]: the update is validated before the query is
    sent; a matched document is written with a fresh [updatedAt]. *)
Definition findOneAndUpdate (currentYear : Z) (now : Time) (_id : ObjectId)
    (q : Filter) (u : Updates) (c : Collection)
  : CustomError + option ICarEvaluation * Collection :=
  match validateUpdate currentYear u with
  | [] =>
      match findOne _id q c with
      | Some d =>
          let d' := set_updatedAt now (applySet u d) in
          inr (Some d', <[_id := d']> c)
      | None => inr (None, c)
      end
  | errs => inl (ValidationError errs)
  end.

(** [findOneAndDelete({ _id, ...q })] *)
Definition findOneAndDelete (_id : ObjectId) (q : Filter) (c : Collection)
  : option ICarEvaluation * Collection :=
  match findOne _id q c with
  | Some d => (Some d, delete _id c)
  | None => (None, c)
  end.

(** [doc.save()] on a document loaded as [loaded] and since assigned to.
    The document is validated first, whether modified or not, and an
    invalid one is rejected.  A path is modified when it was assigned an
    object ([assigned]) or a number or string other than the one loaded;
    with [timestamps: true] the pre-save hook stamps [updatedAt] when some
    path was modified, and a document without modified paths is not
    written. *)
Definition save (currentYear : Z) (now : Time) (_id : ObjectId) (assigned : bool)
    (loaded doc : ICarEvaluation) (c : Collection)
  : CustomError + ICarEvaluation * Collection :=
  match Schema.validateDocument currentYear doc with
  | [] =>
      if negb assigned && bool_decide (doc = loaded) then inr (doc, c)
      else inr (set_updatedAt now doc, <[_id := set_updatedAt now doc]> c)
  | errs => inl (ValidationError errs)
  end.

End Model.

(** ** The controllers ([controllers/evaluations.ts]) *)

Import Model.

Definition json (code : Z) (ok : bool) (msg : string) (d : Payload) : Response :=
  {| statusCode := code; success := ok; message := msg; data := d |}.

Definition notFound : Response := json 404 false "Evaluation not found" NoData.

(** [getSessionId]; [generated] is the value of [generateSessionId()]. *)
Definition getSessionId (generated : string) (req : IAuthRequest) : string :=
  match user req with
  | Some u => u
  | None =>
      match x_session_id req with
      | Some s => if Js.truthyStr s then s else generated
      | None => generated
      end
  end.

(** The filter every controller but [createEvaluation] builds:
    [query.userId = req.user.userId] for an authenticated request,
    [query.sessionId = req.headers['x-session-id']] otherwise. *)
Definition queryOf (req : IAuthRequest) : Filter :=
  match user req with
  | Some u => ByUserId u
  | None => BySessionId (x_session_id req)
  end.

Definition createEvaluation (currentYear : Z) (now : Time) (generated : string)
    (newId : ObjectId) (req : IAuthRequest) (body : ICarDetails) (c : Collection)
  : Response * Collection :=
  match Validator.validateEvaluation currentYear body with
  | (_ :: _) as errors => (json 400 false "Validation failed" (ErrorArray errors), c)
  | [] =>
      let body := Validator.sanitize body in
      let sessionId := getSessionId generated req in
      let evaluationData :=
        {| userId := user req;
           sessionId := None; (* [evaluationData] has no such key *)
           carDetails :=
             {| year := year body; make := make body; model := model body;
                mileage := mileage body; price := price body;
                vin := Js.toUpperCase <$> vin body;
                description := description body |};
           photos := [];
           carfax :=
             {| requested := false; purchased := false; wantCarfax := false;
                carfax_price := 0;
                carfax_vin :=
                  match Js.toUpperCase <$> vin body with
                  | Some v => v
                  | None => EmptyString
                  end;
                reportId := None; carfax_data := None |};
           marketAnalysis := None;
           inspection :=
             {| general := {| general_completed := false; notes := None; issues := [] |};
                mechanical := {| mechanical_completed := false; results := [] |};
                paperwork :=
                  {| paperwork_completed := false; vinMatch := None;
                     titleStatus := None; ownershipVerified := None; liens := [] |} |};
           recommendations := None;
           status := Draft;
           progress := 20; (* Basic details filled *)
           createdAt := now; updatedAt := now |} in
      match Model.create currentYear now newId evaluationData c with
      | inl error => (errorHandler error, c)
      | inr (evaluation, c') =>
          (json 201 true "Car evaluation created successfully"
                (SummaryData (getSummary newId evaluation)), c')
      end
  end.

(** [parseInt(x) || d]; [None] is a missing or non-numeric parameter. *)
Definition parseIntOr (x : option Z) (d : Z) : Z := Js.orNum (default 0 x) d.

Definition getEvaluations (req : IAuthRequest) (query_page query_limit : option Z)
    (c : Collection) : Response :=
  let guestWithoutSession :=
    match user req, x_session_id req with
    | Some _, _ => false
    | None, Some s => negb (Js.truthyStr s)
    | None, None => true
    end in
  if guestWithoutSession
  then json 400 false "Session ID required for guest access" NoData
  else
    let query := queryOf req in
    let page := parseIntOr query_page 1 in
    let limit := parseIntOr query_limit 10 in
    let skip := (page - 1) * limit in
    if skip <? 0 then errorHandler BadValueError
    else
      let evaluations :=
        take (Z.to_nat (Z.abs limit)) (drop (Z.to_nat skip) (Model.find query c)) in
      let total := Model.countDocuments query c in
      let summaries := map (fun kv => getSummary (fst kv) (snd kv)) evaluations in
      json 200 true "Evaluations retrieved successfully"
           (SummaryPage summaries page limit total
              (Qceiling (inject_Z total / inject_Z limit))).

Definition getEvaluation (_id : ObjectId) (req : IAuthRequest) (c : Collection)
  : Response :=
  match Model.findOne _id (queryOf req) c with
  | None => notFound
  | Some evaluation =>
      json 200 true "Evaluation retrieved successfully" (DocumentData _id evaluation)
  end.

(** [delete updates._id; delete updates.userId; delete updates.createdAt;
    delete updates.updatedAt] *)
Definition removeSensitive (u : Updates) : Updates :=
  {| updates__id := None; updates_userId := None;
     updates_createdAt := None; updates_updatedAt := None;
     updates_sessionId := updates_sessionId u;
     updates_carDetails := updates_carDetails u;
     updates_photos := updates_photos u;
     updates_carfax := updates_carfax u;
     updates_marketAnalysis := updates_marketAnalysis u;
     updates_inspection := updates_inspection u;
     updates_recommendations := updates_recommendations u;
     updates_status := updates_status u;
     updates_progress := updates_progress u |}.

Definition updateEvaluation (currentYear : Z) (now : Time) (_id : ObjectId)
    (req : IAuthRequest) (body : Updates) (c : Collection) : Response * Collection :=
  let updates := removeSensitive body in
  match Model.findOneAndUpdate currentYear now _id (queryOf req) updates c with
  | inl error => (errorHandler error, c)
  | inr (None, _) => (notFound, c)
  | inr (Some evaluation, c') =>
      (* Recalculate progress *)
      match Model.save currentYear now _id false evaluation (recalculate evaluation) c' with
      | inl error => (errorHandler error, c')
      | inr (saved, c'') =>
          (json 200 true "Evaluation updated successfully" (DocumentData _id saved), c'')
      end
  end.

Definition deleteEvaluation (_id : ObjectId) (req : IAuthRequest) (c : Collection)
  : Response * Collection :=
  match Model.findOneAndDelete _id (queryOf req) c with
  | (None, _) => (notFound, c)
  | (Some _, c') => (json 200 true "Evaluation deleted successfully" NoData, c')
  end.

(** The draws of the mocked market estimator: [base] is
    [Math.floor(Math.random() * 20000)] and each offset the
    [Math.floor((Math.random() - 0.5) * k)] of one comparable; [halfDown]
    is the direction in which [Math.round] settles a [priceVsMarket] that is
    exactly half-way between two integers (see [Js.roundNumber]). *)
Record MarketDraws := {
  base : Z;
  halfDown : bool;
  price_offset_1 : Z;
  mileage_offset_1 : Z;
  price_offset_2 : Z;
  mileage_offset_2 : Z;
  price_offset_3 : Z;
  mileage_offset_3 : Z
}.

(** Calculate deal score (0-100) *)
Definition dealScoreOf (priceVsMarket : Js.Number Q) : Z :=
  if Js.ltNumber priceVsMarket (-20) then 90
  else if Js.ltNumber priceVsMarket (-10) then 75
  else if Js.ltNumber priceVsMarket 0 then 65
  else if Js.ltNumber priceVsMarket 10 then 45
  else if Js.ltNumber priceVsMarket 20 then 30
  else 15.

Definition mockMarketAnalysis (draws : MarketDraws) (cd : ICarDetails)
  : IMarketAnalysis :=
  let baseValue := base draws + 15000 in
  let mileageAdjustment :=
    (Qmax 0 (inject_Z (150000 - mileage cd) / 15000) * 1000)%Q in
  let ageAdjustment := Z.max 0 (2024 - year cd) * -800 in
  let sum := (inject_Z baseValue + mileageAdjustment + inject_Z ageAdjustment)%Q in
  let estimatedValue := Js.round sum in
  let priceVsMarket :=
    Js.times (Js.div (price cd - estimatedValue) estimatedValue (Js.lt sum 0)) 100 in
  let dealScore := dealScoreOf priceVsMarket in
  {| estimatedValue := estimatedValue;
     priceVsMarket := Js.roundNumber (halfDown draws) priceVsMarket;
     dealScore := dealScore;
     comparable :=
       [ {| source := "Cars.com";
            comparable_price := estimatedValue + price_offset_1 draws;
            comparable_mileage := mileage cd + mileage_offset_1 draws;
            location := "Local Area" |};
         {| source := "AutoTrader";
            comparable_price := estimatedValue + price_offset_2 draws;
            comparable_mileage := mileage cd + mileage_offset_2 draws;
            location := "Regional" |};
         {| source := "CarGurus";
            comparable_price := estimatedValue + price_offset_3 draws;
            comparable_mileage := mileage cd + mileage_offset_3 draws;
            location := "National" |} ] |}.

Definition analyzeMarket (currentYear : Z) (now : Time) (draws : MarketDraws)
    (_id : ObjectId) (req : IAuthRequest) (c : Collection) : Response * Collection :=
  match Model.findOne _id (queryOf req) c with
  | None => (notFound, c)
  | Some evaluation =>
      let marketAnalysis := mockMarketAnalysis draws (carDetails evaluation) in
      (* Update evaluation *)
      let evaluation' := set_marketAnalysis (Some marketAnalysis) evaluation in
      let evaluation' := set_status Analyzing evaluation' in
      let evaluation' := recalculate evaluation' in
      match Model.save currentYear now _id true evaluation evaluation' c with
      | inl error => (errorHandler error, c)
      | inr (saved, c') =>
          (json 200 true "Market analysis completed"
                (AnalysisData (getSummary _id saved) marketAnalysis), c')
      end
  end.

(** [{ ...section, ...results, completed: true }] for each section, on the
    keys the section has in the schema. *)
Definition mergeGeneral (g : GeneralInspection) (r : InspectionResults)
  : GeneralInspection :=
  {| general_completed := true;
     notes := match results_notes r with Some n => Some n | None => notes g end;
     issues := default (issues g) (results_issues r) |}.

Definition mergeMechanical (m : MechanicalInspection) (r : InspectionResults)
  : MechanicalInspection :=
  {| mechanical_completed := true;
     results := default (results m) (results_results r) |}.

Definition mergePaperwork (p : PaperworkInspection) (r : InspectionResults)
  : PaperworkInspection :=
  {| paperwork_completed := true;
     vinMatch := match results_vinMatch r with Some v => Some v | None => vinMatch p end;
     titleStatus :=
       match results_titleStatus r with Some t => Some t | None => titleStatus p end;
     ownershipVerified :=
       match results_ownershipVerified r with
       | Some v => Some v
       | None => ownershipVerified p
       end;
     liens := default (liens p) (results_liens r) |}.

(** Whether [inspectionType] names a section, that is, whether
    [updateInspection] assigns an object to a path of the document. *)
Definition isSection (inspectionType : string) : bool :=
  String.eqb inspectionType "general" || String.eqb inspectionType "mechanical"
  || String.eqb inspectionType "paperwork".

Definition updateInspection (currentYear : Z) (now : Time) (_id : ObjectId)
    (req : IAuthRequest) (inspectionType : string) (results : InspectionResults)
    (c : Collection) : Response * Collection :=
  match Model.findOne _id (queryOf req) c with
  | None => (notFound, c)
  | Some evaluation =>
      let i := inspection evaluation in
      (* Update inspection results *)
      let evaluation' :=
        if String.eqb inspectionType "general" then
          set_inspection
            {| general := mergeGeneral (general i) results;
               mechanical := mechanical i; paperwork := paperwork i |} evaluation
        else if String.eqb inspectionType "mechanical" then
          set_inspection
            {| general := general i;
               mechanical := mergeMechanical (mechanical i) results;
               paperwork := paperwork i |} evaluation
        else if String.eqb inspectionType "paperwork" then
          set_inspection
            {| general := general i; mechanical := mechanical i;
               paperwork := mergePaperwork (paperwork i) results |} evaluation
        else evaluation in
      let evaluation' := set_status InProgress evaluation' in
      let evaluation' := recalculate evaluation' in
      match Model.save currentYear now _id (isSection inspectionType)
              evaluation evaluation' c with
      | inl error => (errorHandler error, c)
      | inr (saved, c') =>
          (json 200 true "Inspection results updated" (DocumentData _id saved), c')
      end
  end.

(** The repair costs of the failed mechanical results; [draws n] gives, for
    the [n]-th of them, [Math.floor(Math.random() * 2000)] and whether
    [Math.random() > 0.6]. *)
Fixpoint repairCostsOf (rs : list IInspectionResult) (n : nat)
    (draws : nat -> Z * bool) : list IRepairCost :=
  match rs with
  | [] => []
  | result :: rest =>
      match result_status result with
      | ResultFail =>
          {| issue := item result;
             estimatedCost := fst (draws n) + 200;
             priority := if snd (draws n) then High else Medium |}
          :: repairCostsOf rest (S n) draws
      | _ => repairCostsOf rest n draws
      end
  end.

Definition mockRecommendations (draws : nat -> Z * bool) (evaluation : ICarEvaluation)
  : IRecommendations :=
  let repairCosts :=
    if mechanical_completed (mechanical (inspection evaluation))
    then repairCostsOf (results (mechanical (inspection evaluation))) 0 draws
    else [] in
  let totalRepairCosts :=
    fold_left (fun total cost => total + estimatedCost cost) repairCosts 0 in
  let estimatedValue :=
    Js.orNum (default 0 (estimatedValue <$> marketAnalysis evaluation))
             (price (carDetails evaluation)) in
  {| suggestedOffer :=
       Js.round (inject_Z estimatedValue - inject_Z totalRepairCosts
                 - inject_Z estimatedValue * (1 # 10))%Q;
     maxOffer := Js.round (inject_Z estimatedValue - inject_Z totalRepairCosts)%Q;
     walkAwayPrice :=
       Js.round (inject_Z estimatedValue + inject_Z estimatedValue * (5 # 100))%Q;
     repairCosts := repairCosts;
     negotiationPoints :=
       [ "Point out any mechanical issues discovered";
         "Reference market pricing data";
         "Highlight repair costs needed";
         "Be prepared to walk away if price is too high";
         "Consider the total cost of ownership" ] |}.

Definition generateRecommendations (currentYear : Z) (now : Time)
    (draws : nat -> Z * bool) (_id : ObjectId) (req : IAuthRequest) (c : Collection)
  : Response * Collection :=
  match Model.findOne _id (queryOf req) c with
  | None => (notFound, c)
  | Some evaluation =>
      let recommendations := mockRecommendations draws evaluation in
      (* Update evaluation *)
      let evaluation' := set_recommendations (Some recommendations) evaluation in
      let evaluation' := set_status Completed evaluation' in
      let evaluation' := recalculate evaluation' in
      match Model.save currentYear now _id true evaluation evaluation' c with
      | inl error => (errorHandler error, c)
      | inr (saved, c') =>
          (json 200 true "Recommendations generated"
                (RecommendationData (getSummary _id saved) recommendations), c')
      end
  end.

(** ** The rate limiter ([middleware/rateLimiter.ts]) *)

Module RateLimiter.

Record IpData := {
  count : Z;
  resetTime : Z
}.

(** [rateLimiter.ipMap]; the map that was never created and the empty map
    behave alike in both functions below. *)
Abbreviation IpMap := (gmap string IpData).

Definition windowMs : Z := 15 * 60 * 1000. (* 15 minutes *)
Definition maxRequests : Z := 100. (* max requests per window *)

(** What the middleware reads from the request. *)
Record Request := {
  req_ip : option string;
  remoteAddress : option string
}.

(** [a || b] on strings. *)
Definition orStr (a : option string) (b : string) : string :=
  match a with
  | Some s => if Js.truthyStr s then s else b
  | None => b
  end.

(** [req.ip || req.socket.remoteAddress || 'unknown'] *)
Definition clientIp (req : Request) : string :=
  orStr (req_ip req) (orStr (remoteAddress req) "unknown").

(** The middleware either calls [next()] or answers 429 with
    [{ success: false, error, retryAfter }]. *)
Inductive Outcome :=
  | Next
  | TooManyRequests (retryAfter : Z).

Definition rateLimiter (now : Z) (req : Request) (ipMap : IpMap) : Outcome * IpMap :=
  let ip := clientIp req in
  match ipMap !! ip with
  | None => (Next, <[ip := {| count := 1; resetTime := now + windowMs |}]> ipMap)
  | Some ipData =>
      if resetTime ipData <? now then
        (* Reset the window *)
        (Next, <[ip := {| count := 1; resetTime := now + windowMs |}]> ipMap)
      else if maxRequests <=? count ipData then
        (TooManyRequests (Qceiling (inject_Z (resetTime ipData - now) / 1000)), ipMap)
      else
        (Next,
         <[ip := {| count := count ipData + 1; resetTime := resetTime ipData |}]> ipMap)
  end.

(** Clean up old entries periodically: the body of the [setInterval]
    callback, run at time [now]. *)
Definition cleanUp (now : Z) (ipMap : IpMap) : IpMap :=
  filter (fun kv => ~ (resetTime (snd kv) < now)) ipMap.

(** The requests of one client served one after the other, with the time
    of each. *)
Fixpoint serve (times : list Z) (req : Request) (ipMap : IpMap)
  : list Outcome * IpMap :=
  match times with
  | [] => ([], ipMap)
  | now :: rest =>
      let (o, ipMap') := rateLimiter now req ipMap in
      let (os, ipMap'') := serve rest req ipMap' in
      (o :: os, ipMap'')
  end.

(** Every entry counts between one request and the maximum. *)
Definition wellCounted (ipMap : IpMap) : Prop :=
  forall ip d, ipMap !! ip = Some d -> 1 <= count d <= maxRequests.

End RateLimiter.

(** ** Authentication middleware ([middleware/auth.ts]) *)

Module Auth.

Record IAuthPayload := {
  userId : string;
  email : string;
  role : string
}.

(** [User.findById]: a user, [null], or a thrown error. *)
Inductive Lookup := Found | Missing | Failed.

(** [s.split(sep)] for a one-character separator. *)
Fixpoint split (sep : ascii) (s : string) : list string :=
  match s with
  | EmptyString => [EmptyString]
  | String ch r =>
      if Ascii.eqb ch sep then EmptyString :: split sep r
      else match split sep r with
           | x :: xs => String ch x :: xs
           | [] => [String ch EmptyString]
           end
  end.

(** The token both middlewares take from the [Authorization] header. *)
Definition bearerToken (authorization : option string) : option string :=
  match authorization with
  | Some h =>
      if Js.truthyStr h && String.prefix "Bearer" h
      then split " "%char h !! 1%nat
      else None
  | None => None
  end.

(** A middleware answers with a status and an error message, or calls
    [next()] with the [req.user] it leaves. *)
Inductive Result :=
  | Respond (status : Z) (error : string)
  | Continue (user : option IAuthPayload).

Section Middleware.

(** [jwt.verify(token, secret)]: the decoded payload, or [None] when it
    throws. *)
Variable verify : string -> option IAuthPayload.
Variable findById : string -> Lookup.

Definition attach (decoded : IAuthPayload) : IAuthPayload :=
  {| userId := userId decoded; email := email decoded; role := role decoded |}.

(** Protect routes - require authentication *)
Definition protect (authorization : option string) : Result :=
  match bearerToken authorization with
  | Some token =>
      if Js.truthyStr token then
        match verify token with
        | Some decoded =>
            match findById (userId decoded) with
            | Found => Continue (Some (attach decoded))
            | Missing => Respond 401 "User not found"
            | Failed => Respond 401 "Not authorized to access this route"
            end
        | None => Respond 401 "Not authorized to access this route"
        end
      else Respond 401 "Not authorized to access this route"
  | None => Respond 401 "Not authorized to access this route"
  end.

(** Optional auth - doesn't require authentication but extracts user if
    present: the [req.user] with which [next()] is called. *)
Definition optionalAuth (authorization : option string) : option IAuthPayload :=
  match bearerToken authorization with
  | Some token =>
      if Js.truthyStr token then
        match verify token with
        | Some decoded =>
            match findById (userId decoded) with
            | Found => Some (attach decoded)
            | Missing | Failed => None
            end
        | None => None
        end
      else None
  | None => None
  end.

(** Grant access to specific roles *)
Definition authorize (roles : list string) (user : option IAuthPayload) : Result :=
  match user with
  | None => Respond 401 "Not authorized to access this route"
  | Some u =>
      if bool_decide (role u ∈ roles) then Continue user
      else Respond 403 ("User role " +:+ role u +:+ " is not authorized to access this route")
  end.

(** The request the evaluation controllers receive: every route of
    [routes/evaluations.ts] runs [optionalAuth] first. *)
Definition evaluationRequest (authorization session : option string) : IAuthRequest :=
  {| user := userId <$> optionalAuth authorization; x_session_id := session |}.

End Middleware.

End Auth.

(** ** The progress table as the specification words it

    Every stored document has [year], [make], [model], [mileage] and
    [price] (the schema requires them), so the first row of the table is
    met by construction; the other rows ask for one photo, for a market
    analysis (which carries a [dealScore]), for each completed inspection
    and for recommendations (which carry a [suggestedOffer]). *)

Module Spec.

Definition weight (satisfied : bool) (w : Z) : Z := if satisfied then w else 0.

Definition hasPhoto (e : ICarEvaluation) : bool :=
  match photos e with [] => false | _ :: _ => true end.

Definition progress (e : ICarEvaluation) : Z :=
  20
  + weight (hasPhoto e) 10
  + weight (isSome (marketAnalysis e)) 25
  + weight (general_completed (general (inspection e))) 10
  + weight (mechanical_completed (mechanical (inspection e))) 10
  + weight (paperwork_completed (paperwork (inspection e))) 10
  + weight (isSome (recommendations e)) 15.

Definition allSectionsSatisfied (e : ICarEvaluation) : bool :=
  hasPhoto e && isSome (marketAnalysis e)
  && general_completed (general (inspection e))
  && mechanical_completed (mechanical (inspection e))
  && paperwork_completed (paperwork (inspection e))
  && isSome (recommendations e).

(** The principals of section 4.1 that present an identity, and the
    ownership guard of section 4.5. *)
Inductive Principal :=
  | User (id : string)
  | Guest (sessionId : string).

Definition authorize (p : Principal) (record : ICarEvaluation) : bool :=
  match p with
  | User u => bool_decide (userId record = Some u)
  | Guest s => bool_decide (sessionId record = Some s)
  end.

(** The request a principal sends. *)
Definition requestOf (p : Principal) : IAuthRequest :=
  match p with
  | User u => {| user := Some u; x_session_id := None |}
  | Guest s => {| user := None; x_session_id := Some s |}
  end.

End Spec.

(** The checks of [calculateProgress], one per section. *)
Definition basicDetailsFilled (e : ICarEvaluation) : bool :=
  Js.truthyNum (year (carDetails e)) && Js.truthyStr (make (carDetails e))
  && Js.truthyStr (model (carDetails e)) && Js.truthyNum (mileage (carDetails e))
  && Js.truthyNum (price (carDetails e)).

Definition dealScoreSet (e : ICarEvaluation) : bool :=
  match marketAnalysis e with Some m => Js.truthyNum (dealScore m) | None => false end.

Definition suggestedOfferSet (e : ICarEvaluation) : bool :=
  match recommendations e with
  | Some r => Js.truthyNum (suggestedOffer r)
  | None => false
  end.

Ltac split_checks :=
  repeat match goal with
         | |- context [if ?b then _ else _] => destruct b
         end.

(** A document none of whose numbers is [0] and whose names are not empty:
    on these the checks of the code are the presence checks of the table. *)
Definition zeroFree (e : ICarEvaluation) : Prop :=
  year (carDetails e) <> 0 /\ make (carDetails e) <> EmptyString
  /\ model (carDetails e) <> EmptyString
  /\ mileage (carDetails e) <> 0 /\ price (carDetails e) <> 0
  /\ (forall m, marketAnalysis e = Some m -> dealScore m <> 0)
  /\ (forall r, recommendations e = Some r -> suggestedOffer r <> 0).

(** ** Notions used in the statements *)

(** What a [save] that passes validation leaves in memory and in the
    collection. *)
Definition saved (now : Time) (assigned : bool) (loaded doc : ICarEvaluation)
  : ICarEvaluation :=
  if negb assigned && bool_decide (doc = loaded) then doc else set_updatedAt now doc.

(** A stored document that satisfies the schema. *)
Definition valid (currentYear : Z) (d : ICarEvaluation) : Prop :=
  Schema.validateDocument currentYear d = [].

(** The assignments of [updateInspection] to the inspection sections. *)
Definition inspected (inspectionType : string) (results : InspectionResults)
    (d : ICarEvaluation) : ICarEvaluation :=
  let i := inspection d in
  if String.eqb inspectionType "general" then
    set_inspection
      {| general := mergeGeneral (general i) results;
         mechanical := mechanical i; paperwork := paperwork i |} d
  else if String.eqb inspectionType "mechanical" then
    set_inspection
      {| general := general i;
         mechanical := mergeMechanical (mechanical i) results;
         paperwork := paperwork i |} d
  else if String.eqb inspectionType "paperwork" then
    set_inspection
      {| general := general i; mechanical := mechanical i;
         paperwork := mergePaperwork (paperwork i) results |} d
  else d.

(** A record with nothing but its car details. *)
Definition onlyDetailsFilled (e : ICarEvaluation) : Prop :=
  photos e = [] /\ marketAnalysis e = None /\ recommendations e = None
  /\ general_completed (general (inspection e)) = false
  /\ mechanical_completed (mechanical (inspection e)) = false
  /\ paperwork_completed (paperwork (inspection e)) = false.

(** The body of an update without the keys that name the record or carry
    a progress value. *)
Definition contentKeys (u : Updates) : Updates :=
  {| updates__id := None; updates_userId := None; updates_createdAt := None;
     updates_updatedAt := None; updates_sessionId := None;
     updates_carDetails := updates_carDetails u;
     updates_photos := updates_photos u;
     updates_carfax := updates_carfax u;
     updates_marketAnalysis := updates_marketAnalysis u;
     updates_inspection := updates_inspection u;
     updates_recommendations := updates_recommendations u;
     updates_status := updates_status u;
     updates_progress := None |}.

(** ** Requests and documents used in the examples *)

Definition alice : IAuthRequest := {| user := Some "alice"; x_session_id := None |}.
Definition bob : IAuthRequest := {| user := Some "bob"; x_session_id := None |}.
Definition guestS1 : IAuthRequest := {| user := None; x_session_id := Some "S1" |}.
Definition anonymous : IAuthRequest := {| user := None; x_session_id := None |}.

Definition civic : ICarDetails :=
  {| year := 2020; make := "Honda"; model := "Civic"; mileage := 30000;
     price := 18000; vin := None; description := None |}.

(** A car that has not been driven yet: [mileage = 0] passes
    [isInt({ min: 0 })] and the schema's [min: 0]. *)
Definition newCivic : ICarDetails :=
  {| year := 2020; make := "Honda"; model := "Civic"; mileage := 0;
     price := 18000; vin := None; description := None |}.

Definition withVin (v : string) : ICarDetails :=
  {| year := 2020; make := "Honda"; model := "Civic"; mileage := 30000;
     price := 18000; vin := Some v; description := None |}.

Definition noResults : InspectionResults :=
  {| results_completed := None; results_notes := None; results_issues := None;
     results_results := None; results_vinMatch := None;
     results_titleStatus := None; results_ownershipVerified := None;
     results_liens := None |}.

Definition noUpdates : Updates :=
  {| updates__id := None; updates_userId := None; updates_createdAt := None;
     updates_updatedAt := None; updates_sessionId := None;
     updates_carDetails := None; updates_photos := None; updates_carfax := None;
     updates_marketAnalysis := None; updates_inspection := None;
     updates_recommendations := None; updates_status := None;
     updates_progress := None |}.

Definition withCarDetails (cd : ICarDetails) : Updates :=
  {| updates__id := None; updates_userId := None; updates_createdAt := None;
     updates_updatedAt := None; updates_sessionId := None;
     updates_carDetails := Some cd; updates_photos := None; updates_carfax := None;
     updates_marketAnalysis := None; updates_inspection := None;
     updates_recommendations := None; updates_status := None;
     updates_progress := None |}.

Definition withProgress (p : Z) : Updates :=
  {| updates__id := None; updates_userId := None; updates_createdAt := None;
     updates_updatedAt := None; updates_sessionId := None;
     updates_carDetails := None; updates_photos := None; updates_carfax := None;
     updates_marketAnalysis := None; updates_inspection := None;
     updates_recommendations := None; updates_status := None;
     updates_progress := Some p |}.

Definition noCarfax : ICarfaxData :=
  {| requested := false; purchased := false; wantCarfax := false;
     carfax_price := 0; carfax_vin := EmptyString; reportId := None;
     carfax_data := None |}.

Definition blankInspection : IInspection :=
  {| general := {| general_completed := false; notes := None; issues := [] |};
     mechanical := {| mechanical_completed := false; results := [] |};
     paperwork :=
       {| paperwork_completed := false; vinMatch := None; titleStatus := None;
          ownershipVerified := None; liens := [] |} |}.

Definition frontPhoto : Photo :=
  {| photo_id := "p1"; filename := "front.jpg"; url := "/uploads/front.jpg";
     uploadedAt := 110 |}.

(** A photo whose [id] is empty: the [required] validator rejects it. *)
Definition unnamedPhoto : Photo :=
  {| photo_id := EmptyString; filename := "front.jpg";
     url := "/uploads/front.jpg"; uploadedAt := 110 |}.

Definition withPhotos (l : list Photo) : Updates :=
  {| updates__id := None; updates_userId := None; updates_createdAt := None;
     updates_updatedAt := None; updates_sessionId := None;
     updates_carDetails := None; updates_photos := Some l; updates_carfax := None;
     updates_marketAnalysis := None; updates_inspection := None;
     updates_recommendations := None; updates_status := None;
     updates_progress := None |}.

(** Draws for the new car: the estimated value comes out as 26800, and
    (18000 - 26800) / 26800 * 100 is about -32.8. *)
Definition newCivicDraws : MarketDraws :=
  {| base := 5000; halfDown := false;
     price_offset_1 := 100; mileage_offset_1 := 2000;
     price_offset_2 := -300; mileage_offset_2 := 1500;
     price_offset_3 := 0; mileage_offset_3 := 40 |}.

Definition someCosts (n : nat) : Z * bool := (Z.of_nat n * 100, false).

(** [alice] takes the new car through the whole workflow: creation, one
    photo, market analysis, the three inspections, recommendations. *)
Definition newCivicWorkflow : Collection :=
  let c := snd (createEvaluation 2025 100 "minted" 1%N alice newCivic ∅) in
  let c := snd (updateEvaluation 2025 110 1%N alice (withPhotos [frontPhoto]) c) in
  let c := snd (analyzeMarket 2025 120 newCivicDraws 1%N alice c) in
  let c := snd (updateInspection 2025 130 1%N alice "general" noResults c) in
  let c := snd (updateInspection 2025 140 1%N alice "mechanical" noResults c) in
  let c := snd (updateInspection 2025 150 1%N alice "paperwork" noResults c) in
  snd (generateRecommendations 2025 160 someCosts 1%N alice c).

(** The record the workflow leaves in the collection. *)
Definition finishedNewCivic : ICarEvaluation :=
  {| userId := Some "alice"; sessionId := None; carDetails := newCivic;
     photos := [frontPhoto];
     carfax := noCarfax;
     marketAnalysis :=
       Some {| estimatedValue := 26800; priceVsMarket := Js.Finite (-33);
               dealScore := 90;
               comparable :=
                 [ {| source := "Cars.com"; comparable_price := 26900;
                      comparable_mileage := 2000; location := "Local Area" |};
                   {| source := "AutoTrader"; comparable_price := 26500;
                      comparable_mileage := 1500; location := "Regional" |};
                   {| source := "CarGurus"; comparable_price := 26800;
                      comparable_mileage := 40; location := "National" |} ] |};
     inspection :=
       {| general := {| general_completed := true; notes := None; issues := [] |};
          mechanical := {| mechanical_completed := true; results := [] |};
          paperwork :=
            {| paperwork_completed := true; vinMatch := None; titleStatus := None;
               ownershipVerified := None; liens := [] |} |};
     recommendations :=
       Some {| suggestedOffer := 24120; maxOffer := 26800; walkAwayPrice := 28140;
               repairCosts := [];
               negotiationPoints :=
                 [ "Point out any mechanical issues discovered";
                   "Reference market pricing data";
                   "Highlight repair costs needed";
                   "Be prepared to walk away if price is too high";
                   "Consider the total cost of ownership" ] |};
     status := Completed; progress := 80; createdAt := 100; updatedAt := 160 |}.

(** A record of guest session [S2], as the collection may hold it. *)
Definition recordOfS2 : ICarEvaluation :=
  {| userId := None; sessionId := Some "S2"; carDetails := civic; photos := [];
     carfax := noCarfax; marketAnalysis := None; inspection := blankInspection;
     recommendations := None; status := Draft; progress := 20;
     createdAt := 100; updatedAt := 100 |}.

(** A record of [bob] on which an inspection was already saved. *)
Definition recordOfBob : ICarEvaluation :=
  {| userId := Some "bob"; sessionId := None; carDetails := civic; photos := [];
     carfax := noCarfax; marketAnalysis := None; inspection := blankInspection;
     recommendations := None; status := InProgress; progress := 20;
     createdAt := 100; updatedAt := 100 |}.

(** Draws for the used car: the estimated value comes out as 24800, and
    (18000 - 24800) / 24800 * 100 is about -27.4. *)
Definition someDraws : MarketDraws :=
  {| base := 5000; halfDown := false;
     price_offset_1 := 100; mileage_offset_1 := -2000;
     price_offset_2 := -300; mileage_offset_2 := 1500;
     price_offset_3 := 0; mileage_offset_3 := 40 |}.

(** A record of [bob] whose mechanical inspection found a failing item. *)
Definition recordWithFailure : ICarEvaluation :=
  {| userId := Some "bob"; sessionId := None; carDetails := civic; photos := [];
     carfax := noCarfax; marketAnalysis := None;
     inspection :=
       {| general := {| general_completed := false; notes := None; issues := [] |};
          mechanical :=
            {| mechanical_completed := true;
               results :=
                 [ {| category := "engine"; item := "oil leak";
                      result_status := ResultFail; result_notes := None |};
                   {| category := "brakes"; item := "pads";
                      result_status := ResultPass; result_notes := None |} ] |};
          paperwork :=
            {| paperwork_completed := false; vinMatch := None; titleStatus := None;
               ownershipVerified := None; liens := [] |} |};
     recommendations := None; status := InProgress; progress := 30;
     createdAt := 130; updatedAt := 150 |}.

Definition steadyDraws (n : nat) : Z * bool := (150, true).

(** An old car with 150000 miles that [bob] is offered for nothing: it
    passes the validators, and with [base = 5000] the estimate is
    [round(20000 + 0 - 20000) = 0], so [priceVsMarket] is [0 / 0]. *)
Definition recordOfGift : ICarEvaluation :=
  {| userId := Some "bob"; sessionId := None;
     carDetails :=
       {| year := 1999; make := "Honda"; model := "Civic"; mileage := 150000;
          price := 0; vin := None; description := None |};
     photos := []; carfax := noCarfax; marketAnalysis := None;
     inspection := blankInspection; recommendations := None; status := Draft;
     progress := 20; createdAt := 100; updatedAt := 100 |}.

(** A record of [bob] that the collection holds although its year is below
    the schema's minimum. *)
Definition recordOf1980 : ICarEvaluation :=
  {| userId := Some "bob"; sessionId := None;
     carDetails :=
       {| year := 1980; make := "Honda"; model := "Civic"; mileage := 30000;
          price := 18000; vin := None; description := None |};
     photos := []; carfax := noCarfax; marketAnalysis := None;
     inspection := blankInspection; recommendations := None; status := Draft;
     progress := 20; createdAt := 100; updatedAt := 100 |}.

(** An update body that names another owner, another session and a
    progress of its own. *)
Definition forgedUpdates : Updates :=
  {| updates__id := Some 7%N; updates_userId := Some "alice";
     updates_createdAt := Some 1; updates_updatedAt := Some 2;
     updates_sessionId := Some "S1";
     updates_carDetails := None; updates_photos := Some [frontPhoto];
     updates_carfax := None; updates_marketAnalysis := None;
     updates_inspection := None; updates_recommendations := None;
     updates_status := None; updates_progress := Some 99 |}.

(** * Properties *)

(** ** Progress *)

Lemma photos_check (e : ICarEvaluation) :
  (0 <? length (photos e))%nat = Spec.hasPhoto e.
Proof. unfold Spec.hasPhoto. now destruct (photos e). Qed.

(** [calculateProgress] is the weighted sum of its seven checks. *)
Lemma calculateProgress_sum (e : ICarEvaluation) :
  calculateProgress e =
    Spec.weight (basicDetailsFilled e) 20
    + Spec.weight (Spec.hasPhoto e) 10
    + Spec.weight (dealScoreSet e) 25
    + Spec.weight (general_completed (general (inspection e))) 10
    + Spec.weight (mechanical_completed (mechanical (inspection e))) 10
    + Spec.weight (paperwork_completed (paperwork (inspection e))) 10
    + Spec.weight (suggestedOfferSet e) 15.
Proof.
  unfold calculateProgress. rewrite photos_check.
  fold (basicDetailsFilled e) (dealScoreSet e) (suggestedOfferSet e).
  unfold Spec.weight. split_checks; reflexivity.
Qed.

Lemma weight_bounds (b : bool) (w : Z) : 0 <= w -> 0 <= Spec.weight b w <= w.
Proof. destruct b; simpl; lia. Qed.

(** The result always lies between 0 and 100. *)
Lemma calculateProgress_range (e : ICarEvaluation) :
  0 <= calculateProgress e <= 100.
Proof.
  rewrite calculateProgress_sum.
  pose proof (weight_bounds (basicDetailsFilled e) 20).
  pose proof (weight_bounds (Spec.hasPhoto e) 10).
  pose proof (weight_bounds (dealScoreSet e) 25).
  pose proof (weight_bounds (general_completed (general (inspection e))) 10).
  pose proof (weight_bounds (mechanical_completed (mechanical (inspection e))) 10).
  pose proof (weight_bounds (paperwork_completed (paperwork (inspection e))) 10).
  pose proof (weight_bounds (suggestedOfferSet e) 15).
  lia.
Qed.

(** When all seven checks of the code succeed the result is 100. *)
Lemma calculateProgress_full (e : ICarEvaluation) :
  basicDetailsFilled e = true -> Spec.hasPhoto e = true -> dealScoreSet e = true ->
  general_completed (general (inspection e)) = true ->
  mechanical_completed (mechanical (inspection e)) = true ->
  paperwork_completed (paperwork (inspection e)) = true ->
  suggestedOfferSet e = true ->
  calculateProgress e = 100.
Proof.
  intros Hb Hp Hd Hg Hm Hw Hs. rewrite calculateProgress_sum.
  now rewrite Hb, Hp, Hd, Hg, Hm, Hw, Hs.
Qed.

Lemma truthyNum_true (n : Z) : n <> 0 -> Js.truthyNum n = true.
Proof. intros H. unfold Js.truthyNum. now destruct (Z.eqb_spec n 0). Qed.

Lemma truthyStr_true (s : string) : s <> EmptyString -> Js.truthyStr s = true.
Proof. now destruct s. Qed.

Lemma calculateProgress_zeroFree (e : ICarEvaluation) :
  zeroFree e -> calculateProgress e = Spec.progress e.
Proof.
  intros (Hy & Hmk & Hmd & Hmi & Hp & Hd & Hs).
  rewrite calculateProgress_sum. unfold Spec.progress.
  assert (basicDetailsFilled e = true) as ->.
  { unfold basicDetailsFilled.
    now rewrite !truthyNum_true, !truthyStr_true by assumption. }
  assert (dealScoreSet e = isSome (marketAnalysis e)) as ->.
  { unfold dealScoreSet. destruct (marketAnalysis e) as [m|]; [|reflexivity].
    simpl. apply truthyNum_true. now apply Hd. }
  assert (suggestedOfferSet e = isSome (recommendations e)) as ->.
  { unfold suggestedOfferSet. destruct (recommendations e) as [r|]; [|reflexivity].
    simpl. apply truthyNum_true. now apply Hs. }
  reflexivity.
Qed.

(** The sum never decreases when no check turns from met to unmet. *)
Lemma weight_mono (b b' : bool) (w : Z) :
  0 <= w -> (b = true -> b' = true) -> Spec.weight b w <= Spec.weight b' w.
Proof. destruct b, b'; simpl; intros Hw H; try lia; now specialize (H eq_refl). Qed.

Lemma calculateProgress_mono (e e' : ICarEvaluation) :
  (basicDetailsFilled e = true -> basicDetailsFilled e' = true) ->
  (Spec.hasPhoto e = true -> Spec.hasPhoto e' = true) ->
  (dealScoreSet e = true -> dealScoreSet e' = true) ->
  (general_completed (general (inspection e)) = true ->
   general_completed (general (inspection e')) = true) ->
  (mechanical_completed (mechanical (inspection e)) = true ->
   mechanical_completed (mechanical (inspection e')) = true) ->
  (paperwork_completed (paperwork (inspection e)) = true ->
   paperwork_completed (paperwork (inspection e')) = true) ->
  (suggestedOfferSet e = true -> suggestedOfferSet e' = true) ->
  calculateProgress e <= calculateProgress e'.
Proof.
  intros Hb Hp Hd Hg Hm Hw Hs. rewrite !calculateProgress_sum.
  pose proof (weight_mono _ _ 20 ltac:(lia) Hb).
  pose proof (weight_mono _ _ 10 ltac:(lia) Hp).
  pose proof (weight_mono _ _ 25 ltac:(lia) Hd).
  pose proof (weight_mono _ _ 10 ltac:(lia) Hg).
  pose proof (weight_mono _ _ 10 ltac:(lia) Hm).
  pose proof (weight_mono _ _ 10 ltac:(lia) Hw).
  pose proof (weight_mono _ _ 15 ltac:(lia) Hs).
  lia.
Qed.




Lemma progress_recalculate (e : ICarEvaluation) :
  progress (recalculate e) = calculateProgress (recalculate e).
Proof. reflexivity. Qed.

(** The mocked deal score is one of six values, none of them [0]. *)
Lemma dealScoreOf_values (q : Js.Number Q) :
  In (dealScoreOf q) [90; 75; 65; 45; 30; 15].
Proof. unfold dealScoreOf. split_checks; simpl; tauto. Qed.

Lemma dealScoreOf_truthy (q : Js.Number Q) : Js.truthyNum (dealScoreOf q) = true.
Proof. unfold dealScoreOf. split_checks; reflexivity. Qed.

(** C3 (defect). The progress table gives 100 to a record whose seven
    sections are all satisfied; [calculateProgress] tests the numbers of the
    first section for truthiness, so for a car with [mileage = 0] (a value
    the validators accept) taken through the whole workflow it withholds
    the 20 points of the basic details and the record ends at 80. *)
Theorem calculateProgress_finishedNewCivic :
  Validator.validateEvaluation 2025 newCivic = []
  /\ newCivicWorkflow !! 1%N = Some finishedNewCivic
  /\ Spec.allSectionsSatisfied finishedNewCivic = true
  /\ Spec.progress finishedNewCivic = 100
  /\ calculateProgress finishedNewCivic = 80.
Proof. repeat split; vm_compute; reflexivity. Qed.

(** C4 (defect). A record with only its car details filled in is created
    with the literal progress 20; for a car with [mileage = 0] the first
    recomputation, here after an update of the asking price, stores 0. *)
Theorem progress_of_newCivic_recomputed :
  let created := createEvaluation 2025 100 "minted" 1%N alice newCivic ∅ in
  let repriced :=
    {| year := 2020; make := "Honda"; model := "Civic"; mileage := 0;
       price := 17500; vin := None; description := None |} in
  let updated :=
    updateEvaluation 2025 200 1%N alice (withCarDetails repriced) (snd created) in
  statusCode (fst created) = 201
  /\ progress <$> snd created !! 1%N = Some 20
  /\ statusCode (fst updated) = 200
  /\ progress <$> snd updated !! 1%N = Some 0.
Proof. repeat split; vm_compute; reflexivity. Qed.

(** C5 (defect). Completing the general inspection of the freshly created
    record of a car with [mileage = 0] lowers the stored progress from 20
    to 10: the recomputation does not count the basic details that the
    creation counted. *)
Theorem progress_drops_on_inspection :
  let created := createEvaluation 2025 100 "minted" 1%N alice newCivic ∅ in
  let inspected :=
    updateInspection 2025 200 1%N alice "general" noResults (snd created) in
  progress <$> snd created !! 1%N = Some 20
  /\ statusCode (fst inspected) = 200
  /\ progress <$> snd inspected !! 1%N = Some 10.
Proof. repeat split; vm_compute; reflexivity. Qed.

(** ** The collection *)

Section Persistence.

Context (c : Collection) (_id : ObjectId).

Lemma findOne_Some (q : Filter) (d : ICarEvaluation) :
  Model.findOne _id q c = Some d <-> c !! _id = Some d /\ Model.matches q d = true.
Proof.
  unfold Model.findOne. split.
  - destruct (c !! _id) as [d'|]; [|discriminate].
    destruct (Model.matches q d') eqn:Hm; [|discriminate].
    intros [= ->]. now split.
  - intros [-> ->]. reflexivity.
Qed.

Lemma findOne_mismatch (q : Filter) (d : ICarEvaluation) :
  c !! _id = Some d -> Model.matches q d = false -> Model.findOne _id q c = None.
Proof. unfold Model.findOne. now intros -> ->. Qed.

Lemma save_valid (currentYear : Z) (now : Time) (assigned : bool)
    (loaded doc : ICarEvaluation) :
  c !! _id = Some loaded -> Schema.validateDocument currentYear doc = [] ->
  Model.save currentYear now _id assigned loaded doc c
  = inr (saved now assigned loaded doc, <[_id := saved now assigned loaded doc]> c).
Proof.
  intros Hc Hv. unfold Model.save, saved. rewrite Hv.
  destruct (negb assigned && bool_decide (doc = loaded)) eqn:Hm; [|reflexivity].
  apply andb_prop in Hm as [_ Heq%bool_decide_eq_true]. subst doc.
  now rewrite insert_id.
Qed.

Lemma save_invalid (currentYear : Z) (now : Time) (assigned : bool)
    (loaded doc : ICarEvaluation) :
  Schema.validateDocument currentYear doc <> [] ->
  Model.save currentYear now _id assigned loaded doc c
  = inl (ValidationError (Schema.validateDocument currentYear doc)).
Proof.
  intros Hv. unfold Model.save.
  now destruct (Schema.validateDocument currentYear doc).
Qed.

(** [save] as a case distinction on the validation of the document. *)
Lemma save_cases (currentYear : Z) (now : Time) (assigned : bool)
    (loaded doc : ICarEvaluation) :
  c !! _id = Some loaded ->
  Model.save currentYear now _id assigned loaded doc c
  = match Schema.validateDocument currentYear doc with
    | [] => inr (saved now assigned loaded doc,
                 <[_id := saved now assigned loaded doc]> c)
    | errs => inl (ValidationError errs)
    end.
Proof.
  intros Hc. destruct (Schema.validateDocument currentYear doc) eqn:Hv.
  - now apply save_valid.
  - rewrite save_invalid; rewrite Hv; [reflexivity | discriminate].
Qed.

Lemma saved_fields (now : Time) (assigned : bool) (loaded doc : ICarEvaluation) :
  let s := saved now assigned loaded doc in
  userId s = userId doc /\ sessionId s = sessionId doc
  /\ carDetails s = carDetails doc /\ photos s = photos doc
  /\ marketAnalysis s = marketAnalysis doc /\ inspection s = inspection doc
  /\ recommendations s = recommendations doc
  /\ status s = status doc /\ progress s = progress doc
  /\ createdAt s = createdAt doc.
Proof. unfold saved. destruct (_ && _); repeat split. Qed.

Lemma saved_progress_current (now : Time) (assigned : bool)
    (loaded doc : ICarEvaluation) :
  progress (saved now assigned loaded (recalculate doc))
  = calculateProgress (saved now assigned loaded (recalculate doc)).
Proof. unfold saved. destruct (_ && _); reflexivity. Qed.

Lemma saved_stamped (now : Time) (assigned : bool) (loaded doc : ICarEvaluation) :
  exists t, saved now assigned loaded doc = set_updatedAt t doc.
Proof.
  unfold saved. destruct (_ && _); [|now eexists].
  exists (updatedAt doc). now destruct doc.
Qed.

End Persistence.

(** ** Validation of the document at [save] *)

Lemma check_nil (ok : bool) (msg : string) :
  Validator.check ok msg = [] <-> ok = true.
Proof. destruct ok; cbn; split; congruence. Qed.

Lemma validateProgress_calculateProgress (e : ICarEvaluation) :
  Schema.validateProgress (calculateProgress e) = [].
Proof.
  pose proof (calculateProgress_range e) as [Hlo Hhi].
  unfold Schema.validateProgress. apply app_nil. split; apply check_nil; lia.
Qed.

(** After [calculateProgress] the validation of a document depends on its
    car details, photos and market analysis only. *)
Lemma validateDocument_recalculate (currentYear : Z) (e : ICarEvaluation) :
  Schema.validateDocument currentYear (recalculate e)
  = Schema.validateCarDetails currentYear (carDetails e)
    ++ Schema.validatePhotos (photos e)
    ++ Schema.validateMarketAnalysis (marketAnalysis e).
Proof.
  unfold Schema.validateDocument, recalculate, set_progress.
  cbn [carDetails photos marketAnalysis progress].
  now rewrite validateProgress_calculateProgress, app_nil_r.
Qed.

Lemma valid_content (currentYear : Z) (d : ICarEvaluation) :
  valid currentYear d ->
  Schema.validateCarDetails currentYear (carDetails d) = []
  /\ Schema.validatePhotos (photos d) = []
  /\ Schema.validateMarketAnalysis (marketAnalysis d) = [].
Proof.
  unfold valid, Schema.validateDocument. rewrite !app_nil. tauto.
Qed.

(** A valid document stays valid under assignments that keep its car
    details, photos and market analysis, once the progress is recomputed. *)
Lemma valid_recalculate (currentYear : Z) (d e : ICarEvaluation) :
  valid currentYear d ->
  carDetails e = carDetails d -> photos e = photos d ->
  marketAnalysis e = marketAnalysis d ->
  Schema.validateDocument currentYear (recalculate e) = [].
Proof.
  intros (Hc & Hp & Hm)%valid_content Hcd Hph Hma.
  now rewrite validateDocument_recalculate, Hcd, Hph, Hma, Hc, Hp, Hm.
Qed.


Lemma inspected_content (inspectionType : string) (results : InspectionResults)
    (d : ICarEvaluation) :
  let e := inspected inspectionType results d in
  userId e = userId d /\ sessionId e = sessionId d
  /\ carDetails e = carDetails d /\ photos e = photos d /\ carfax e = carfax d
  /\ marketAnalysis e = marketAnalysis d /\ recommendations e = recommendations d
  /\ status e = status d /\ progress e = progress d
  /\ createdAt e = createdAt d /\ updatedAt e = updatedAt d.
Proof.
  unfold inspected. repeat destruct (String.eqb _ _); repeat split.
Qed.

Lemma valid_inspected (currentYear : Z) (inspectionType : string)
    (results : InspectionResults) (s : Status) (d : ICarEvaluation) :
  valid currentYear d ->
  Schema.validateDocument currentYear
    (recalculate (set_status s (inspected inspectionType results d))) = [].
Proof.
  intros Hv. destruct (inspected_content inspectionType results d)
    as (_ & _ & Hc & Hp & _ & Hm & _).
  now apply (valid_recalculate currentYear d).
Qed.

(** ** What each operation does to a record its query finds *)

(** The documents the three operations hand to [save]. *)
Lemma analyzeMarket_found (currentYear : Z) (now : Time) (draws : MarketDraws)
    (_id : ObjectId) (req : IAuthRequest) (c : Collection) (d : ICarEvaluation) :
  Model.findOne _id (queryOf req) c = Some d ->
  let m := mockMarketAnalysis draws (carDetails d) in
  let doc := recalculate (set_status Analyzing (set_marketAnalysis (Some m) d)) in
  let s := saved now true d doc in
  analyzeMarket currentYear now draws _id req c
  = match Schema.validateDocument currentYear doc with
    | [] => (json 200 true "Market analysis completed"
               (AnalysisData (getSummary _id s) m), <[_id := s]> c)
    | errs => (errorHandler (ValidationError errs), c)
    end.
Proof.
  intros Hf. unfold analyzeMarket. rewrite Hf.
  apply findOne_Some in Hf as [Hc _]. rewrite (save_cases _ _ _ _ _ _ _ Hc).
  now destruct (Schema.validateDocument _ _).
Qed.

Lemma updateInspection_found (currentYear : Z) (now : Time) (_id : ObjectId)
    (req : IAuthRequest) (inspectionType : string) (results : InspectionResults)
    (c : Collection) (d : ICarEvaluation) :
  Model.findOne _id (queryOf req) c = Some d ->
  let doc := recalculate (set_status InProgress (inspected inspectionType results d)) in
  let s := saved now (isSection inspectionType) d doc in
  updateInspection currentYear now _id req inspectionType results c
  = match Schema.validateDocument currentYear doc with
    | [] => (json 200 true "Inspection results updated" (DocumentData _id s),
             <[_id := s]> c)
    | errs => (errorHandler (ValidationError errs), c)
    end.
Proof.
  intros Hf. unfold updateInspection. rewrite Hf.
  apply findOne_Some in Hf as [Hc _]. fold (inspected inspectionType results d).
  rewrite (save_cases _ _ _ _ _ _ _ Hc).
  now destruct (Schema.validateDocument _ _).
Qed.

Lemma generateRecommendations_found (currentYear : Z) (now : Time)
    (draws : nat -> Z * bool) (_id : ObjectId) (req : IAuthRequest) (c : Collection)
    (d : ICarEvaluation) :
  Model.findOne _id (queryOf req) c = Some d ->
  let r := mockRecommendations draws d in
  let doc := recalculate (set_status Completed (set_recommendations (Some r) d)) in
  let s := saved now true d doc in
  generateRecommendations currentYear now draws _id req c
  = match Schema.validateDocument currentYear doc with
    | [] => (json 200 true "Recommendations generated"
               (RecommendationData (getSummary _id s) r), <[_id := s]> c)
    | errs => (errorHandler (ValidationError errs), c)
    end.
Proof.
  intros Hf. unfold generateRecommendations. rewrite Hf.
  apply findOne_Some in Hf as [Hc _]. rewrite (save_cases _ _ _ _ _ _ _ Hc).
  now destruct (Schema.validateDocument _ _).
Qed.

(** On a valid record [updateInspection] and [generateRecommendations]
    always get through [save]. *)
Lemma updateInspection_valid (currentYear : Z) (now : Time) (_id : ObjectId)
    (req : IAuthRequest) (inspectionType : string) (results : InspectionResults)
    (c : Collection) (d : ICarEvaluation) :
  Model.findOne _id (queryOf req) c = Some d -> valid currentYear d ->
  let s :=
    saved now (isSection inspectionType) d
      (recalculate (set_status InProgress (inspected inspectionType results d))) in
  updateInspection currentYear now _id req inspectionType results c
  = (json 200 true "Inspection results updated" (DocumentData _id s), <[_id := s]> c).
Proof.
  intros Hf Hv.
  rewrite (updateInspection_found currentYear now _ _ inspectionType results _ _ Hf).
  now rewrite valid_inspected.
Qed.

Lemma generateRecommendations_valid (currentYear : Z) (now : Time)
    (draws : nat -> Z * bool) (_id : ObjectId) (req : IAuthRequest) (c : Collection)
    (d : ICarEvaluation) :
  Model.findOne _id (queryOf req) c = Some d -> valid currentYear d ->
  let r := mockRecommendations draws d in
  let s :=
    saved now true d (recalculate (set_status Completed (set_recommendations (Some r) d))) in
  generateRecommendations currentYear now draws _id req c
  = (json 200 true "Recommendations generated"
       (RecommendationData (getSummary _id s) r), <[_id := s]> c).
Proof.
  intros Hf Hv.
  rewrite (generateRecommendations_found currentYear now draws _ _ _ _ Hf).
  now rewrite (valid_recalculate currentYear d).
Qed.

(** The analysis of a valid record is rejected exactly when the quotient is
    [NaN], that is, when the estimate and the asking price are both 0. *)
Lemma priceVsMarket_NaN (draws : MarketDraws) (cd : ICarDetails) :
  priceVsMarket (mockMarketAnalysis draws cd) = Js.NaN
  <-> estimatedValue (mockMarketAnalysis draws cd) = 0 /\ price cd = 0.
Proof.
  unfold mockMarketAnalysis. cbn [priceVsMarket estimatedValue].
  set (ev := Js.round _). unfold Js.div.
  destruct (Z.eqb_spec ev 0) as [Hev|Hev].
  - destruct (Z.eqb_spec (price cd - ev) 0) as [Hp|Hp].
    + split; [intros _; split; [exact Hev | lia] | reflexivity].
    + split; [|lia]. destruct (xorb _ _); discriminate.
  - split; [discriminate | tauto].
Qed.

Lemma analyzeMarket_valid (currentYear : Z) (now : Time) (draws : MarketDraws)
    (_id : ObjectId) (req : IAuthRequest) (c : Collection) (d : ICarEvaluation) :
  Model.findOne _id (queryOf req) c = Some d -> valid currentYear d ->
  let m := mockMarketAnalysis draws (carDetails d) in
  let s :=
    saved now true d (recalculate (set_status Analyzing (set_marketAnalysis (Some m) d))) in
  analyzeMarket currentYear now draws _id req c
  = match priceVsMarket m with
    | Js.NaN =>
        (errorHandler
           (ValidationError (Schema.castNumber "marketAnalysis.priceVsMarket" Js.NaN)), c)
    | _ => (json 200 true "Market analysis completed"
              (AnalysisData (getSummary _id s) m), <[_id := s]> c)
    end.
Proof.
  intros Hf (Hc & Hp & _)%valid_content m s.
  rewrite (analyzeMarket_found currentYear now draws _ _ _ _ Hf).
  rewrite validateDocument_recalculate.
  cbn [carDetails photos marketAnalysis set_status set_marketAnalysis].
  rewrite Hc, Hp. cbn [app Schema.validateMarketAnalysis]. fold m.
  now destruct (priceVsMarket m).
Qed.

(** A request whose query finds nothing is answered 404 and changes
    nothing. *)
Lemma not_found_everywhere (currentYear : Z) (now : Time) (_id : ObjectId)
    (req : IAuthRequest) (c : Collection) :
  Model.findOne _id (queryOf req) c = None ->
  getEvaluation _id req c = notFound
  /\ deleteEvaluation _id req c = (notFound, c)
  /\ (forall body,
        updateEvaluation currentYear now _id req body c
        = (match Model.validateUpdate currentYear (removeSensitive body) with
           | [] => notFound
           | errs => errorHandler (ValidationError errs)
           end, c))
  /\ (forall draws, analyzeMarket currentYear now draws _id req c = (notFound, c))
  /\ (forall ty results,
        updateInspection currentYear now _id req ty results c = (notFound, c))
  /\ (forall draws, generateRecommendations currentYear now draws _id req c = (notFound, c)).
Proof.
  intros Hf. unfold getEvaluation, deleteEvaluation, updateEvaluation, analyzeMarket,
    updateInspection, generateRecommendations, Model.findOneAndDelete,
    Model.findOneAndUpdate.
  rewrite Hf. repeat split; try reflexivity.
  intros body. now destruct (Model.validateUpdate _ _).
Qed.

Lemma errorHandler_ValidationError (errs : list string) :
  errorHandler (ValidationError errs) = json 400 false (join ", " errs) NoData.
Proof. reflexivity. Qed.

(** ** Status *)

Lemma success_notFound : success notFound = false.
Proof. reflexivity. Qed.

(** C6. A successful [analyzeMarket] leaves the record with status
    [analyzing], a successful [updateInspection] (whatever the section) with
    [in_progress], a successful [generateRecommendations] with [completed];
    the status the record had before plays no part, so analysing a completed
    record makes it [analyzing] again.  The operations do succeed: on a
    record that the query finds and that satisfies the schema,
    [updateInspection] and [generateRecommendations] always do, and
    [analyzeMarket] does unless its quotient is [NaN]. *)
Theorem status_after_operation (currentYear : Z) (now : Time) (mdraws : MarketDraws)
    (rdraws : nat -> Z * bool) (_id : ObjectId) (req : IAuthRequest)
    (inspectionType : string) (results : InspectionResults) (c : Collection) :
  let analyzed := analyzeMarket currentYear now mdraws _id req c in
  let inspected := updateInspection currentYear now _id req inspectionType results c in
  let recommended := generateRecommendations currentYear now rdraws _id req c in
  (success (fst analyzed) = true -> status <$> snd analyzed !! _id = Some Analyzing)
  /\ (success (fst inspected) = true -> status <$> snd inspected !! _id = Some InProgress)
  /\ (success (fst recommended) = true ->
      status <$> snd recommended !! _id = Some Completed)
  /\ (status <$> c !! _id = Some Completed -> success (fst analyzed) = true ->
      status <$> snd analyzed !! _id = Some Analyzing)
  /\ (forall d,
        Model.findOne _id (queryOf req) c = Some d -> valid currentYear d ->
        (priceVsMarket (mockMarketAnalysis mdraws (carDetails d)) <> Js.NaN ->
         success (fst analyzed) = true
         /\ status <$> snd analyzed !! _id = Some Analyzing)
        /\ success (fst inspected) = true
        /\ status <$> snd inspected !! _id = Some InProgress
        /\ success (fst recommended) = true
        /\ status <$> snd recommended !! _id = Some Completed).
Proof.
  intros analyzed inspected' recommended.
  assert (forall n a l x, status <$> (<[_id := saved n a l x]> c) !! _id = Some (status x))
    as Hst.
  { intros n a l x. rewrite lookup_insert_eq. cbn. f_equal.
    now destruct (saved_fields n a l x) as (_ & _ & _ & _ & _ & _ & _ & -> & _). }
  destruct (Model.findOne _id (queryOf req) c) as [d|] eqn:Hf.
  - pose proof (analyzeMarket_found currentYear now mdraws _ _ _ _ Hf) as Ha.
    pose proof (updateInspection_found currentYear now _ _ inspectionType results _ _ Hf)
      as Hi.
    pose proof (generateRecommendations_found currentYear now rdraws _ _ _ _ Hf) as Hr.
    cbv zeta in Ha, Hi, Hr. fold analyzed in Ha. fold inspected' in Hi.
    fold recommended in Hr.
    split; [|split; [|split; [|split]]].
    + clear Hi Hr. rewrite Ha. destruct (Schema.validateDocument _ _); [intros _; cbn [snd]; apply Hst | discriminate].
    + clear Ha Hr. rewrite Hi. destruct (Schema.validateDocument _ _); [intros _; cbn [snd]; apply Hst | discriminate].
    + clear Ha Hi. rewrite Hr. destruct (Schema.validateDocument _ _); [intros _; cbn [snd]; apply Hst | discriminate].
    + clear Hi Hr. rewrite Ha. destruct (Schema.validateDocument _ _); [intros _ _; cbn [snd]; apply Hst | discriminate].
    + intros d' [= <-] Hv. split; [|split; [|split; [|split]]].
      * intros Hnan. clear Hi Hr. rewrite Ha. pose proof (valid_content _ _ Hv) as (Hc & Hp & _).
        rewrite validateDocument_recalculate.
        cbn [carDetails photos marketAnalysis set_status set_marketAnalysis].
        rewrite Hc, Hp. cbn [app Schema.validateMarketAnalysis].
        destruct (priceVsMarket _); first [congruence | split; [reflexivity | cbn [snd]; apply Hst]].
      * rewrite Hi. now rewrite valid_inspected.
      * rewrite Hi. rewrite valid_inspected by exact Hv. cbn [snd]. apply Hst.
      * rewrite Hr. now rewrite (valid_recalculate currentYear d).
      * rewrite Hr. rewrite (valid_recalculate currentYear d) by (exact Hv || reflexivity).
        cbn [snd]. apply Hst.
  - destruct (not_found_everywhere currentYear now _ _ _ Hf) as (_ & _ & _ & Ha & Hi & Hr).
    subst analyzed inspected' recommended.
    rewrite Ha, Hi, Hr. cbn [fst]. rewrite success_notFound.
    split; [|split; [|split; [|split]]]; intros; discriminate.
Qed.

Lemma status_after_operation_witness :
  let c : Collection := {[ 1%N := finishedNewCivic ]} in
  (success (fst (analyzeMarket 2025 500 someDraws 1%N alice c)) = true
   /\ status <$> snd (analyzeMarket 2025 500 someDraws 1%N alice c) !! 1%N
      = Some Analyzing)
  /\ success (fst (updateInspection 2025 500 1%N alice "general" noResults c)) = true
  /\ status <$> snd (updateInspection 2025 500 1%N alice "general" noResults c) !! 1%N
     = Some InProgress
  /\ success (fst (generateRecommendations 2025 500 someCosts 1%N alice c)) = true
  /\ status <$> snd (generateRecommendations 2025 500 someCosts 1%N alice c) !! 1%N
     = Some Completed.
Proof.
  intros c.
  destruct (proj2 (proj2 (proj2 (proj2
              (status_after_operation 2025 500 someDraws someCosts 1%N alice "general"
                 noResults c)))) finishedNewCivic eq_refl eq_refl)
    as (Ha & Hi).
  split; [apply Ha; discriminate | exact Hi].
Defined.

(** The three operations succeed on no record but one the query finds. *)
Lemma operations_succeed_only_if_found (currentYear : Z) (now : Time)
    (mdraws : MarketDraws) (rdraws : nat -> Z * bool) (_id : ObjectId)
    (req : IAuthRequest) (inspectionType : string) (results : InspectionResults)
    (c : Collection) :
  Model.findOne _id (queryOf req) c = None ->
  success (fst (analyzeMarket currentYear now mdraws _id req c)) = false
  /\ success (fst (updateInspection currentYear now _id req inspectionType results c))
     = false
  /\ success (fst (generateRecommendations currentYear now rdraws _id req c)) = false.
Proof.
  intros Hf.
  destruct (not_found_everywhere currentYear now _ _ _ Hf) as (_ & _ & _ & Ha & Hi & Hr).
  now rewrite Ha, Hi, Hr.
Qed.

(** ** Inspection types outside the three sections *)

Lemma inspected_other (inspectionType : string) (results : InspectionResults)
    (d : ICarEvaluation) :
  inspectionType <> "general" -> inspectionType <> "mechanical" ->
  inspectionType <> "paperwork" ->
  inspected inspectionType results d = d /\ isSection inspectionType = false.
Proof.
  intros Hg Hm Hp. unfold inspected, isSection.
  apply String.eqb_neq in Hg, Hm, Hp. now rewrite Hg, Hm, Hp.
Qed.

Lemma status_progress_current (d : ICarEvaluation) :
  recalculate (set_status InProgress d) = d
  <-> status d = InProgress /\ progress d = calculateProgress d.
Proof.
  destruct d; unfold recalculate, set_progress, set_status; cbn. split.
  - intros [= <- Hp]. split; [reflexivity|]. rewrite <- Hp at 1. reflexivity.
  - intros [-> Hp]. f_equal. symmetry. exact Hp.
Qed.

(** C10 (counterexample). A second request with an unknown inspection type
    on a record that is already [in_progress] with its progress up to date
    assigns the values the record has: no path is modified, [save] writes
    nothing and [updatedAt] keeps its old value 100 although the request is
    made at time 200. *)
Lemma updateInspection_unmodified_keeps_updatedAt :
  let c : Collection := {[ 1%N := recordOfBob ]} in
  let out := updateInspection 2025 200 1%N bob "bodywork" noResults c in
  success (fst out) = true
  /\ updatedAt <$> snd out !! 1%N = Some 100
  /\ updatedAt <$> snd out !! 1%N <> Some 200.
Proof. repeat split; vm_compute; congruence. Qed.

(** C10 (amended). For an inspection type outside general, mechanical and
    paperwork, on a record that satisfies the schema, the operation answers
    with success, leaves the three inspection sections as they were, sets
    the status to [in_progress] and stores the recomputed progress;
    [updatedAt] is refreshed when this changes the status or the progress
    of the record, and kept otherwise. *)
Theorem updateInspection_unknown_type (currentYear : Z) (now : Time) (_id : ObjectId)
    (req : IAuthRequest) (inspectionType : string) (results : InspectionResults)
    (c : Collection) (d : ICarEvaluation) :
  Model.findOne _id (queryOf req) c = Some d ->
  valid currentYear d ->
  inspectionType <> "general" -> inspectionType <> "mechanical" ->
  inspectionType <> "paperwork" ->
  exists d',
    updateInspection currentYear now _id req inspectionType results c
    = (json 200 true "Inspection results updated" (DocumentData _id d'),
       <[_id := d']> c)
    /\ inspection d' = inspection d
    /\ status d' = InProgress
    /\ progress d' = calculateProgress d'
    /\ updatedAt d'
       = if decide (status d = InProgress /\ progress d = calculateProgress d)
         then updatedAt d else now.
Proof.
  intros Hf Hv Hg Hm Hp.
  rewrite (updateInspection_valid currentYear now _ _ inspectionType results _ _ Hf Hv).
  destruct (inspected_other _ results d Hg Hm Hp) as [-> ->].
  eexists. split; [reflexivity|].
  pose proof (status_progress_current d) as Hcur.
  unfold saved. cbn [negb andb]. case_bool_decide as Heq.
  - rewrite Heq. apply Hcur in Heq as Hsp.
    rewrite decide_True by exact Hsp. now destruct Hsp.
  - rewrite decide_False by (intros Hsp; apply Heq, Hcur, Hsp).
    repeat split.
Qed.

Lemma updateInspection_unknown_type_witness :
  exists d',
    updateInspection 2025 200 1%N bob "bodywork" noResults {[ 1%N := recordOfBob ]}
    = (json 200 true "Inspection results updated" (DocumentData 1%N d'),
       <[1%N := d']> {[ 1%N := recordOfBob ]})
    /\ inspection d' = inspection recordOfBob
    /\ status d' = InProgress
    /\ progress d' = calculateProgress d'
    /\ updatedAt d'
       = if decide (status recordOfBob = InProgress
                    /\ progress recordOfBob = calculateProgress recordOfBob)
         then updatedAt recordOfBob else 200.
Proof.
  apply (updateInspection_unknown_type 2025 200 1%N bob "bodywork" noResults
           {[ 1%N := recordOfBob ]} recordOfBob);
    [reflexivity | reflexivity | discriminate | discriminate | discriminate].
Defined.

(** ** Creation *)

(** What a successful [createEvaluation] inserts. *)
Lemma createEvaluation_created (currentYear : Z) (now : Time) (generated : string)
    (newId : ObjectId) (req : IAuthRequest) (body : ICarDetails) (c c' : Collection)
    (r : Response) :
  createEvaluation currentYear now generated newId req body c = (r, c') ->
  success r = true ->
  exists d,
    c' = <[newId := d]> c /\ c !! newId = None
    /\ Validator.validateEvaluation currentYear body = []
    /\ r = json 201 true "Car evaluation created successfully"
             (SummaryData (getSummary newId d))
    /\ userId d = user req /\ sessionId d = None
    /\ status d = Draft /\ progress d = 20
    /\ photos d = [] /\ marketAnalysis d = None /\ recommendations d = None
    /\ inspection d = blankInspection
    /\ vin (carDetails d)
       = (fun v => Js.toUpperCase (Js.trim (Js.toUpperCase v))) <$> vin body.
Proof.
  unfold createEvaluation.
  destruct (Validator.validateEvaluation currentYear body) as [|e errs] eqn:Hv.
  2: { intros [= <- <-]. discriminate. }
  unfold Model.create.
  destruct (Schema.validateDocument _ _).
  2: { intros [= <- <-]. discriminate. }
  destruct (c !! newId) eqn:Hc.
  { intros [= <- <-]. discriminate. }
  intros [= <- <-] _. eexists. split; [reflexivity|].
  repeat split. cbn. now destruct (vin body).
Qed.

(** A guest's session id is computed and then left out of the document. *)
Lemma createEvaluation_guest_unreadable (currentYear : Z) (now : Time)
    (generated : string) (newId : ObjectId) (s : string) (body : ICarDetails)
    (c c' : Collection) (r : Response) :
  let guest := {| user := None; x_session_id := Some s |} in
  createEvaluation currentYear now generated newId guest body c = (r, c') ->
  success r = true ->
  sessionId <$> c' !! newId = Some None
  /\ getEvaluation newId guest c' = notFound.
Proof.
  intros guest Hc Hs.
  destruct (createEvaluation_created _ _ _ _ _ _ _ _ _ Hc Hs)
    as (d & -> & _ & _ & _ & _ & Hsid & _).
  split.
  - now rewrite lookup_insert_eq; cbn; rewrite Hsid.
  - unfold getEvaluation. erewrite findOne_mismatch; [reflexivity | apply lookup_insert_eq |].
    cbn. rewrite Hsid. now apply bool_decide_eq_false.
Qed.

(** C1 (defect). The guest with session id [S1] creates a record; the
    stored document has no [sessionId], and the same guest presenting [S1]
    is answered 404 when asking for the record just created. *)
Theorem guest_cannot_read_created_record :
  let created := createEvaluation 2025 100 "minted" 1%N guestS1 civic ∅ in
  statusCode (fst created) = 201
  /\ sessionId <$> snd created !! 1%N = Some None
  /\ userId <$> snd created !! 1%N = Some None
  /\ getEvaluation 1%N guestS1 (snd created) = notFound.
Proof. repeat split; vm_compute; reflexivity. Qed.

(** ** Ownership *)

Lemma authorize_matches (p : Spec.Principal) (d : ICarEvaluation) :
  Model.matches (queryOf (Spec.requestOf p)) d = Spec.authorize p d.
Proof. now destruct p. Qed.

(** The answers to a caller the record does not belong to. *)
Lemma denied (currentYear : Z) (now : Time) (_id : ObjectId) (req : IAuthRequest)
    (body : Updates) (c : Collection) (d : ICarEvaluation) :
  c !! _id = Some d -> Model.matches (queryOf req) d = false ->
  let updated := updateEvaluation currentYear now _id req body c in
  getEvaluation _id req c = notFound
  /\ deleteEvaluation _id req c = (notFound, c)
  /\ snd updated = c
  /\ (Model.validateUpdate currentYear (removeSensitive body) = [] ->
      fst updated = notFound)
  /\ (Model.validateUpdate currentYear (removeSensitive body) <> [] ->
      statusCode (fst updated) = 400 /\ success (fst updated) = false).
Proof.
  intros Hc Hm updated. pose proof (findOne_mismatch _ _ _ _ Hc Hm) as Hf.
  destruct (not_found_everywhere currentYear now _ _ _ Hf) as (Hg & Hd & Hu & _).
  subst updated. rewrite Hg, Hd, Hu. cbn [fst snd].
  destruct (Model.validateUpdate _ _); repeat split; congruence.
Qed.

(** C2 (counterexample). Guest [S1] sends an update with [progress: 500] for
    the record of guest [S2]: the update validators reject the body before
    any record is looked up, and the answer is 400, not 404. *)
Lemma guest_update_rejected_before_lookup :
  let c : Collection := {[ 1%N := recordOfS2 ]} in
  let out := updateEvaluation 2025 200 1%N guestS1 (withProgress 500) c in
  statusCode (fst out) = 400 /\ fst out <> notFound /\ snd out = c.
Proof. repeat split; vm_compute; congruence. Qed.

(** C2 (amended). For distinct session ids [S1] and [S2] and a record whose
    [sessionId] is [S2], guest [S1] is answered 404 by get and by delete,
    and by update when the body passes the update validators (400 when it
    does not); in every case the collection is left as it was. *)
Theorem guest_isolation (currentYear : Z) (now : Time) (_id : ObjectId)
    (S1 S2 : string) (body : Updates) (c : Collection) (d : ICarEvaluation) :
  S1 <> S2 -> c !! _id = Some d -> sessionId d = Some S2 ->
  let req := {| user := None; x_session_id := Some S1 |} in
  let updated := updateEvaluation currentYear now _id req body c in
  getEvaluation _id req c = notFound
  /\ statusCode notFound = 404
  /\ deleteEvaluation _id req c = (notFound, c)
  /\ snd updated = c
  /\ (Model.validateUpdate currentYear (removeSensitive body) = [] ->
      fst updated = notFound)
  /\ (Model.validateUpdate currentYear (removeSensitive body) <> [] ->
      statusCode (fst updated) = 400 /\ success (fst updated) = false).
Proof.
  intros Hne Hc Hs req updated.
  assert (Model.matches (queryOf req) d = false) as Hm.
  { cbn. rewrite Hs. apply bool_decide_eq_false. congruence. }
  destruct (denied currentYear now _ req body _ _ Hc Hm) as (Hg & Hd & Hu & Hv & He).
  now rewrite Hg, Hd.
Qed.

Lemma guest_isolation_witness :
  let c : Collection := {[ 1%N := recordOfS2 ]} in
  (getEvaluation 1%N guestS1 c = notFound
   /\ deleteEvaluation 1%N guestS1 c = (notFound, c)
   /\ updateEvaluation 2025 200 1%N guestS1 (withCarDetails civic) c = (notFound, c))
  /\ statusCode (fst (updateEvaluation 2025 200 1%N guestS1
                        (withPhotos [unnamedPhoto]) c)) = 400
  /\ snd (updateEvaluation 2025 200 1%N guestS1 (withPhotos [unnamedPhoto]) c) = c.
Proof.
  intros c.
  destruct (guest_isolation 2025 200 1%N "S1" "S2" (withCarDetails civic) c recordOfS2)
    as (Hg & _ & Hd & Hu & Hv & _); [discriminate | reflexivity | reflexivity |].
  destruct (guest_isolation 2025 200 1%N "S1" "S2" (withPhotos [unnamedPhoto]) c
              recordOfS2)
    as (_ & _ & _ & Hu' & _ & He); [discriminate | reflexivity | reflexivity |].
  split; [split; [exact Hg | split; [exact Hd|]] | split; [|exact Hu']].
  - apply injective_projections; [exact (Hv eq_refl) | exact Hu].
  - apply He. discriminate.
Defined.

(** C9 (counterexample). The authenticated user [alice] asks for a record
    owned by [bob]: the answer is 404, not 403.  A guest that sends no
    session id asks for the same record: the filter [{ sessionId:
    undefined }] selects it, and the answer is 200, not a denial. *)
Lemma user_mismatch_is_not_found :
  Spec.authorize (Spec.User "alice") recordOfBob = false
  /\ statusCode (getEvaluation 1%N alice {[ 1%N := recordOfBob ]}) = 404
  /\ statusCode (getEvaluation 1%N alice {[ 1%N := recordOfBob ]}) <> 403
  /\ userId recordOfBob <> None
  /\ statusCode (getEvaluation 1%N anonymous {[ 1%N := recordOfBob ]}) = 200.
Proof. repeat split; vm_compute; congruence. Qed.

(** C9 (amended). For get, update and delete on an existing record that the
    ownership guard denies to the caller, the denial is a 404 both for a
    guest presenting a session id and for an authenticated user whose id
    differs from the owner (an update whose body fails validation is
    answered 400); nothing is changed. *)
Theorem denial_is_not_found (currentYear : Z) (now : Time) (_id : ObjectId)
    (p : Spec.Principal) (body : Updates) (c : Collection) (d : ICarEvaluation) :
  c !! _id = Some d -> Spec.authorize p d = false ->
  let updated := updateEvaluation currentYear now _id (Spec.requestOf p) body c in
  getEvaluation _id (Spec.requestOf p) c = notFound
  /\ statusCode notFound = 404
  /\ deleteEvaluation _id (Spec.requestOf p) c = (notFound, c)
  /\ snd updated = c
  /\ (Model.validateUpdate currentYear (removeSensitive body) = [] ->
      fst updated = notFound)
  /\ (Model.validateUpdate currentYear (removeSensitive body) <> [] ->
      statusCode (fst updated) = 400 /\ success (fst updated) = false).
Proof.
  intros Hc Ha updated. rewrite <- authorize_matches in Ha.
  destruct (denied currentYear now _ _ body _ _ Hc Ha) as (Hg & Hd & Hu & Hv & He).
  now rewrite Hg, Hd.
Qed.

Lemma denial_is_not_found_witness :
  let c : Collection := {[ 1%N := recordOfBob ]} in
  (getEvaluation 1%N alice c = notFound
   /\ deleteEvaluation 1%N alice c = (notFound, c)
   /\ updateEvaluation 2025 200 1%N alice noUpdates c = (notFound, c))
  /\ getEvaluation 1%N guestS1 c = notFound
  /\ statusCode (fst (updateEvaluation 2025 200 1%N alice (withPhotos [unnamedPhoto]) c))
     = 400
  /\ snd (updateEvaluation 2025 200 1%N alice (withPhotos [unnamedPhoto]) c) = c.
Proof.
  intros c.
  destruct (denial_is_not_found 2025 200 1%N (Spec.User "alice") noUpdates c recordOfBob)
    as (Hg & _ & Hd & Hu & Hv & _); [reflexivity | reflexivity |].
  destruct (denial_is_not_found 2025 200 1%N (Spec.Guest "S1") noUpdates c recordOfBob)
    as (Hg' & _); [reflexivity | reflexivity |].
  destruct (denial_is_not_found 2025 200 1%N (Spec.User "alice")
              (withPhotos [unnamedPhoto]) c recordOfBob)
    as (_ & _ & _ & Hu' & _ & He); [reflexivity | reflexivity |].
  split; [split; [exact Hg | split; [exact Hd|]] | split; [exact Hg' | split; [|exact Hu']]].
  - apply injective_projections; [exact (Hv eq_refl) | exact Hu].
  - apply He. discriminate.
Defined.

(** ** Listing *)

(** C8 (counterexample). A guest request without a session id is answered
    with an error, not with a successful page. *)
Lemma list_without_session_fails :
  success (getEvaluations anonymous None None ∅) = false
  /\ statusCode (getEvaluations anonymous None None ∅) = 400.
Proof. split; reflexivity. Qed.

(** C8 (amended). [GET /evaluations] from a guest that supplies no session
    id (no header, or an empty one) is answered 400 with the message
    "Session ID required for guest access", whatever the page, the limit
    and the collection. *)
Theorem list_requires_session (page limit : option Z) (c : Collection) :
  getEvaluations {| user := None; x_session_id := None |} page limit c
  = json 400 false "Session ID required for guest access" NoData
  /\ getEvaluations {| user := None; x_session_id := Some EmptyString |} page limit c
     = json 400 false "Session ID required for guest access" NoData.
Proof. split; reflexivity. Qed.

(** ** The VIN *)

Lemma vinChar_plain (ch : ascii) :
  Validator.vinChar ch = true -> Js.isSpace ch = false /\ Js.upperChar ch = ch.
Proof.
  destruct ch as [[] [] [] [] [] [] [] []]; vm_compute; intros H;
    first [discriminate H | split; reflexivity].
Qed.

Lemma toUpperCase_vin (v : string) :
  Js.allChars Validator.vinChar v = true -> Js.toUpperCase v = v.
Proof.
  induction v as [|ch v IH]; [reflexivity|]. cbn [Js.allChars Js.toUpperCase].
  intros [Hc Hv]%andb_prop. destruct (vinChar_plain ch Hc) as [_ ->].
  now rewrite IH.
Qed.

Lemma trimEnd_vin (v : string) :
  Js.allChars Validator.vinChar v = true -> Js.trimEnd v = v.
Proof.
  induction v as [|ch v IH]; [reflexivity|]. cbn [Js.allChars Js.trimEnd].
  intros [Hc Hv]%andb_prop. rewrite (IH Hv).
  destruct (vinChar_plain ch Hc) as [-> _]. now destruct v.
Qed.

Lemma trim_vin (v : string) :
  Js.allChars Validator.vinChar v = true -> Js.trim v = v.
Proof.
  intros Hv. unfold Js.trim.
  assert (Js.trimStart v = v) as ->; [|now apply trimEnd_vin].
  destruct v as [|ch v]; [reflexivity|]. cbn in *.
  apply andb_prop in Hv as [Hc _]. now destruct (vinChar_plain ch Hc) as [-> _].
Qed.

(** A supplied VIN passes its chain exactly when it has 17 characters, all
    of them in the class of the pattern. *)
Lemma validateVin_iff (v : string) :
  Validator.validateVin (Some v) = []
  <-> String.length v = 17%nat /\ Js.allChars Validator.vinChar v = true.
Proof.
  unfold Validator.validateVin. rewrite app_nil, !check_nil.
  unfold Validator.isLength, Validator.matchesVin.
  rewrite !andb_true_iff, Nat.eqb_eq, !Nat.leb_le. split.
  - intros ([H1 H2] & H3 & H4). now split.
  - intros [H1 H2]. rewrite H1. repeat split; trivial.
Qed.

Lemma validateEvaluation_vin (currentYear : Z) (body : ICarDetails) :
  Validator.validateEvaluation currentYear body = [] ->
  Validator.validateVin (vin body) = [].
Proof.
  unfold Validator.validateEvaluation. rewrite !app_nil. tauto.
Qed.

(** C7 (counterexample). The VIN of the specification's example has 16
    characters, not 17: the chain rejects it and creation answers 400
    without storing anything. *)
Lemma spec_vin_rejected :
  String.length "1HGCM82633A12345" = 16%nat
  /\ Validator.validateVin (Some "1HGCM82633A12345") <> []
  /\ statusCode (fst (createEvaluation 2025 100 "minted" 1%N guestS1
                        (withVin "1HGCM82633A12345") ∅)) = 400
  /\ snd (createEvaluation 2025 100 "minted" 1%N guestS1
            (withVin "1HGCM82633A12345") ∅) = ∅.
Proof. repeat split; vm_compute; congruence. Qed.

(** C7 (amended). A supplied VIN passes validation iff it has exactly 17
    characters, all of them digits or capital letters other than I, O and
    Q; creation with a 16-character VIN is answered 400 and stores nothing;
    an accepted VIN is stored upper-cased (it is in upper case already);
    the 17-character VIN 1HGCM82633A123456 is accepted. *)
Theorem vin_at_creation (currentYear : Z) (now : Time) (generated : string)
    (newId : ObjectId) (req : IAuthRequest) (body : ICarDetails) (v : string)
    (c : Collection) :
  vin body = Some v ->
  (Validator.validateVin (Some v) = []
   <-> String.length v = 17%nat /\ Js.allChars Validator.vinChar v = true)
  /\ (String.length v = 16%nat ->
      createEvaluation currentYear now generated newId req body c
      = (json 400 false "Validation failed"
           (ErrorArray (Validator.validateEvaluation currentYear body)), c))
  /\ (success (fst (createEvaluation currentYear now generated newId req body c)) = true ->
      vin <$> (carDetails <$>
                 snd (createEvaluation currentYear now generated newId req body c) !! newId)
      = Some (Some (Js.toUpperCase v))
      /\ Js.toUpperCase v = v)
  /\ Validator.validateVin (Some "1HGCM82633A123456") = [].
Proof.
  intros Hv. split; [apply validateVin_iff|]. split; [|split; [|reflexivity]].
  - intros Hlen. unfold createEvaluation.
    destruct (Validator.validateEvaluation currentYear body) eqn:He; [|reflexivity].
    apply validateEvaluation_vin in He. rewrite Hv in He.
    apply validateVin_iff in He as [He _]. congruence.
  - intros Hs.
    destruct (createEvaluation currentYear now generated newId req body c)
      as [r c'] eqn:Hc. cbn [fst snd] in *.
    destruct (createEvaluation_created _ _ _ _ _ _ _ _ _ Hc Hs)
      as (d & -> & _ & He & _ & _ & _ & _ & _ & _ & _ & _ & _ & Hvin).
    apply validateEvaluation_vin in He. rewrite Hv in He, Hvin.
    apply validateVin_iff in He as [_ Hchars].
    rewrite lookup_insert_eq. cbn. rewrite Hvin. cbn.
    rewrite (toUpperCase_vin v Hchars), (trim_vin v Hchars), (toUpperCase_vin v Hchars).
    now split.
Qed.

Lemma vin_at_creation_witness :
  vin <$> (carDetails <$>
             snd (createEvaluation 2025 100 "minted" 1%N guestS1
                    (withVin "1HGCM82633A123456") ∅) !! 1%N)
  = Some (Some (Js.toUpperCase "1HGCM82633A123456"))
  /\ Js.toUpperCase "1HGCM82633A123456" = "1HGCM82633A123456".
Proof.
  apply (proj1 (proj2 (proj2
           (vin_at_creation 2025 100 "minted" 1%N guestS1
              (withVin "1HGCM82633A123456") "1HGCM82633A123456" ∅ eq_refl)))).
  reflexivity.
Defined.

(** ** Progress under the operations *)

Lemma calculateProgress_saved (now : Time) (assigned : bool)
    (loaded doc : ICarEvaluation) :
  calculateProgress (saved now assigned loaded doc) = calculateProgress doc.
Proof. unfold saved. now destruct (_ && _). Qed.

Lemma progress_saved_recalculate (now : Time) (assigned : bool)
    (loaded doc : ICarEvaluation) :
  progress (saved now assigned loaded (recalculate doc)) = calculateProgress doc.
Proof. unfold saved. now destruct (_ && _). Qed.

(** What [updateEvaluation] does with a body that passes the update
    validators, on a record its query finds: the record is written with
    the body's values, and [save] then validates the document. *)
Lemma updateEvaluation_found (currentYear : Z) (now : Time) (_id : ObjectId)
    (req : IAuthRequest) (body : Updates) (c : Collection) (d : ICarEvaluation) :
  Model.findOne _id (queryOf req) c = Some d ->
  Model.validateUpdate currentYear (removeSensitive body) = [] ->
  let d1 := set_updatedAt now (Model.applySet (removeSensitive body) d) in
  let s := saved now false d1 (recalculate d1) in
  updateEvaluation currentYear now _id req body c
  = match Schema.validateDocument currentYear (recalculate d1) with
    | [] => (json 200 true "Evaluation updated successfully" (DocumentData _id s),
             <[_id := s]> c)
    | errs => (errorHandler (ValidationError errs), <[_id := d1]> c)
    end.
Proof.
  intros Hf Hv. unfold updateEvaluation, Model.findOneAndUpdate. rewrite Hv, Hf.
  rewrite (save_cases _ _ currentYear now _ _ _ (lookup_insert_eq _ _ _)).
  destruct (Schema.validateDocument _ _); [|reflexivity].
  now rewrite insert_insert_eq.
Qed.

(** The values of a valid body on a valid record make a valid document. *)
Lemma valid_applySet (currentYear : Z) (now : Time) (body : Updates)
    (d : ICarEvaluation) :
  valid currentYear d ->
  Model.validateUpdate currentYear body = [] ->
  Schema.validateMarketAnalysis (updates_marketAnalysis body) = [] ->
  Schema.validateDocument currentYear
    (recalculate (set_updatedAt now (Model.applySet body d))) = [].
Proof.
  intros (Hc & Hp & Hm)%valid_content Hv Hma.
  unfold Model.validateUpdate in Hv. rewrite !app_nil in Hv.
  destruct Hv as (Hvc & Hvp & _).
  rewrite validateDocument_recalculate.
  cbn [carDetails photos marketAnalysis set_updatedAt Model.applySet].
  destruct (updates_carDetails body) as [cd|], (updates_photos body) as [ph|],
    (updates_marketAnalysis body) as [ma|];
    cbn [fmap option_fmap option_map default from_option id];
    rewrite ?Hvc, ?Hvp, ?Hc, ?Hp, ?Hm; cbn [app]; try reflexivity; exact Hma.
Qed.

(** An update never touches the identity of a record: owner, session id
    and creation time survive whatever the body says. *)
Lemma updateEvaluation_keeps_identity (currentYear : Z) (now : Time)
    (_id : ObjectId) (req : IAuthRequest) (body : Updates) (c : Collection)
    (d : ICarEvaluation) :
  Model.findOne _id (queryOf req) c = Some d ->
  Model.validateUpdate currentYear (removeSensitive body) = [] ->
  exists d',
    snd (updateEvaluation currentYear now _id req body c) !! _id = Some d'
    /\ userId d' = userId d /\ sessionId d' = sessionId d
    /\ createdAt d' = createdAt d.
Proof.
  intros Hf Hv. rewrite (updateEvaluation_found _ now _ _ _ _ _ Hf Hv).
  destruct (Schema.validateDocument _ _); cbn [snd];
    rewrite lookup_insert_eq; (eexists; split; [reflexivity|]).
  - unfold saved. destruct (_ && _); repeat split.
  - repeat split.
Qed.

(** After [analyzeMarket] the stored progress is the recomputed one and is
    not below the value recomputed from the record before. *)
Lemma analyzeMarket_progress (currentYear : Z) (now : Time) (draws : MarketDraws)
    (_id : ObjectId) (req : IAuthRequest) (c : Collection) (d : ICarEvaluation) :
  Model.findOne _id (queryOf req) c = Some d ->
  success (fst (analyzeMarket currentYear now draws _id req c)) = true ->
  exists d',
    snd (analyzeMarket currentYear now draws _id req c) !! _id = Some d'
    /\ progress d' = calculateProgress d'
    /\ calculateProgress d <= progress d'.
Proof.
  intros Hf. rewrite (analyzeMarket_found currentYear now draws _ _ _ _ Hf).
  destruct (Schema.validateDocument _ _); [intros _ | discriminate]. cbn [snd].
  rewrite lookup_insert_eq. eexists. split; [reflexivity|].
  split; [apply saved_progress_current|].
  rewrite progress_saved_recalculate.
  apply calculateProgress_mono; trivial.
  intros _. unfold dealScoreSet. cbn. apply dealScoreOf_truthy.
Qed.

(** The same for [updateInspection], whatever the inspection type. *)
Lemma updateInspection_progress (currentYear : Z) (now : Time) (_id : ObjectId)
    (req : IAuthRequest) (inspectionType : string) (results : InspectionResults)
    (c : Collection) (d : ICarEvaluation) :
  Model.findOne _id (queryOf req) c = Some d -> valid currentYear d ->
  exists d',
    snd (updateInspection currentYear now _id req inspectionType results c) !! _id
    = Some d'
    /\ progress d' = calculateProgress d'
    /\ calculateProgress d <= progress d'.
Proof.
  intros Hf Hv.
  rewrite (updateInspection_valid currentYear now _ _ inspectionType results _ _ Hf Hv).
  cbn [snd]. rewrite lookup_insert_eq. eexists. split; [reflexivity|].
  split; [apply saved_progress_current|].
  rewrite progress_saved_recalculate.
  apply calculateProgress_mono; unfold inspected; split_checks; cbn; trivial.
Qed.

(** The same for [generateRecommendations] on a record without a counted
    offer. *)
Lemma generateRecommendations_progress (currentYear : Z) (now : Time)
    (draws : nat -> Z * bool) (_id : ObjectId) (req : IAuthRequest) (c : Collection)
    (d : ICarEvaluation) :
  Model.findOne _id (queryOf req) c = Some d -> valid currentYear d ->
  suggestedOfferSet d = false ->
  exists d',
    snd (generateRecommendations currentYear now draws _id req c) !! _id = Some d'
    /\ progress d' = calculateProgress d'
    /\ calculateProgress d <= progress d'.
Proof.
  intros Hf Hv Hs.
  rewrite (generateRecommendations_valid currentYear now draws _ _ _ _ Hf Hv).
  cbn [snd]. rewrite lookup_insert_eq. eexists. split; [reflexivity|].
  split; [apply saved_progress_current|].
  rewrite progress_saved_recalculate.
  apply calculateProgress_mono; trivial. congruence.
Qed.

(** The same for an update that appends one valid photo. *)
Lemma append_photo_progress (currentYear : Z) (now : Time) (_id : ObjectId)
    (req : IAuthRequest) (p : Photo) (c : Collection) (d : ICarEvaluation) :
  Model.findOne _id (queryOf req) c = Some d -> valid currentYear d ->
  Schema.validatePhoto p = [] ->
  let body :=
    {| updates__id := None; updates_userId := None; updates_createdAt := None;
       updates_updatedAt := None; updates_sessionId := None;
       updates_carDetails := None; updates_photos := Some (photos d ++ [p]);
       updates_carfax := None; updates_marketAnalysis := None;
       updates_inspection := None; updates_recommendations := None;
       updates_status := None; updates_progress := None |} in
  exists d',
    snd (updateEvaluation currentYear now _id req body c) !! _id = Some d'
    /\ progress d' = calculateProgress d'
    /\ calculateProgress d <= progress d'.
Proof.
  intros Hf Hv Hp body.
  assert (Model.validateUpdate currentYear (removeSensitive body) = []) as Hb.
  { destruct (valid_content _ _ Hv) as (_ & Hph & _).
    unfold Schema.validatePhotos in Hph.
    unfold Model.validateUpdate, Schema.validatePhotos. cbn.
    rewrite app_nil_r, map_app, concat_app. cbn. now rewrite Hp, Hph. }
  rewrite (updateEvaluation_found currentYear now _ _ body _ _ Hf Hb).
  rewrite (valid_applySet currentYear now _ d Hv Hb eq_refl).
  cbn [snd]. rewrite lookup_insert_eq. eexists. split; [reflexivity|].
  split; [apply saved_progress_current|].
  rewrite progress_saved_recalculate.
  apply calculateProgress_mono; trivial.
  intros _. unfold Spec.hasPhoto. cbn. now destruct (photos d).
Qed.

(** ** Request validation implies the schema's validation *)

Lemma trimStart_fixed (t : string) :
  match t with String ch _ => Js.isSpace ch = false | EmptyString => True end ->
  Js.trimStart t = t.
Proof. destruct t as [|ch r]; cbn; [trivial|]. now intros ->. Qed.

Lemma trimStart_head (s : string) :
  match Js.trimStart s with
  | String ch _ => Js.isSpace ch = false
  | EmptyString => True
  end.
Proof.
  induction s as [|ch r IH]; cbn; [trivial|].
  destruct (Js.isSpace ch) eqn:Hc; [exact IH | exact Hc].
Qed.

Lemma trimEnd_head (t : string) :
  match t with String ch _ => Js.isSpace ch = false | EmptyString => True end ->
  match Js.trimEnd t with
  | String ch _ => Js.isSpace ch = false
  | EmptyString => True
  end.
Proof.
  destruct t as [|ch r]; cbn; [trivial|]. intros Hc.
  destruct (Js.trimEnd r); [now rewrite Hc | exact Hc].
Qed.

Lemma trimEnd_idem (t : string) : Js.trimEnd (Js.trimEnd t) = Js.trimEnd t.
Proof.
  induction t as [|ch r IH]; [reflexivity|]. cbn [Js.trimEnd].
  destruct (Js.trimEnd r) as [|ch' r'] eqn:Hr.
  - destruct (Js.isSpace ch) eqn:Hc; [reflexivity|]. cbn. now rewrite Hc.
  - change (Js.trimEnd (String ch (String ch' r')))
      with (match Js.trimEnd (String ch' r') with
            | EmptyString =>
                if Js.isSpace ch then EmptyString else String ch EmptyString
            | r'' => String ch r''
            end).
    now rewrite IH.
Qed.

Lemma trim_idem (s : string) : Js.trim (Js.trim s) = Js.trim s.
Proof.
  unfold Js.trim.
  rewrite (trimStart_fixed (Js.trimEnd (Js.trimStart s))).
  - apply trimEnd_idem.
  - apply trimEnd_head, trimStart_head.
Qed.

Lemma isLength_nonempty (max : nat) (s : string) :
  Validator.isLength 1 max s = true ->
  Js.truthyStr s = true /\ (String.length s <=? max)%nat = true.
Proof.
  unfold Validator.isLength. intros [H1 H2]%andb_prop. split; [|exact H2].
  now destruct s.
Qed.

(** A body that passes [validateEvaluation] passes the document validation
    of [create]: with a fresh [_id] the creation succeeds. *)
Lemma createEvaluation_accepts (currentYear : Z) (now : Time) (generated : string)
    (newId : ObjectId) (req : IAuthRequest) (body : ICarDetails) (c : Collection) :
  Validator.validateEvaluation currentYear body = [] ->
  c !! newId = None ->
  let out := createEvaluation currentYear now generated newId req body c in
  statusCode (fst out) = 201 /\ success (fst out) = true
  /\ exists d, snd out = <[newId := d]> c.
Proof.
  intros Hv Hc. unfold createEvaluation. rewrite Hv. unfold Model.create. rewrite Hc.
  unfold Validator.validateEvaluation in Hv. rewrite !app_nil, !check_nil in Hv.
  destruct Hv as (Hy & Hmk & Hmd & Hmi & Hp & Hvin & Hdesc).
  apply andb_prop in Hy as [Hy1 Hy2]. apply andb_prop in Hmi as [Hmi _].
  apply andb_prop in Hp as [Hp _].
  apply isLength_nonempty in Hmk as [Hmk1 Hmk2].
  apply isLength_nonempty in Hmd as [Hmd1 Hmd2].
  match goal with
  | |- context [Schema.validateDocument ?y ?doc] =>
      assert (Schema.validateDocument y doc = []) as ->
  end.
  { unfold Schema.validateDocument, Schema.validateCarDetails, Schema.validateProgress,
      Schema.validatePhotos, Schema.validateMarketAnalysis, Schema.cast.
    cbn [year make model mileage price vin description Validator.sanitize progress
         carDetails photos marketAnalysis map concat].
    rewrite !trim_idem, Hy1, Hy2, Hmk1, Hmk2, Hmd1, Hmd2, Hmi, Hp. cbn [Validator.check app].
    change (Validator.check (0 <=? 20) _ ++ Validator.check (20 <=? 100) _)
      with (@nil string).
    rewrite app_nil_r. apply app_nil. split.
    - destruct (vin body) as [v|]; [|reflexivity]. cbn.
      apply validateVin_iff in Hvin as [Hlen Hchars].
      rewrite (toUpperCase_vin v Hchars), (trim_vin v Hchars), (toUpperCase_vin v Hchars).
      rewrite Hlen. cbn. now rewrite orb_true_r.
    - destruct (description body) as [ds|]; [|reflexivity].
      apply check_nil in Hdesc. apply andb_prop in Hdesc as [_ Hdesc].
      cbn. now rewrite Hdesc. }
  cbn [fst snd]. repeat split. eexists. reflexivity.
Qed.

(** ** Records with only their car details filled in *)

(** Such a record recomputes to 20 when its details pass the request
    validators and neither [mileage] nor [price] is [0] ... *)
Lemma calculateProgress_only_details (currentYear : Z) (e : ICarEvaluation) :
  onlyDetailsFilled e ->
  Validator.validateEvaluation currentYear (carDetails e) = [] ->
  Js.trim (make (carDetails e)) = make (carDetails e) ->
  Js.trim (model (carDetails e)) = model (carDetails e) ->
  mileage (carDetails e) <> 0 -> price (carDetails e) <> 0 ->
  calculateProgress e = 20.
Proof.
  intros (Hph & Hma & Hre & Hg & Hm & Hp) Hv Hmk Hmd Hmi Hpr.
  unfold Validator.validateEvaluation in Hv. rewrite !app_nil, !check_nil in Hv.
  destruct Hv as (Hy & Hmk' & Hmd' & _).
  rewrite Hmk in Hmk'. rewrite Hmd in Hmd'.
  apply isLength_nonempty in Hmk' as [Hmk' _].
  apply isLength_nonempty in Hmd' as [Hmd' _].
  apply andb_prop in Hy as [Hy _]. apply Z.leb_le in Hy.
  rewrite calculateProgress_sum.
  unfold basicDetailsFilled, Spec.hasPhoto, dealScoreSet, suggestedOfferSet.
  rewrite Hph, Hma, Hre, Hg, Hm, Hp, Hmk', Hmd'.
  rewrite !truthyNum_true by lia. reflexivity.
Qed.

(** ... and to 0 when one of the two is [0]. *)
Lemma calculateProgress_zero_details (e : ICarEvaluation) :
  onlyDetailsFilled e ->
  mileage (carDetails e) = 0 \/ price (carDetails e) = 0 ->
  calculateProgress e = 0.
Proof.
  intros (Hph & Hma & Hre & Hg & Hm & Hp) Hz.
  rewrite calculateProgress_sum.
  unfold basicDetailsFilled, Spec.hasPhoto, dealScoreSet, suggestedOfferSet.
  rewrite Hph, Hma, Hre, Hg, Hm, Hp.
  destruct Hz as [-> | ->]; cbn; now rewrite ?andb_false_r.
Qed.

(** The scenario of the specification, run by an authenticated user: the
    used car is created as a draft at 20, analysed to 45, and its mechanical
    inspection brings it to 55. *)
Example workflow_of_the_used_car :
  let c1 := snd (createEvaluation 2025 100 "minted" 1%N alice civic ∅) in
  let c2 := snd (analyzeMarket 2025 120 someDraws 1%N alice c1) in
  let c3 := snd (updateInspection 2025 140 1%N alice "mechanical" noResults c2) in
  (fun d => (status d, progress d)) <$> c1 !! 1%N = Some (Draft, 20)
  /\ (fun d => (status d, progress d)) <$> c2 !! 1%N = Some (Analyzing, 45)
  /\ (fun d => (status d, progress d)) <$> c3 !! 1%N = Some (InProgress, 55).
Proof. repeat split; vm_compute; reflexivity. Qed.

(** * Further properties *)

(** ** The rate limiter *)

Section RateLimiterProperties.

Import RateLimiter.

Lemma rateLimiter_other (now : Z) (req : Request) (ipMap : IpMap) (ip : string) :
  ip <> clientIp req -> snd (rateLimiter now req ipMap) !! ip = ipMap !! ip.
Proof.
  intros Hne. unfold rateLimiter.
  destruct (ipMap !! clientIp req) as [d|]; cbn;
    [destruct (resetTime d <? now); [|destruct (maxRequests <=? count d)]|];
    cbn; rewrite ?lookup_insert_ne by congruence; reflexivity.
Qed.

(** X1. The limiter touches no entry but the caller's, and a request it
    rejects leaves the whole map as it was (rejected requests are not
    counted). *)
Theorem rateLimiter_frame (now : Z) (req : Request) (ipMap : IpMap) :
  (forall ip, ip <> clientIp req ->
     snd (rateLimiter now req ipMap) !! ip = ipMap !! ip)
  /\ (forall r, fst (rateLimiter now req ipMap) = TooManyRequests r ->
        snd (rateLimiter now req ipMap) = ipMap).
Proof.
  split; [intros ip; apply rateLimiter_other|].
  intros r. unfold rateLimiter.
  destruct (ipMap !! clientIp req) as [d|]; cbn; [|discriminate].
  destruct (resetTime d <? now); [discriminate|].
  destruct (maxRequests <=? count d); [reflexivity | discriminate].
Qed.

(** X2. Counts stay between 1 and 100: the limiter and the periodic
    clean-up both keep every entry well counted. *)
Theorem rateLimiter_wellCounted (now : Z) (req : Request) (ipMap : IpMap) :
  wellCounted ipMap ->
  wellCounted (snd (rateLimiter now req ipMap))
  /\ wellCounted (cleanUp now ipMap).
Proof.
  intros Hw. split.
  - intros ip d. destruct (decide (ip = clientIp req)) as [->|Hne].
    2: { rewrite rateLimiter_other by exact Hne. apply Hw. }
    unfold rateLimiter. destruct (ipMap !! clientIp req) as [d0|] eqn:Hd; cbn.
    + destruct (resetTime d0 <? now); cbn.
      { rewrite lookup_insert_eq. intros [= <-]. cbn. unfold maxRequests. lia. }
      destruct (Z.leb_spec maxRequests (count d0)) as [Hge|Hlt]; cbn.
      { rewrite Hd. intros [= <-]. now apply (Hw _ _ Hd). }
      rewrite lookup_insert_eq. intros [= <-]. cbn.
      specialize (Hw _ _ Hd). lia.
    + rewrite lookup_insert_eq. intros [= <-]. cbn. unfold maxRequests. lia.
  - intros ip d Hl. unfold cleanUp in Hl.
    apply map_lookup_filter_Some in Hl as [Hl _]. now apply (Hw _ _ Hl).
Qed.

Lemma rateLimiter_wellCounted_witness :
  let ipMap : IpMap :=
    {[ "10.0.0.1" := {| count := 99; resetTime := 5000 |};
       "10.0.0.2" := {| count := 100; resetTime := 5000 |} ]} in
  let req := {| req_ip := Some "10.0.0.1"; remoteAddress := None |} in
  (wellCounted (snd (rateLimiter 10 req ipMap)) /\ wellCounted (cleanUp 10 ipMap))
  /\ snd (rateLimiter 10 req ipMap) !! "10.0.0.1"
     = Some {| count := 100; resetTime := 5000 |}
  /\ snd (rateLimiter 10 req ipMap) !! "10.0.0.2"
     = Some {| count := 100; resetTime := 5000 |}.
Proof.
  intros ipMap req. split; [|split; reflexivity].
  apply (rateLimiter_wellCounted 10 req ipMap).
  intros ip d Hl. unfold ipMap in Hl.
  apply lookup_insert_Some in Hl as [[_ <-]|[_ Hl]]; [cbn; unfold maxRequests; lia|].
  apply lookup_singleton_Some in Hl as [_ <-]. cbn. unfold maxRequests. lia.
Defined.

(** Inside a window the position of a request decides its fate. *)
Lemma serve_open_window (times : list Z) (req : Request) (ipMap : IpMap) (d : IpData) :
  ipMap !! clientIp req = Some d ->
  Forall (fun t => t <= resetTime d) times ->
  forall (i : nat) (o : Outcome),
    fst (serve times req ipMap) !! i = Some o ->
    (o = Next <-> Z.of_nat i < maxRequests - count d).
Proof.
  revert ipMap d. induction times as [|now rest IH]; intros ipMap d Hd Ht i o.
  { cbn. rewrite lookup_nil. discriminate. }
  apply Forall_cons in Ht as [Hnow Hrest].
  cbn [serve]. unfold rateLimiter at 1. rewrite Hd.
  destruct (Z.ltb_spec (resetTime d) now) as [Hexp|_]; [lia|].
  destruct (Z.leb_spec maxRequests (count d)) as [Hfull|Hroom].
  - destruct (serve rest req ipMap) as [os m'] eqn:Hs. cbn [fst].
    destruct i as [|i]; cbn.
    + intros [= <-]. split; [discriminate | lia].
    + intros Ho. specialize (IH ipMap d Hd Hrest i o). rewrite Hs in IH.
      specialize (IH Ho). split.
      * intros Hn. apply IH in Hn. lia.
      * intros Hi. lia.
  - set (d' := {| count := count d + 1; resetTime := resetTime d |}).
    destruct (serve rest req (<[clientIp req := d']> ipMap)) as [os m'] eqn:Hs.
    cbn [fst]. destruct i as [|i]; cbn.
    + intros [= <-]. split; [lia | reflexivity].
    + intros Ho.
      specialize (IH (<[clientIp req := d']> ipMap) d' (lookup_insert_eq _ _ _) Hrest i o).
      rewrite Hs in IH. specialize (IH Ho). cbn in IH. rewrite IH. lia.
Qed.

(** X3. Of the requests a client sends within one window, exactly the
    first 100 are let through: after the request that opens the window at
    [start], the [i]-th request (counting from 0, the opening one included)
    passes iff [i < 100], as long as none comes after [start + 900000]. *)
Theorem first_hundred_pass (start : Z) (times : list Z) (req : Request)
    (ipMap : IpMap) :
  ipMap !! clientIp req = None ->
  Forall (fun t => t <= start + windowMs) times ->
  forall (i : nat) (o : Outcome),
    fst (serve (start :: times) req ipMap) !! i = Some o ->
    (o = Next <-> (i < 100)%nat).
Proof.
  intros Hnew Ht i o. cbn [serve]. unfold rateLimiter at 1. rewrite Hnew.
  set (d := {| count := 1; resetTime := start + windowMs |}).
  destruct (serve times req (<[clientIp req := d]> ipMap)) as [os m'] eqn:Hs.
  cbn [fst]. destruct i as [|i]; cbn.
  - intros [= <-]. split; [lia | reflexivity].
  - intros Ho.
    pose proof (serve_open_window times req (<[clientIp req := d]> ipMap) d
                  (lookup_insert_eq _ _ _) Ht i o) as H.
    rewrite Hs in H. specialize (H Ho). cbn in H. rewrite H. unfold maxRequests. lia.
Qed.

Lemma first_hundred_pass_witness : Next = Next <-> (1 < 100)%nat.
Proof.
  refine (first_hundred_pass 0 [10; 20] {| req_ip := None; remoteAddress := None |} ∅
            _ _ 1%nat Next _).
  - apply lookup_empty.
  - repeat constructor; unfold windowMs; lia.
  - reflexivity.
Defined.

Lemma ceiling_thousandth (a : Z) :
  a <= 1000 * Qceiling (inject_Z a / 1000) /\ (0 <= a -> 0 <= Qceiling (inject_Z a / 1000)).
Proof.
  pose proof (Qle_ceiling (inject_Z a / 1000)) as Hc.
  set (r := Qceiling (inject_Z a / 1000)) in *.
  unfold Qle in Hc. cbn in Hc. lia.
Qed.

(** X4. A rejection announces a delay that is enough: [retryAfter] is not
    negative, and a request of the same client made more than [retryAfter]
    seconds later is let through. *)
Theorem retryAfter_suffices (now later : Z) (req : Request) (ipMap : IpMap) (r : Z) :
  fst (rateLimiter now req ipMap) = TooManyRequests r ->
  now + 1000 * r < later ->
  0 <= r
  /\ fst (rateLimiter later req (snd (rateLimiter now req ipMap))) = Next.
Proof.
  unfold rateLimiter at 1 3.
  destruct (ipMap !! clientIp req) as [d|] eqn:Hd; cbn; [|discriminate].
  destruct (Z.ltb_spec (resetTime d) now) as [|Hin]; [discriminate|].
  destruct (maxRequests <=? count d); [|discriminate].
  cbn. intros [= <-] Hlater.
  destruct (ceiling_thousandth (resetTime d - now)) as [Hc Hp].
  split; [apply Hp; lia|].
  unfold rateLimiter. rewrite Hd.
  destruct (Z.ltb_spec (resetTime d) later); [reflexivity | lia].
Qed.

(** X5. The periodic clean-up is invisible to clients: a request made
    after a clean-up gets the answer, and leaves the entry, it would have
    got and left without the clean-up. *)
Theorem cleanUp_transparent (swept now : Z) (req : Request) (ipMap : IpMap) :
  swept <= now ->
  fst (rateLimiter now req (cleanUp swept ipMap)) = fst (rateLimiter now req ipMap)
  /\ snd (rateLimiter now req (cleanUp swept ipMap)) !! clientIp req
     = snd (rateLimiter now req ipMap) !! clientIp req.
Proof.
  intros Hle. unfold rateLimiter.
  destruct (ipMap !! clientIp req) as [d|] eqn:Hd.
  - destruct (decide (resetTime d < swept)) as [Hold|Hkeep].
    + assert (cleanUp swept ipMap !! clientIp req = None) as ->.
      { apply map_lookup_filter_None. right. intros d' Hd'. cbn.
        rewrite Hd in Hd'. injection Hd' as <-. tauto. }
      destruct (Z.ltb_spec (resetTime d) now); [|lia].
      cbn. now rewrite !lookup_insert_eq.
    + assert (cleanUp swept ipMap !! clientIp req = Some d) as ->.
      { apply map_lookup_filter_Some. now split. }
      destruct (resetTime d <? now); cbn; [now rewrite !lookup_insert_eq|].
      destruct (maxRequests <=? count d); cbn.
      * split; [reflexivity|]. rewrite Hd. apply map_lookup_filter_Some. now split.
      * now rewrite !lookup_insert_eq.
  - assert (cleanUp swept ipMap !! clientIp req = None) as ->.
    { apply map_lookup_filter_None. now left. }
    cbn. now rewrite !lookup_insert_eq.
Qed.

Lemma cleanUp_transparent_witness :
  let req := {| req_ip := Some "10.0.0.1"; remoteAddress := None |} in
  let m : IpMap := {[ "10.0.0.1" := {| count := 100; resetTime := 50 |} ]} in
  fst (rateLimiter 70 req (cleanUp 60 m)) = fst (rateLimiter 70 req m)
  /\ snd (rateLimiter 70 req (cleanUp 60 m)) !! clientIp req
     = snd (rateLimiter 70 req m) !! clientIp req.
Proof.
  apply (cleanUp_transparent 60 70). lia.
Defined.

Lemma rateLimiter_frame_witness :
  let req := {| req_ip := Some "10.0.0.1"; remoteAddress := None |} in
  let m : IpMap := {[ "10.0.0.2" := {| count := 3; resetTime := 90 |} ]} in
  snd (rateLimiter 70 req m) !! "10.0.0.2" = m !! "10.0.0.2".
Proof.
  apply (proj1 (rateLimiter_frame 70 {| req_ip := Some "10.0.0.1"; remoteAddress := None |}
                  {[ "10.0.0.2" := {| count := 3; resetTime := 90 |} ]})).
  discriminate.
Defined.

Lemma retryAfter_suffices_witness :
  let req := {| req_ip := Some "10.0.0.1"; remoteAddress := None |} in
  let m : IpMap := {[ "10.0.0.1" := {| count := 100; resetTime := 5000 |} ]} in
  0 <= 4 /\ fst (rateLimiter 5001 req (snd (rateLimiter 1000 req m))) = Next.
Proof.
  apply (retryAfter_suffices 1000 5001
           {| req_ip := Some "10.0.0.1"; remoteAddress := None |}
           {[ "10.0.0.1" := {| count := 100; resetTime := 5000 |} ]} 4);
    [reflexivity | lia].
Defined.

End RateLimiterProperties.

(** ** Authentication *)

Section AuthProperties.

Import Auth.

Context (verify : string -> option IAuthPayload) (findById : string -> Lookup).

(** X6. [protect] lets a request through exactly when [optionalAuth]
    attaches a user to it, and with the same user; otherwise [protect]
    answers 401 where [optionalAuth] goes on without a user. *)
Theorem protect_iff_optionalAuth (authorization : option string) :
  match optionalAuth verify findById authorization with
  | Some u => protect verify findById authorization = Continue (Some u)
  | None => exists msg, protect verify findById authorization = Respond 401 msg
  end.
Proof.
  unfold optionalAuth, protect.
  destruct (bearerToken authorization) as [token|]; [|eauto].
  destruct (Js.truthyStr token); [|eauto].
  destruct (verify token) as [decoded|]; [|eauto].
  destruct (findById (userId decoded)); eauto.
Qed.

(** X7. Whatever the [Authorization] header, an evaluation route hands its
    controller either the user id of a verified token whose user exists, or
    no user at all; the session header is passed on untouched.  A request
    that [protect] would answer 401 is served as a guest's. *)
Theorem evaluationRequest_user (authorization session : option string) :
  x_session_id (evaluationRequest verify findById authorization session) = session
  /\ match user (evaluationRequest verify findById authorization session) with
     | Some u =>
         exists token decoded,
           bearerToken authorization = Some token /\ verify token = Some decoded
           /\ findById (userId decoded) = Found /\ u = userId decoded
     | None => exists msg, protect verify findById authorization = Respond 401 msg
     end.
Proof.
  split; [reflexivity|]. unfold evaluationRequest, optionalAuth, protect. cbn.
  destruct (bearerToken authorization) as [token|]; cbn; [|eauto].
  destruct (Js.truthyStr token); cbn; [|eauto].
  destruct (verify token) as [decoded|] eqn:Hv; cbn; [|eauto].
  destruct (findById (userId decoded)) eqn:Hf; cbn; eauto 10.
Qed.

End AuthProperties.

Lemma split_no_separator (sep : ascii) (s : string) :
  Js.allChars (fun ch => negb (Ascii.eqb ch sep)) s = true ->
  Auth.split sep s = [s].
Proof.
  induction s as [|ch r IH]; [reflexivity|]. cbn.
  intros [Hc Hr]%andb_prop. apply negb_true_iff in Hc. rewrite Hc, (IH Hr).
  reflexivity.
Qed.

Lemma bearerToken_round_trip (token : string) :
  Js.allChars (fun ch => negb (Ascii.eqb ch " ")) token = true ->
  Auth.bearerToken (Some ("Bearer " +:+ token)) = Some token.
Proof.
  intros Hs. unfold Auth.bearerToken.
  change (Js.truthyStr ("Bearer " +:+ token)) with true.
  change (String.prefix "Bearer" ("Bearer " +:+ token)) with (String.prefix "" (" " +:+ token)).
  cbn [String.prefix andb].
  change ("Bearer " +:+ token) with (String "B" (String "e" (String "a" (String "r"
    (String "e" (String "r" (String " " token))))))).
  cbn. now rewrite (split_no_separator _ _ Hs).
Qed.

(** X8. A header [Bearer <token>] whose token is not empty, has no space
    in it, verifies, and names an existing user is let through by [protect]
    with the decoded user id, e-mail and role; [optionalAuth] attaches the
    same user. *)
Theorem protect_accepts_bearer (verify : string -> option Auth.IAuthPayload)
    (findById : string -> Auth.Lookup) (token : string) (decoded : Auth.IAuthPayload) :
  token <> EmptyString ->
  Js.allChars (fun ch => negb (Ascii.eqb ch " ")) token = true ->
  verify token = Some decoded ->
  findById (Auth.userId decoded) = Auth.Found ->
  Auth.protect verify findById (Some ("Bearer " +:+ token))
  = Auth.Continue (Some decoded)
  /\ Auth.optionalAuth verify findById (Some ("Bearer " +:+ token)) = Some decoded.
Proof.
  intros Hne Hs Hv Hf. unfold Auth.protect, Auth.optionalAuth.
  rewrite (bearerToken_round_trip token Hs), (truthyStr_true token Hne), Hv, Hf.
  now destruct decoded.
Qed.

Lemma protect_accepts_bearer_witness :
  let p := {| Auth.userId := "alice"; Auth.email := "a@example.org"; Auth.role := "user" |} in
  let verify := fun t : string => if String.eqb t "abc.def.ghi" then Some p else None in
  let findById := fun _ : string => Auth.Found in
  Auth.protect verify findById (Some ("Bearer " +:+ "abc.def.ghi")) = Auth.Continue (Some p)
  /\ Auth.optionalAuth verify findById (Some ("Bearer " +:+ "abc.def.ghi")) = Some p.
Proof.
  apply (protect_accepts_bearer
           (fun t : string =>
              if String.eqb t "abc.def.ghi"
              then Some {| Auth.userId := "alice"; Auth.email := "a@example.org";
                           Auth.role := "user" |}
              else None)
           (fun _ : string => Auth.Found) "abc.def.ghi");
    [discriminate | reflexivity | reflexivity | reflexivity].
Defined.

(** ** Listing *)

#[local] Instance newerFirst_total : Total Model.newerFirst.
Proof. intros x y. unfold Model.newerFirst. lia. Qed.

#[local] Instance newerFirst_transitive : Transitive Model.newerFirst.
Proof. intros x y z. unfold Model.newerFirst. lia. Qed.

Lemma map_fmap {A B} (f : A -> B) (l : list A) : map f l = f <$> l.
Proof. induction l as [|x l IH]; [reflexivity|]. cbn. now rewrite IH. Qed.

Lemma elem_of_find (q : Filter) (c : Collection) (kv : ObjectId * ICarEvaluation) :
  kv ∈ Model.find q c <-> c !! fst kv = Some (snd kv) /\ Model.matches q (snd kv) = true.
Proof.
  unfold Model.find. rewrite merge_sort_Permutation, list_elem_of_filter.
  destruct kv as [i d]. cbn. rewrite elem_of_map_to_list. tauto.
Qed.

Lemma length_find (q : Filter) (c : Collection) :
  Z.of_nat (length (Model.find q c)) = Model.countDocuments q c.
Proof. unfold Model.find, Model.countDocuments. now rewrite merge_sort_Permutation. Qed.

Lemma NoDup_find (q : Filter) (c : Collection) : NoDup (Model.find q c).
Proof.
  unfold Model.find. rewrite merge_sort_Permutation.
  apply NoDup_filter, NoDup_map_to_list.
Qed.

(** The page a successful listing returns. *)
Lemma getEvaluations_page (req : IAuthRequest) (page limit : option Z) (c : Collection) :
  success (getEvaluations req page limit c) = true ->
  let p := parseIntOr page 1 in
  let n := parseIntOr limit 10 in
  0 <= (p - 1) * n
  /\ getEvaluations req page limit c
     = json 200 true "Evaluations retrieved successfully"
         (SummaryPage
            ((fun kv => getSummary (fst kv) (snd kv))
               <$> take (Z.to_nat (Z.abs n))
                     (drop (Z.to_nat ((p - 1) * n)) (Model.find (queryOf req) c)))
            p n (Model.countDocuments (queryOf req) c)
            (Qceiling (inject_Z (Model.countDocuments (queryOf req) c) / inject_Z n))).
Proof.
  unfold getEvaluations.
  match goal with |- context [if ?g then _ else _] => destruct g end;
    [discriminate|].
  destruct (Z.ltb_spec ((parseIntOr page 1 - 1) * parseIntOr limit 10) 0);
    [discriminate|].
  intros _. split; [assumption|]. now rewrite map_fmap.
Qed.

(** X9. A successful listing shows only records of the caller: every
    summary is the summary of a stored record that the caller's filter
    selects; no record is shown twice, and the page is not longer than the
    limit nor than the total it reports. *)
Theorem list_shows_own_records (req : IAuthRequest) (page limit : option Z)
    (c : Collection) :
  success (getEvaluations req page limit c) = true ->
  exists l p n total pages,
    data (getEvaluations req page limit c) = SummaryPage l p n total pages
    /\ (forall s, s ∈ l ->
          exists _id d,
            c !! _id = Some d /\ Model.matches (queryOf req) d = true
            /\ s = getSummary _id d)
    /\ NoDup (summary_id <$> l)
    /\ Z.of_nat (length l) <= Z.abs n
    /\ Z.of_nat (length l) <= total.
Proof.
  intros Hs. destruct (getEvaluations_page req page limit c Hs) as [Hskip ->].
  cbn [data json]. do 5 eexists. split; [reflexivity|].
  set (evs := take _ (drop _ _)).
  assert (evs `sublist_of` Model.find (queryOf req) c) as Hsub.
  { etrans; [apply sublist_take | apply sublist_drop]. }
  repeat split.
  - intros s [[i d] [-> Hin]]%list_elem_of_fmap. exists i, d.
    apply (elem_of_sublist _ _ _ Hin), elem_of_find in Hsub. cbn in Hsub.
    tauto.
  - rewrite <- list_fmap_compose.
    apply (NoDup_fmap_fst evs).
    + intros i d1 d2 H1 H2.
      pose proof (elem_of_sublist _ _ _ H1 Hsub) as [H1' _]%elem_of_find.
      pose proof (elem_of_sublist _ _ _ H2 Hsub) as [H2' _]%elem_of_find.
      cbn in *. congruence.
    + apply (sublist_NoDup _ _ (NoDup_find _ _) Hsub).
  - rewrite length_fmap. unfold evs. rewrite length_take. lia.
  - rewrite length_fmap, <- length_find. apply inj_le, sublist_length, Hsub.
Qed.

Lemma list_shows_own_records_witness :
  exists l p n total pages,
    data (getEvaluations alice None None {[ 1%N := recordOfBob ]})
    = SummaryPage l p n total pages
    /\ (forall s, s ∈ l ->
          exists _id d,
            ({[ 1%N := recordOfBob ]} : Collection) !! _id = Some d
            /\ Model.matches (queryOf alice) d = true
            /\ s = getSummary _id d)
    /\ NoDup (summary_id <$> l)
    /\ Z.of_nat (length l) <= Z.abs n
    /\ Z.of_nat (length l) <= total.
Proof.
  apply (list_shows_own_records alice None None {[ 1%N := recordOfBob ]}).
  reflexivity.
Defined.

(** X10. The summaries of a page come newest first: each one was created
    no earlier than all that follow it. *)
Theorem list_newest_first (req : IAuthRequest) (page limit : option Z)
    (c : Collection) :
  success (getEvaluations req page limit c) = true ->
  exists l p n total pages,
    data (getEvaluations req page limit c) = SummaryPage l p n total pages
    /\ StronglySorted (fun a b => summary_createdAt b <= summary_createdAt a) l.
Proof.
  intros Hs. destruct (getEvaluations_page req page limit c Hs) as [Hskip ->].
  cbn [data json]. do 5 eexists. split; [reflexivity|].
  apply (StronglySorted_fmap _ Model.newerFirst); [now intros [] []|].
  pose proof (StronglySorted_merge_sort Model.newerFirst
                (filter (fun kv => Model.matches (queryOf req) (snd kv) = true)
                   (map_to_list c))) as Hsorted.
  fold (Model.find (queryOf req) c) in Hsorted.
  set (found := Model.find (queryOf req) c) in *.
  set (k := Z.to_nat _). set (m := Z.to_nat _).
  rewrite <- (take_drop m found) in Hsorted.
  apply StronglySorted_app_1_r in Hsorted.
  rewrite <- (take_drop k (drop m found)) in Hsorted.
  now apply StronglySorted_app_1_l in Hsorted.
Qed.

Lemma list_newest_first_witness :
  let c : Collection := {[ 1%N := recordOfBob; 2%N := recordWithFailure ]} in
  exists l p n total pages,
    data (getEvaluations bob None None c) = SummaryPage l p n total pages
    /\ StronglySorted (fun a b => summary_createdAt b <= summary_createdAt a) l
    /\ summary_id <$> l = [2%N; 1%N]
    /\ summary_createdAt <$> l = [130; 100].
Proof.
  intros c.
  destruct (list_newest_first bob None None c eq_refl)
    as (l & p & n & total & pages & Hd & Hs).
  exists l, p, n, total, pages. split; [exact Hd|]. split; [exact Hs|].
  vm_compute in Hd. injection Hd as Hl _ _ _ _. subst l. split; reflexivity.
Defined.

(** X11. The first page is complete when the limit allows it: with
    [page] absent or 1 and at least as many places as there are records of
    the caller, every record of the caller is on the page. *)
Theorem list_first_page_complete (req : IAuthRequest) (page limit : option Z)
    (c : Collection) (_id : ObjectId) (d : ICarEvaluation) :
  success (getEvaluations req page limit c) = true ->
  parseIntOr page 1 = 1 ->
  Model.countDocuments (queryOf req) c <= Z.abs (parseIntOr limit 10) ->
  c !! _id = Some d -> Model.matches (queryOf req) d = true ->
  exists l p n total pages,
    data (getEvaluations req page limit c) = SummaryPage l p n total pages
    /\ getSummary _id d ∈ l /\ Z.of_nat (length l) = total.
Proof.
  intros Hs Hp Hn Hc Hm. destruct (getEvaluations_page req page limit c Hs) as [Hskip ->].
  cbn [data json]. do 5 eexists. split; [reflexivity|].
  rewrite Hp. change ((1 - 1) * parseIntOr limit 10) with 0.
  change (Z.to_nat 0) with 0%nat. rewrite drop_0.
  rewrite <- length_find in Hn.
  rewrite take_ge by (apply Nat2Z.inj_le; rewrite Z2Nat.id by lia; exact Hn).
  split.
  - apply (list_elem_of_fmap_2 (fun kv => getSummary (fst kv) (snd kv)) _ (_id, d)).
    now apply elem_of_find.
  - now rewrite length_fmap, length_find.
Qed.

Lemma list_first_page_complete_witness :
  exists l p n total pages,
    data (getEvaluations bob None None {[ 1%N := recordOfBob ]})
    = SummaryPage l p n total pages
    /\ getSummary 1%N recordOfBob ∈ l /\ Z.of_nat (length l) = total.
Proof.
  apply (list_first_page_complete bob None None {[ 1%N := recordOfBob ]} 1%N recordOfBob);
    [reflexivity | reflexivity | vm_compute; discriminate | reflexivity | reflexivity].
Defined.

(** ** Creating, reading and deleting *)

(** X12. The owner's delete removes the record and nothing else: the
    answer is 200, afterwards nobody can get or delete the record (404),
    and every other record is as before. *)
Theorem delete_removes_record (_id : ObjectId) (req : IAuthRequest) (c : Collection)
    (d : ICarEvaluation) :
  Model.findOne _id (queryOf req) c = Some d ->
  let out := deleteEvaluation _id req c in
  fst out = json 200 true "Evaluation deleted successfully" NoData
  /\ (forall req', getEvaluation _id req' (snd out) = notFound
                   /\ deleteEvaluation _id req' (snd out) = (notFound, snd out))
  /\ (forall j, j <> _id -> snd out !! j = c !! j).
Proof.
  intros Hf. unfold deleteEvaluation, Model.findOneAndDelete. rewrite Hf. cbn.
  split; [reflexivity|]. split.
  - intros req'. unfold getEvaluation, deleteEvaluation, Model.findOneAndDelete,
      Model.findOne. now rewrite lookup_delete_eq.
  - intros j Hj. now apply lookup_delete_ne.
Qed.

Lemma delete_removes_record_witness :
  let out := deleteEvaluation 1%N bob {[ 1%N := recordOfBob ]} in
  fst out = json 200 true "Evaluation deleted successfully" NoData
  /\ (forall req', getEvaluation 1%N req' (snd out) = notFound
                   /\ deleteEvaluation 1%N req' (snd out) = (notFound, snd out))
  /\ (forall j, j <> 1%N -> snd out !! j = ({[ 1%N := recordOfBob ]} : Collection) !! j).
Proof.
  apply (delete_removes_record 1%N bob {[ 1%N := recordOfBob ]} recordOfBob).
  reflexivity.
Defined.

Lemma createEvaluation_timestamps (currentYear : Z) (now : Time) (generated : string)
    (newId : ObjectId) (req : IAuthRequest) (body : ICarDetails) (c c' : Collection)
    (r : Response) :
  createEvaluation currentYear now generated newId req body c = (r, c') ->
  success r = true ->
  exists d, c' !! newId = Some d /\ createdAt d = now /\ updatedAt d = now.
Proof.
  unfold createEvaluation.
  destruct (Validator.validateEvaluation currentYear body) as [|e errs].
  2: { intros [= <- <-]. discriminate. }
  unfold Model.create.
  destruct (Schema.validateDocument _ _).
  2: { intros [= <- <-]. discriminate. }
  destruct (c !! newId).
  { intros [= <- <-]. discriminate. }
  intros [= <- <-] _. eexists. rewrite lookup_insert_eq. repeat split.
Qed.

(** X13. An authenticated user reads back what they created: creation
    with an accepted body under a fresh id answers 201 and stores a draft
    with progress 20 owned by the user; a get by the same user returns that
    document, a get by any other user is answered 404. *)
Theorem user_reads_back_created_record (currentYear : Z) (now : Time)
    (generated : string) (newId : ObjectId) (u : string) (h : option string)
    (body : ICarDetails) (c : Collection) :
  Validator.validateEvaluation currentYear body = [] ->
  c !! newId = None ->
  let out :=
    createEvaluation currentYear now generated newId
      {| user := Some u; x_session_id := h |} body c in
  exists d,
    snd out = <[newId := d]> c
    /\ statusCode (fst out) = 201
    /\ userId d = Some u /\ status d = Draft /\ progress d = 20
    /\ createdAt d = now /\ updatedAt d = now
    /\ (forall h',
          getEvaluation newId {| user := Some u; x_session_id := h' |} (snd out)
          = json 200 true "Evaluation retrieved successfully" (DocumentData newId d))
    /\ (forall u' h', u' <> u ->
          getEvaluation newId {| user := Some u'; x_session_id := h' |} (snd out)
          = notFound).
Proof.
  intros Hv Hc out.
  destruct (createEvaluation_accepts currentYear now generated newId
              {| user := Some u; x_session_id := h |} body c Hv Hc) as (Hcode & Hs & _).
  fold out in Hcode, Hs. destruct out as [r c'] eqn:Hout. cbn [fst snd] in *.
  destruct (createEvaluation_created _ _ _ _ _ _ _ _ _ Hout Hs)
    as (d & -> & _ & _ & _ & Hu & _ & Hst & Hp & _).
  destruct (createEvaluation_timestamps _ _ _ _ _ _ _ _ _ Hout Hs)
    as (d' & Hd' & Hcr & Hup).
  rewrite lookup_insert_eq in Hd'. injection Hd' as <-.
  cbn in Hu. exists d. repeat split; trivial.
  - intros h'. unfold getEvaluation, Model.findOne. rewrite lookup_insert_eq. cbn.
    rewrite Hu. now rewrite bool_decide_eq_true_2.
  - intros u' h' Hne. unfold getEvaluation, Model.findOne. rewrite lookup_insert_eq. cbn.
    rewrite Hu. rewrite bool_decide_eq_false_2 by congruence. reflexivity.
Qed.

Lemma user_reads_back_created_record_witness :
  let out := createEvaluation 2025 100 "minted" 1%N alice civic ∅ in
  exists d,
    snd out = <[1%N := d]> (∅ : Collection)
    /\ statusCode (fst out) = 201
    /\ userId d = Some "alice" /\ status d = Draft /\ progress d = 20
    /\ createdAt d = 100 /\ updatedAt d = 100
    /\ (forall h',
          getEvaluation 1%N {| user := Some "alice"; x_session_id := h' |} (snd out)
          = json 200 true "Evaluation retrieved successfully" (DocumentData 1%N d))
    /\ (forall u' h', u' <> "alice" ->
          getEvaluation 1%N {| user := Some u'; x_session_id := h' |} (snd out)
          = notFound).
Proof.
  apply (user_reads_back_created_record 2025 100 "minted" 1%N "alice" None civic ∅);
    reflexivity.
Defined.

(** X14. Creation succeeds exactly when the body passes the request
    validators and the new id is free; when it does not succeed nothing is
    stored, and in no case is a record that was there changed or removed. *)
Theorem createEvaluation_success_iff (currentYear : Z) (now : Time)
    (generated : string) (newId : ObjectId) (req : IAuthRequest) (body : ICarDetails)
    (c : Collection) :
  let out := createEvaluation currentYear now generated newId req body c in
  (success (fst out) = true
   <-> Validator.validateEvaluation currentYear body = [] /\ c !! newId = None)
  /\ (success (fst out) = false -> snd out = c)
  /\ (forall j d, c !! j = Some d -> snd out !! j = Some d).
Proof.
  intros out.
  assert (success (fst out) = true
          <-> Validator.validateEvaluation currentYear body = [] /\ c !! newId = None)
    as Hiff.
  { split.
    - intros Hs. destruct out as [r c'] eqn:Hout.
      destruct (createEvaluation_created _ _ _ _ _ _ _ _ _ Hout Hs)
        as (d & _ & Hfree & Hv & _). now split.
    - intros [Hv Hfree].
      now destruct (createEvaluation_accepts currentYear now generated newId req body c
                      Hv Hfree) as (_ & Hs & _). }
  split; [exact Hiff|].
  destruct (success (fst out)) eqn:Hs.
  - destruct out as [r c'] eqn:Hout.
    destruct (createEvaluation_created _ _ _ _ _ _ _ _ _ Hout Hs)
      as (d & -> & Hfree & _).
    split; [discriminate|]. cbn [snd]. intros j dj Hj.
    rewrite lookup_insert_ne by congruence. exact Hj.
  - assert (snd out = c) as ->; [|now split].
    subst out. revert Hs. unfold createEvaluation.
    destruct (Validator.validateEvaluation currentYear body); [|reflexivity].
    destruct (Model.create _ _ _ _ _) as [e|[d c']]; [reflexivity|]. discriminate.
Qed.

Lemma createEvaluation_success_iff_witness :
  success (fst (createEvaluation 2025 100 "minted" 1%N alice civic ∅)) = true.
Proof.
  apply (proj1 (createEvaluation_success_iff 2025 100 "minted" 1%N alice civic ∅)).
  split; reflexivity.
Defined.

(** ** What the operations leave alone *)

Lemma updateEvaluation_cases (currentYear : Z) (now : Time) (_id : ObjectId)
    (req : IAuthRequest) (body : Updates) (c : Collection) :
  (Model.findOne _id (queryOf req) c = None
   \/ Model.validateUpdate currentYear (removeSensitive body) <> [])
  /\ statusCode (fst (updateEvaluation currentYear now _id req body c)) <> 200
  /\ success (fst (updateEvaluation currentYear now _id req body c)) = false
  /\ snd (updateEvaluation currentYear now _id req body c) = c
  \/ (exists d,
        Model.findOne _id (queryOf req) c = Some d
        /\ Model.validateUpdate currentYear (removeSensitive body) = []).
Proof.
  destruct (Model.validateUpdate currentYear (removeSensitive body)) eqn:Hv.
  - destruct (Model.findOne _id (queryOf req) c) as [d|] eqn:Hf; [right; eauto|].
    left. unfold updateEvaluation, Model.findOneAndUpdate. rewrite Hv, Hf.
    repeat split; [now left | discriminate].
  - left. unfold updateEvaluation, Model.findOneAndUpdate. rewrite Hv.
    repeat split; [now right | discriminate].
Qed.

(** X15. No partial side effects but one: a delete, analysis, inspection
    update or recommendation request that is not answered with success
    leaves the whole collection as it was, and so does an update that the
    update validators reject or whose query finds nothing.  An update that
    fails later, when [save] rejects the document, leaves the record as
    [findOneAndUpdate] has written it, with the values of the body. *)
Theorem failure_changes_nothing (currentYear : Z) (now : Time) (_id : ObjectId)
    (req : IAuthRequest) (body : Updates) (mdraws : MarketDraws)
    (rdraws : nat -> Z * bool) (inspectionType : string)
    (results : InspectionResults) (c : Collection) :
  let updated := updateEvaluation currentYear now _id req body c in
  (success (fst (deleteEvaluation _id req c)) = false ->
   snd (deleteEvaluation _id req c) = c)
  /\ (success (fst (analyzeMarket currentYear now mdraws _id req c)) = false ->
      snd (analyzeMarket currentYear now mdraws _id req c) = c)
  /\ (success (fst (updateInspection currentYear now _id req inspectionType results c))
      = false ->
      snd (updateInspection currentYear now _id req inspectionType results c) = c)
  /\ (success (fst (generateRecommendations currentYear now rdraws _id req c)) = false ->
      snd (generateRecommendations currentYear now rdraws _id req c) = c)
  /\ (Model.findOne _id (queryOf req) c = None
      \/ Model.validateUpdate currentYear (removeSensitive body) <> [] ->
      success (fst updated) = false /\ snd updated = c)
  /\ (forall d,
        Model.findOne _id (queryOf req) c = Some d ->
        Model.validateUpdate currentYear (removeSensitive body) = [] ->
        success (fst updated) = false ->
        snd updated
        = <[_id := set_updatedAt now (Model.applySet (removeSensitive body) d)]> c).
Proof.
  intros updated. subst updated.
  destruct (Model.findOne _id (queryOf req) c) as [d|] eqn:Hf.
  - rewrite (analyzeMarket_found currentYear now mdraws _ _ _ _ Hf),
      (updateInspection_found currentYear now _ _ inspectionType results _ _ Hf),
      (generateRecommendations_found currentYear now rdraws _ _ _ _ Hf).
    split; [|split; [|split; [|split; [|split]]]].
    + unfold deleteEvaluation, Model.findOneAndDelete. rewrite Hf. cbn. discriminate.
    + destruct (Schema.validateDocument _ _); [cbn; discriminate | reflexivity].
    + destruct (Schema.validateDocument _ _); [cbn; discriminate | reflexivity].
    + destruct (Schema.validateDocument _ _); [cbn; discriminate | reflexivity].
    + intros [[=]|Hv].
      destruct (updateEvaluation_cases currentYear now _id req body c)
        as [(_ & _ & Hs & Hc)|(d' & _ & Hv')]; [now split | contradiction].
    + intros d' [= <-] Hv. rewrite (updateEvaluation_found _ now _ _ _ _ _ Hf Hv).
      destruct (Schema.validateDocument _ _); [cbn; discriminate | reflexivity].
  - destruct (not_found_everywhere currentYear now _ _ _ Hf)
      as (_ & Hd & Hu & Ha & Hi & Hr).
    rewrite Hd, Hu, Ha, Hi, Hr. cbn [fst snd].
    repeat split; try discriminate. now destruct (Model.validateUpdate _ _).
Qed.

Lemma failure_changes_nothing_witness :
  let c : Collection := {[ 1%N := recordOfGift ]} in
  let c' : Collection := {[ 1%N := recordOf1980 ]} in
  (statusCode (fst (analyzeMarket 2025 200 someDraws 1%N bob c)) = 400
   /\ snd (analyzeMarket 2025 200 someDraws 1%N bob c) = c)
  /\ statusCode (fst (updateEvaluation 2025 200 1%N bob (withProgress 50) c')) = 400
  /\ snd (updateEvaluation 2025 200 1%N bob (withProgress 50) c')
     = <[1%N := set_updatedAt 200 (set_progress 50 recordOf1980)]> c'.
Proof.
  intros c c'. split; [split; [reflexivity|]|split; [reflexivity|]].
  - apply (proj1 (proj2 (failure_changes_nothing 2025 200 1%N bob noUpdates someDraws
                           someCosts "general" noResults c))).
    reflexivity.
  - apply (proj2 (proj2 (proj2 (proj2 (proj2
             (failure_changes_nothing 2025 200 1%N bob (withProgress 50) someDraws
                someCosts "general" noResults c')))))
             recordOf1980); reflexivity.
Defined.

(** X16. An operation on one record never touches another: whatever its
    outcome, every record under a different id is afterwards what it was
    before (for a creation: every record under an id other than the new
    one). *)
Theorem other_records_untouched (currentYear : Z) (now : Time) (generated : string)
    (_id j : ObjectId) (req : IAuthRequest) (details : ICarDetails) (body : Updates)
    (mdraws : MarketDraws) (rdraws : nat -> Z * bool) (inspectionType : string)
    (results : InspectionResults) (c : Collection) :
  j <> _id ->
  snd (createEvaluation currentYear now generated _id req details c) !! j = c !! j
  /\ snd (updateEvaluation currentYear now _id req body c) !! j = c !! j
  /\ snd (deleteEvaluation _id req c) !! j = c !! j
  /\ snd (analyzeMarket currentYear now mdraws _id req c) !! j = c !! j
  /\ snd (updateInspection currentYear now _id req inspectionType results c) !! j
     = c !! j
  /\ snd (generateRecommendations currentYear now rdraws _id req c) !! j = c !! j.
Proof.
  intros Hj. split.
  { unfold createEvaluation.
    destruct (Validator.validateEvaluation currentYear details); [|reflexivity].
    unfold Model.create.
    destruct (Schema.validateDocument _ _); [|reflexivity].
    destruct (c !! _id); [reflexivity|]. cbn. now rewrite lookup_insert_ne. }
  destruct (Model.findOne _id (queryOf req) c) as [d|] eqn:Hf.
  - rewrite (analyzeMarket_found currentYear now mdraws _ _ _ _ Hf),
      (updateInspection_found currentYear now _ _ inspectionType results _ _ Hf),
      (generateRecommendations_found currentYear now rdraws _ _ _ _ Hf).
    split; [|split; [|split; [|split]]].
    + destruct (updateEvaluation_cases currentYear now _id req body c)
        as [(_ & _ & _ & ->)|(d' & _ & Hv)]; [reflexivity|].
      rewrite (updateEvaluation_found _ now _ _ _ _ _ Hf Hv).
      destruct (Schema.validateDocument _ _); cbn [snd];
        now rewrite lookup_insert_ne.
    + unfold deleteEvaluation, Model.findOneAndDelete. rewrite Hf. cbn.
      now rewrite lookup_delete_ne.
    + destruct (Schema.validateDocument _ _); cbn [snd];
        now rewrite ?lookup_insert_ne.
    + destruct (Schema.validateDocument _ _); cbn [snd];
        now rewrite ?lookup_insert_ne.
    + destruct (Schema.validateDocument _ _); cbn [snd];
        now rewrite ?lookup_insert_ne.
  - destruct (not_found_everywhere currentYear now _ _ _ Hf)
      as (_ & Hd & Hu & Ha & Hi & Hr).
    now rewrite Hd, Hu, Ha, Hi, Hr.
Qed.

Lemma other_records_untouched_witness :
  let c : Collection := {[ 2%N := recordOfBob ]} in
  snd (createEvaluation 2025 100 "minted" 1%N alice civic c) !! 2%N = c !! 2%N
  /\ snd (updateEvaluation 2025 100 1%N alice noUpdates c) !! 2%N = c !! 2%N
  /\ snd (deleteEvaluation 1%N alice c) !! 2%N = c !! 2%N
  /\ snd (analyzeMarket 2025 100 someDraws 1%N alice c) !! 2%N = c !! 2%N
  /\ snd (updateInspection 2025 100 1%N alice "general" noResults c) !! 2%N = c !! 2%N
  /\ snd (generateRecommendations 2025 100 someCosts 1%N alice c) !! 2%N = c !! 2%N.
Proof.
  apply (other_records_untouched 2025 100 "minted" 1%N 2%N alice civic noUpdates
           someDraws someCosts "general" noResults {[ 2%N := recordOfBob ]}).
  discriminate.
Defined.

(** ** Updates *)

Lemma set_updatedAt_same (e : ICarEvaluation) : set_updatedAt (updatedAt e) e = e.
Proof. now destruct e. Qed.

Lemma saved_recalculate_stamped (now : Time) (e : ICarEvaluation) :
  updatedAt e = now -> saved now false e (recalculate e) = recalculate e.
Proof.
  intros <-. unfold saved. destruct (_ && _); [reflexivity|].
  apply (set_updatedAt_same (recalculate e)).
Qed.

(** X17. An update cannot move a record to another owner or forge its
    progress: unless the update is answered 400 (the body or the document
    fails validation), the keys [_id], [userId], [createdAt], [updatedAt],
    [sessionId] and [progress] of the body have no effect; the answer and
    the collection are those of the body without these keys. *)
Theorem update_ignores_identity_and_progress (currentYear : Z) (now : Time)
    (_id : ObjectId) (req : IAuthRequest) (body : Updates) (c : Collection) :
  statusCode (fst (updateEvaluation currentYear now _id req body c)) <> 400 ->
  updateEvaluation currentYear now _id req body c
  = updateEvaluation currentYear now _id req (contentKeys body) c.
Proof.
  intros Hok.
  destruct (Model.validateUpdate currentYear (removeSensitive body)) eqn:Hv.
  2: { contradict Hok. unfold updateEvaluation, Model.findOneAndUpdate.
       now rewrite Hv. }
  assert (Model.validateUpdate currentYear (removeSensitive (contentKeys body)) = [])
    as Hv'.
  { revert Hv. unfold Model.validateUpdate. cbn. rewrite !app_nil.
    intros (Hcd & Hph & _). now repeat split. }
  destruct (Model.findOne _id (queryOf req) c) as [d|] eqn:Hf.
  - revert Hok.
    rewrite (updateEvaluation_found _ now _ _ body _ _ Hf Hv),
      (updateEvaluation_found _ now _ _ (contentKeys body) _ _ Hf Hv').
    rewrite !saved_recalculate_stamped by reflexivity.
    assert (recalculate (set_updatedAt now (Model.applySet (removeSensitive body) d))
            = recalculate
                (set_updatedAt now
                   (Model.applySet (removeSensitive (contentKeys body)) d))) as ->.
    { unfold recalculate, set_progress, set_updatedAt, Model.applySet. cbn.
      reflexivity. }
    destruct (Schema.validateDocument _ _); [reflexivity|].
    intros Hok. now contradict Hok.
  - destruct (not_found_everywhere currentYear now _ _ _ Hf) as (_ & _ & Hu & _).
    now rewrite !Hu, Hv, Hv'.
Qed.

Lemma update_ignores_identity_and_progress_witness :
  updateEvaluation 2025 200 1%N bob forgedUpdates {[ 1%N := recordOfBob ]}
  = updateEvaluation 2025 200 1%N bob (contentKeys forgedUpdates)
      {[ 1%N := recordOfBob ]}
  /\ statusCode (fst (updateEvaluation 2025 200 1%N bob forgedUpdates
                        {[ 1%N := recordOfBob ]})) = 200.
Proof.
  split; [|reflexivity].
  apply (update_ignores_identity_and_progress 2025 200 1%N bob forgedUpdates
           {[ 1%N := recordOfBob ]}).
  vm_compute. discriminate.
Defined.

(** X18. After every successful update, analysis, inspection update and
    recommendation the stored progress is the value [calculateProgress]
    gives for the stored record, and it lies between 0 and 100. *)
Theorem stored_progress_is_recomputed (currentYear : Z) (now : Time)
    (_id : ObjectId) (req : IAuthRequest) (body : Updates) (mdraws : MarketDraws)
    (rdraws : nat -> Z * bool) (inspectionType : string)
    (results : InspectionResults) (c : Collection) :
  let current (o : Response * Collection) :=
    success (fst o) = true ->
    exists d, snd o !! _id = Some d
              /\ progress d = calculateProgress d /\ 0 <= progress d <= 100 in
  current (updateEvaluation currentYear now _id req body c)
  /\ current (analyzeMarket currentYear now mdraws _id req c)
  /\ current (updateInspection currentYear now _id req inspectionType results c)
  /\ current (generateRecommendations currentYear now rdraws _id req c).
Proof.
  intros current. unfold current.
  assert (forall a loaded doc,
            exists d, (<[_id := saved now a loaded (recalculate doc)]> c) !! _id = Some d
                      /\ progress d = calculateProgress d /\ 0 <= progress d <= 100)
    as Hsaved.
  { intros a loaded doc. eexists. split; [apply lookup_insert_eq|].
    rewrite saved_progress_current. split; [reflexivity|]. apply calculateProgress_range. }
  destruct (Model.findOne _id (queryOf req) c) as [d|] eqn:Hf.
  - rewrite (analyzeMarket_found currentYear now mdraws _ _ _ _ Hf),
      (updateInspection_found currentYear now _ _ inspectionType results _ _ Hf),
      (generateRecommendations_found currentYear now rdraws _ _ _ _ Hf).
    split; [|split; [|split]].
    + destruct (updateEvaluation_cases currentYear now _id req body c)
        as [(_ & _ & Hfail & _)|(d' & _ & Hv)]; [rewrite Hfail; discriminate|].
      rewrite (updateEvaluation_found _ now _ _ _ _ _ Hf Hv).
      destruct (Schema.validateDocument _ _); [intros _; apply Hsaved | discriminate].
    + destruct (Schema.validateDocument _ _); [intros _; apply Hsaved | discriminate].
    + destruct (Schema.validateDocument _ _); [intros _; apply Hsaved | discriminate].
    + destruct (Schema.validateDocument _ _); [intros _; apply Hsaved | discriminate].
  - destruct (not_found_everywhere currentYear now _ _ _ Hf)
      as (_ & _ & Hu & Ha & Hi & Hr).
    rewrite Hu, Ha, Hi, Hr. cbn [fst].
    repeat split; try (rewrite success_notFound; discriminate).
    destruct (Model.validateUpdate _ _); discriminate.
Qed.

Lemma stored_progress_is_recomputed_witness :
  exists d,
    snd (analyzeMarket 2025 200 someDraws 1%N bob {[ 1%N := recordOfBob ]}) !! 1%N
    = Some d
    /\ progress d = calculateProgress d /\ 0 <= progress d <= 100.
Proof.
  apply (proj1 (proj2 (stored_progress_is_recomputed 2025 200 1%N bob noUpdates
                         someDraws someCosts "general" noResults
                         {[ 1%N := recordOfBob ]}))).
  reflexivity.
Defined.

(** ** Inspection updates *)











(** X20. An inspection update on a record that satisfies the schema
    completes the section it names and leaves the two others, the owner,
    the car details, the photos, the Carfax section, the market analysis,
    the recommendations and the creation time as they were. *)
Theorem updateInspection_touches_one_section (currentYear : Z) (now : Time)
    (_id : ObjectId) (req : IAuthRequest) (inspectionType : string)
    (results : InspectionResults) (c : Collection) (d : ICarEvaluation) :
  Model.findOne _id (queryOf req) c = Some d ->
  valid currentYear d ->
  exists d',
    snd (updateInspection currentYear now _id req inspectionType results c) !! _id
    = Some d'
    /\ (userId d', sessionId d', carDetails d', photos d', carfax d',
        marketAnalysis d', recommendations d', createdAt d')
       = (userId d, sessionId d, carDetails d, photos d, carfax d,
          marketAnalysis d, recommendations d, createdAt d)
    /\ (if String.eqb inspectionType "general"
        then general_completed (general (inspection d')) = true
        else general (inspection d') = general (inspection d))
    /\ (if String.eqb inspectionType "mechanical"
        then mechanical_completed (mechanical (inspection d')) = true
        else mechanical (inspection d') = mechanical (inspection d))
    /\ (if String.eqb inspectionType "paperwork"
        then paperwork_completed (paperwork (inspection d')) = true
        else paperwork (inspection d') = paperwork (inspection d)).
Proof.
  intros Hf Hv.
  rewrite (updateInspection_valid currentYear now _ _ inspectionType results _ _ Hf Hv).
  cbn [snd]. rewrite lookup_insert_eq. eexists. split; [reflexivity|].
  destruct (saved_stamped now (isSection inspectionType) d
              (recalculate (set_status InProgress (inspected inspectionType results d))))
    as [t ->].
  unfold inspected.
  destruct (String.eqb_spec inspectionType "general") as [->|Hg];
    [|destruct (String.eqb_spec inspectionType "mechanical") as [->|Hm];
      [|destruct (String.eqb_spec inspectionType "paperwork") as [->|Hp]]];
    cbn; repeat split.
Qed.

Lemma updateInspection_touches_one_section_witness :
  exists d',
    snd (updateInspection 2025 200 1%N bob "mechanical" noResults
           {[ 1%N := recordOfBob ]}) !! 1%N = Some d'
    /\ (userId d', sessionId d', carDetails d', photos d', carfax d',
        marketAnalysis d', recommendations d', createdAt d')
       = (userId recordOfBob, sessionId recordOfBob, carDetails recordOfBob,
          photos recordOfBob, carfax recordOfBob, marketAnalysis recordOfBob,
          recommendations recordOfBob, createdAt recordOfBob)
    /\ (if String.eqb "mechanical" "general"
        then general_completed (general (inspection d')) = true
        else general (inspection d') = general (inspection recordOfBob))
    /\ (if String.eqb "mechanical" "mechanical"
        then mechanical_completed (mechanical (inspection d')) = true
        else mechanical (inspection d') = mechanical (inspection recordOfBob))
    /\ (if String.eqb "mechanical" "paperwork"
        then paperwork_completed (paperwork (inspection d')) = true
        else paperwork (inspection d') = paperwork (inspection recordOfBob)).
Proof.
  apply (updateInspection_touches_one_section 2025 200 1%N bob "mechanical" noResults
           {[ 1%N := recordOfBob ]} recordOfBob); reflexivity.
Defined.

(** ** The mocked estimators *)

(** X21. The deal score never rises with the price: of two prices
    relative to the market, the higher one gets a score that is not higher;
    every score lies between 15 and 90. *)
Theorem dealScoreOf_antitone (q1 q2 : Q) :
  (q1 <= q2)%Q ->
  dealScoreOf (Js.Finite q2) <= dealScoreOf (Js.Finite q1)
  /\ 15 <= dealScoreOf (Js.Finite q1) <= 90.
Proof.
  intros Hle. unfold dealScoreOf, Js.ltNumber, Js.lt.
  repeat match goal with
         | |- context [Qle_bool ?a ?b] =>
             let H := fresh "H" in
             destruct (Qle_bool a b) eqn:H;
             [apply Qle_bool_iff in H
             |assert (~ (a <= b)%Q) by (rewrite <- Qle_bool_iff; congruence); clear H]
         end; cbn; split; try lia; exfalso; lra.
Qed.

Lemma dealScoreOf_antitone_witness :
  dealScoreOf (Js.Finite (5 # 1)) <= dealScoreOf (Js.Finite (-25 # 1))
  /\ 15 <= dealScoreOf (Js.Finite (-25 # 1)) <= 90.
Proof. apply (dealScoreOf_antitone (-25 # 1) (5 # 1)). discriminate. Defined.

(** X22. On a record that satisfies the schema a market analysis fails
    exactly when the estimate and the asking price are both 0 (the
    quotient is then [NaN]): it is answered 400 and stores nothing.
    Otherwise it stores what it returns and touches nothing else: the
    stored analysis is the one in the answer, it has three comparables and
    a deal score between 15 and 90 which the returned summary shows; owner,
    car details, photos, inspection and recommendations are as before. *)
Theorem analyzeMarket_stores_analysis (currentYear : Z) (now : Time)
    (draws : MarketDraws) (_id : ObjectId) (req : IAuthRequest) (c : Collection)
    (d : ICarEvaluation) :
  Model.findOne _id (queryOf req) c = Some d ->
  valid currentYear d ->
  let m := mockMarketAnalysis draws (carDetails d) in
  let out := analyzeMarket currentYear now draws _id req c in
  (estimatedValue m = 0 /\ price (carDetails d) = 0 ->
   statusCode (fst out) = 400 /\ success (fst out) = false /\ snd out = c)
  /\ (~ (estimatedValue m = 0 /\ price (carDetails d) = 0) ->
      exists d',
        out = (json 200 true "Market analysis completed"
                 (AnalysisData (getSummary _id d') m), <[_id := d']> c)
        /\ marketAnalysis d' = Some m
        /\ length (comparable m) = 3%nat
        /\ 15 <= dealScore m <= 90
        /\ summary_dealScore (getSummary _id d') = Some (dealScore m)
        /\ (userId d', sessionId d', carDetails d', photos d', carfax d',
            inspection d', recommendations d', createdAt d')
           = (userId d, sessionId d, carDetails d, photos d, carfax d,
              inspection d, recommendations d, createdAt d)).
Proof.
  intros Hf Hv m out. subst out.
  rewrite (analyzeMarket_valid currentYear now draws _ _ _ _ Hf Hv). fold m.
  pose proof (priceVsMarket_NaN draws (carDetails d)) as Hnan. fold m in Hnan.
  split.
  - intros Hz. apply Hnan in Hz. rewrite Hz. now repeat split.
  - intros Hz.
    assert (exists d',
              match priceVsMarket m with
              | Js.NaN =>
                  (errorHandler
                     (ValidationError
                        (Schema.castNumber "marketAnalysis.priceVsMarket" Js.NaN)), c)
              | _ =>
                  (json 200 true "Market analysis completed"
                     (AnalysisData
                        (getSummary _id
                           (saved now true d
                              (recalculate
                                 (set_status Analyzing (set_marketAnalysis (Some m) d)))))
                        m),
                   <[_id := saved now true d
                              (recalculate
                                 (set_status Analyzing (set_marketAnalysis (Some m) d)))]>
                     c)
              end
              = (json 200 true "Market analysis completed"
                   (AnalysisData (getSummary _id d') m), <[_id := d']> c)
              /\ d' = set_updatedAt now
                        (recalculate
                           (set_status Analyzing (set_marketAnalysis (Some m) d))))
      as (d' & -> & ->).
    { eexists. split; [|reflexivity].
      destruct (priceVsMarket m) eqn:Hp; try reflexivity. contradict Hz. now apply Hnan. }
    eexists. split; [reflexivity|].
    pose proof (dealScoreOf_values
                  (Js.times
                     (Js.div (price (carDetails d) - estimatedValue m) (estimatedValue m)
                        (Js.lt (inject_Z (base draws + 15000)
                                + Qmax 0 (inject_Z (150000 - mileage (carDetails d)) / 15000)
                                  * 1000
                                + inject_Z (Z.max 0 (2024 - year (carDetails d)) * -800)) 0))
                     100)) as Hin.
    cbn. split; [reflexivity|]. split; [reflexivity|].
    split; [cbn in Hin; intuition lia|].
    split; [now rewrite dealScoreOf_truthy | reflexivity].
Qed.

Lemma analyzeMarket_stores_analysis_witness :
  (let m := mockMarketAnalysis someDraws (carDetails recordOfBob) in
   exists d',
     analyzeMarket 2025 200 someDraws 1%N bob {[ 1%N := recordOfBob ]}
     = (json 200 true "Market analysis completed" (AnalysisData (getSummary 1%N d') m),
        <[1%N := d']> {[ 1%N := recordOfBob ]})
     /\ marketAnalysis d' = Some m
     /\ length (comparable m) = 3%nat
     /\ 15 <= dealScore m <= 90
     /\ summary_dealScore (getSummary 1%N d') = Some (dealScore m)
     /\ (userId d', sessionId d', carDetails d', photos d', carfax d',
         inspection d', recommendations d', createdAt d')
        = (userId recordOfBob, sessionId recordOfBob, carDetails recordOfBob,
           photos recordOfBob, carfax recordOfBob, inspection recordOfBob,
           recommendations recordOfBob, createdAt recordOfBob))
  /\ statusCode (fst (analyzeMarket 2025 200 someDraws 1%N bob {[ 1%N := recordOfGift ]}))
     = 400
  /\ success (fst (analyzeMarket 2025 200 someDraws 1%N bob {[ 1%N := recordOfGift ]}))
     = false
  /\ snd (analyzeMarket 2025 200 someDraws 1%N bob {[ 1%N := recordOfGift ]})
     = {[ 1%N := recordOfGift ]}.
Proof.
  destruct (analyzeMarket_stores_analysis 2025 200 someDraws 1%N bob
              {[ 1%N := recordOfBob ]} recordOfBob) as [_ Hok];
    [reflexivity | reflexivity |].
  destruct (analyzeMarket_stores_analysis 2025 200 someDraws 1%N bob
              {[ 1%N := recordOfGift ]} recordOfGift) as [Hfail _];
    [reflexivity | reflexivity |].
  split.
  - apply Hok. vm_compute. intros [[=] _].
  - apply Hfail. split; reflexivity.
Defined.

Lemma repairCostsOf_issues (rs : list IInspectionResult) (n : nat)
    (draws : nat -> Z * bool) :
  issue <$> repairCostsOf rs n draws
  = item <$> filter (fun r => result_status r = ResultFail) rs.
Proof.
  revert n. induction rs as [|r rs IH]; intros n; [reflexivity|]. cbn [repairCostsOf].
  rewrite filter_cons. destruct (result_status r) eqn:Hr.
  - rewrite decide_False by congruence. apply IH.
  - rewrite decide_True by reflexivity. cbn. now rewrite IH.
  - rewrite decide_False by congruence. apply IH.
Qed.

Lemma repairCostsOf_costs (rs : list IInspectionResult) (n : nat)
    (draws : nat -> Z * bool) :
  (forall k, 0 <= fst (draws k) < 2000) ->
  Forall (fun rc => 200 <= estimatedCost rc < 2200 /\ priority rc <> Low)
         (repairCostsOf rs n draws).
Proof.
  intros Hd. revert n. induction rs as [|r rs IH]; intros n; [constructor|].
  cbn [repairCostsOf]. destruct (result_status r); try apply IH.
  constructor; [|apply IH]. cbn. specialize (Hd n).
  split; [lia|]. now destruct (snd (draws n)).
Qed.

(** X23. Recommendations list one repair cost for each failed result of a
    completed mechanical inspection, in the order of the results, and none
    when the mechanical inspection is not completed; with draws in the range
    of the mock each cost lies between 200 and 2199 and no priority is
    [low]. *)
Theorem repairCosts_follow_failures (draws : nat -> Z * bool) (e : ICarEvaluation) :
  (forall k, 0 <= fst (draws k) < 2000) ->
  let r := mockRecommendations draws e in
  issue <$> repairCosts r
  = (if mechanical_completed (mechanical (inspection e))
     then item <$> filter (fun x => result_status x = ResultFail)
                     (results (mechanical (inspection e)))
     else [])
  /\ Forall (fun rc => 200 <= estimatedCost rc < 2200 /\ priority rc <> Low)
            (repairCosts r).
Proof.
  intros Hd r. subst r. unfold mockRecommendations. cbn [repairCosts].
  destruct (mechanical_completed (mechanical (inspection e))).
  - split; [apply repairCostsOf_issues | now apply repairCostsOf_costs].
  - split; [reflexivity | constructor].
Qed.

Lemma repairCosts_follow_failures_witness :
  let r := mockRecommendations steadyDraws recordWithFailure in
  issue <$> repairCosts r
  = (if mechanical_completed (mechanical (inspection recordWithFailure))
     then item <$> filter (fun x => result_status x = ResultFail)
                     (results (mechanical (inspection recordWithFailure)))
     else [])
  /\ Forall (fun rc => 200 <= estimatedCost rc < 2200 /\ priority rc <> Low)
            (repairCosts r).
Proof.
  apply (repairCosts_follow_failures steadyDraws recordWithFailure).
  intros k. cbn. lia.
Defined.

Lemma total_not_negative (l : list IRepairCost) (acc : Z) :
  Forall (fun rc => 0 <= estimatedCost rc) l ->
  acc <= fold_left (fun total cost => total + estimatedCost cost) l acc.
Proof.
  intros Hl. revert acc. induction Hl as [|rc l Hrc _ IH]; intros acc; cbn; [lia|].
  specialize (IH (acc + estimatedCost rc)). lia.
Qed.

(** X24. For a car whose estimated value and asking price are not
    negative the three offers come in order: the suggested offer is not
    above the maximum offer, and the maximum offer is not above the
    walk-away price. *)
Theorem offers_in_order (draws : nat -> Z * bool) (e : ICarEvaluation) :
  (forall k, 0 <= fst (draws k)) ->
  0 <= price (carDetails e) ->
  (forall m, marketAnalysis e = Some m -> 0 <= estimatedValue m) ->
  let r := mockRecommendations draws e in
  suggestedOffer r <= maxOffer r /\ maxOffer r <= walkAwayPrice r.
Proof.
  intros Hd Hp Hm r. subst r. unfold mockRecommendations.
  cbn [suggestedOffer maxOffer walkAwayPrice].
  set (costs := if mechanical_completed _ then _ else _).
  set (total := fold_left _ costs 0).
  set (ev := Js.orNum _ _).
  assert (0 <= ev) as Hev.
  { unfold ev, Js.orNum. destruct (marketAnalysis e) as [m|]; cbn.
    - destruct (Js.truthyNum (estimatedValue m)); [now apply Hm | exact Hp].
    - exact Hp. }
  assert (0 <= total) as Ht.
  { apply total_not_negative. unfold costs.
    destruct (mechanical_completed _); [|constructor].
    generalize 0%nat. induction (results (mechanical (inspection e))) as [|x xs IH];
      intros n; [constructor|].
    cbn [repairCostsOf]. destruct (result_status x); try apply IH.
    constructor; [|apply IH]. cbn. specialize (Hd n). lia. }
  rewrite Zle_Qle in Hev, Ht. change (inject_Z 0) with 0%Q in Hev, Ht.
  unfold Js.round. split; apply Qfloor_resp_le; lra.
Qed.

Lemma offers_in_order_witness :
  let r := mockRecommendations steadyDraws recordWithFailure in
  suggestedOffer r <= maxOffer r /\ maxOffer r <= walkAwayPrice r.
Proof.
  apply (offers_in_order steadyDraws recordWithFailure).
  - intros k. cbn. lia.
  - cbn. lia.
  - intros m. cbn. discriminate.
Defined.

(** ** The error handler *)

(** X25. The error handler always answers a failure, and never with a
    status below 400 unless the error itself carries one: for an error
    whose own [statusCode] is absent, 0, or at least 400 the status
    answered is at least 400. *)
Theorem errorHandler_answers_failure (err : CustomError) :
  (forall s, err_statusCode err = Some s -> s = 0 \/ 400 <= s) ->
  success (errorHandler err) = false /\ 400 <= statusCode (errorHandler err).
Proof.
  intros Hs. split; [reflexivity|]. unfold errorHandler. cbn [statusCode].
  assert (400 <= Js.orNum (default 0 (err_statusCode err)) 500) as Hbase.
  { unfold Js.orNum, Js.truthyNum. destruct (err_statusCode err) as [s|]; cbn; [|lia].
    destruct (Z.eqb_spec s 0); cbn; [lia|]. destruct (Hs s eq_refl); lia. }
  repeat match goal with
         | |- context [if ?b then _ else _] => destruct b
         | |- context [match ?o with Some _ => _ | None => _ end] => destruct o
         end; cbn; lia.
Qed.

Lemma errorHandler_answers_failure_witness :
  success (errorHandler DuplicateKeyError) = false
  /\ 400 <= statusCode (errorHandler DuplicateKeyError).
Proof. apply (errorHandler_answers_failure DuplicateKeyError). discriminate. Defined.
